(** * Server discovery and query protocol

    A shallow embedding of [engine/source/game/net/serverQuery.cpp]: the
    client-side query orchestrator (ping list, query list, master-list
    reassembly), the server-side ping responder, the heartbeat loop and the
    [setServerInfo] console function.

    Conventions.
    - Fixed-width integers are values of [Z]; every place where the C++
      arithmetic can wrap goes through one of the casts [U8], [U16], [U32]
      or [S32].
    - A [Vector<T>] is a [list T]; [erase(i)] is [delete i], [push_back] is
      [++ [x]], [v[i]] is [v !! i].
    - The module-level globals of the source are the fields of [State], under
      their source names.  The three outward effects of the file (datagrams
      handed to the socket, events posted to the simulator, script callbacks
      and console variables) are further fields of the same record, so that
      "nothing was sent" is an equation between states.
    - [Con::printf] / [Con::errorf] only write log lines and are left out.
    - A packet reaches its handler already split into fields (the records
      [ListResponse] and [PingResponse]); the bit-level reader is not
      modelled, the writer is kept as the sequence of [write] calls.

    Modelled: the look-ups and queue helpers, [getMasterServerList], the
    heartbeat functions, [clearServerList], [cancelServerQuery],
    [stopServerQuery], [querySingleServer], [setServerInfo],
    [processPingsAndQueries], [processServerListPackets], the progress
    callbacks, and the handlers of [MasterServerListResponse],
    [GamePingRequest] and [GamePingResponse].  The LAN, master and favourites
    query starters, [processMasterServerQuery], the info handlers and the
    NAT-traversal packets are outside this development. *)

From stdpp Require Import base list strings gmap pretty.
From Stdlib Require Import ZArith Lia Ascii.

#[local] Open Scope Z_scope.

(** ** Machine integers *)

Definition U8 (x : Z) : Z := x mod 2 ^ 8.
Definition U16 (x : Z) : Z := x mod 2 ^ 16.
Definition U32 (x : Z) : Z := x mod 2 ^ 32.
Definition S32 (x : Z) : Z := (x + 2 ^ 31) mod 2 ^ 32 - 2 ^ 31.

(** [BIT(n)] of the engine headers. *)
Definition BIT (n : Z) : Z := Z.shiftl 1 n.

(** ** Tunables ([static const] at the top of the file) *)

Definition gHeartbeatInterval : Z := 10000.
Definition gMasterServerRetryCount : Z := 3.
Definition gMasterServerTimeout : Z := 2000.
Definition gPacketRetryCount : Z := 4.
Definition gPacketTimeout : Z := 1000.
Definition gMaxConcurrentPings : Z := 10.
Definition gMaxConcurrentQueries : Z := 2.
Definition gPingRetryCount : Z := 4.
Definition gPingTimeout : Z := 800.
Definition gQueryRetryCount : Z := 4.
Definition gQueryTimeout : Z := 1000.

(** This is the server query protocol version. *)
Definition versionString : string := "VER1".

(** ** Addresses *)

(** Modelled from the spec: [NetAddress] and [Net::compareAddresses] are
    declared in the platform layer, which is not part of this file.  The
    specification gives the address as a tagged union of an IPv4 endpoint and
    a legacy IPX endpoint, two addresses being equal iff family and all
    fields are equal. *)
Inductive NetAddress : Type :=
  | IPv4 (n0 n1 n2 n3 : Z) (port : Z)
  | IPX (net : list Z) (node : list Z) (port : Z).

#[global] Instance NetAddress_eq_dec : EqDecision NetAddress.
Proof. solve_decision. Defined.

Definition compareAddresses (a b : NetAddress) : bool := bool_decide (a = b).

Record MasterInfo : Type := mkMasterInfo {
  mi_address : NetAddress;
  mi_region : Z
}.

(** ** Server records *)

(** Modelled from the spec: [ServerInfo] and its [StatusFlags] live in
    [serverQuery.h], which is not part of this file.  The field list is the
    specification's; string fields are [char*] that start out [NULL], hence
    [option string].  The status word is a 32-bit set; the info flags sit in
    the low byte (they are read from a [U8] on the wire) and the life-cycle
    flags in the top bits. *)
Record ServerInfo : Type := mkServerInfo {
  si_address : NetAddress;
  si_name : option string;
  si_gameType : option string;
  si_missionType : option string;
  si_missionName : option string;
  si_statusString : option string;
  si_infoString : option string;
  si_numPlayers : Z;
  si_maxPlayers : Z;
  si_numBots : Z;
  si_version : Z;
  si_ping : Z;
  si_cpuSpeed : Z;
  si_isFavorite : bool;
  si_status : Z;
  si_isLocal : bool
}.

Definition Status_Dedicated : Z := BIT 0.
Definition Status_Passworded : Z := BIT 1.
Definition Status_Linux : Z := BIT 2.
Definition Status_New : Z := 0.
Definition Status_Querying : Z := BIT 28.
Definition Status_Updating : Z := BIT 29.
Definition Status_Responded : Z := BIT 30.
Definition Status_TimedOut : Z := BIT 31.

(** [BitSet32::test]. *)
Definition status_test (status flag : Z) : bool :=
  negb (Z.land status flag =? 0).

Definition isDedicated (si : ServerInfo) : bool := status_test (si_status si) Status_Dedicated.
Definition isPassworded (si : ServerInfo) : bool := status_test (si_status si) Status_Passworded.
Definition isUpdating (si : ServerInfo) : bool := status_test (si_status si) Status_Updating.
Definition isQuerying (si : ServerInfo) : bool := status_test (si_status si) Status_Querying.

(** A default-constructed [ServerInfo] for [addr]
    ([ServerInfo si; si.address = *addr;]). *)
Definition newServerInfo (addr : NetAddress) : ServerInfo :=
  {| si_address := addr; si_name := None; si_gameType := None;
     si_missionType := None; si_missionName := None; si_statusString := None;
     si_infoString := None; si_numPlayers := 0; si_maxPlayers := 0;
     si_numBots := 0; si_version := 0; si_ping := 0; si_cpuSpeed := 0;
     si_isFavorite := false; si_status := Status_New; si_isLocal := false |}.

Definition si_set_status (v : Z) (si : ServerInfo) : ServerInfo :=
  {| si_address := si_address si; si_name := si_name si; si_gameType := si_gameType si;
     si_missionType := si_missionType si; si_missionName := si_missionName si;
     si_statusString := si_statusString si; si_infoString := si_infoString si;
     si_numPlayers := si_numPlayers si; si_maxPlayers := si_maxPlayers si;
     si_numBots := si_numBots si; si_version := si_version si; si_ping := si_ping si;
     si_cpuSpeed := si_cpuSpeed si; si_isFavorite := si_isFavorite si;
     si_status := v; si_isLocal := si_isLocal si |}.

(** The four assignments [handleGamePingResponse] makes to an accepted
    server: [ping], [version], [isLocal], and [name] when it was [NULL]. *)
Definition si_set_pinged (ping version : Z) (isLocal : bool) (name : string)
    (si : ServerInfo) : ServerInfo :=
  {| si_address := si_address si;
     si_name := match si_name si with Some n => Some n | None => Some name end;
     si_gameType := si_gameType si;
     si_missionType := si_missionType si; si_missionName := si_missionName si;
     si_statusString := si_statusString si; si_infoString := si_infoString si;
     si_numPlayers := si_numPlayers si; si_maxPlayers := si_maxPlayers si;
     si_numBots := si_numBots si; si_version := version; si_ping := ping;
     si_cpuSpeed := si_cpuSpeed si; si_isFavorite := si_isFavorite si;
     si_status := si_status si; si_isLocal := isLocal |}.

(** ** In-flight requests *)

Record Ping : Type := mkPing {
  address : NetAddress;
  session : Z;      (* S32 *)
  key : Z;          (* S32 *)
  time : Z;         (* U32 *)
  tryCount : Z;     (* U32 *)
  broadcast : bool;
  isLocal : bool
}.

Record PacketStatus : Type := mkPacketStatus {
  ps_index : Z;     (* U8 *)
  ps_key : Z;       (* S32 *)
  ps_time : Z;      (* U32 *)
  ps_tryCount : Z   (* U32 *)
}.

(** The [PacketStatus(_index, _key, _time)] constructor. *)
Definition newPacketStatus (_index _key _time : Z) : PacketStatus :=
  {| ps_index := _index; ps_key := _key; ps_time := _time;
     ps_tryCount := gPacketRetryCount |}.

(** ** The active filter *)

Inductive FilterType : Type :=
  | Normal | Buddy | Offline | Favorites | OfflineFiltered.

#[global] Instance FilterType_eq_dec : EqDecision FilterType.
Proof. solve_decision. Defined.

(* Query flags *)
Definition OnlineQuery : Z := 0.
Definition OfflineQuery : Z := BIT 0.
Definition NoStringCompress : Z := BIT 1.

Record ServerFilter : Type := mkServerFilter {
  f_type : FilterType;
  f_gameType : option string;
  f_missionType : option string;
  f_queryFlags : Z;
  f_minPlayers : Z;
  f_maxPlayers : Z;
  f_maxBots : Z;
  f_regionMask : Z;
  f_maxPing : Z;
  f_filterFlags : Z;
  f_minCPU : Z;
  f_buddyList : list Z
}.

(** [static ServerFilter sActiveFilter;]: zero-initialised storage (so the
    type is [Normal = 0]) on which the constructor then runs. *)
Definition initialFilter : ServerFilter :=
  {| f_type := Normal; f_gameType := None; f_missionType := None;
     f_queryFlags := 0; f_minPlayers := 0; f_maxPlayers := 255; f_maxBots := 16;
     f_regionMask := 0xFFFFFFFF; f_maxPing := 0; f_filterFlags := 0;
     f_minCPU := 0; f_buddyList := [] |}.

(** ** Outward effects *)

(** Packet types of [NetInterface] used in this file.  The numeric codes are
    declared in the network layer; only the identity of the type matters
    here. *)
Inductive PacketType : Type :=
  | MasterServerGameTypesRequest
  | MasterServerListRequest
  | GamePingRequest
  | GamePingResponse
  | GameInfoRequest
  | GameHeartbeat
  | MasterServerGamePingRequest
  | MasterServerGameInfoRequest.

#[global] Instance PacketType_eq_dec : EqDecision PacketType.
Proof. solve_decision. Defined.

(** One [BitStream::write] of the packet being assembled.  [WString] is
    [BitStream::writeString], the dictionary-compressed string form, which is
    opaque to this file. *)
Inductive WireItem : Type :=
  | WType (t : PacketType)
  | W8 (v : Z)
  | W16 (v : Z)
  | W32 (v : Z)
  | WString (s : string).

#[global] Instance WireItem_eq_dec : EqDecision WireItem.
Proof. solve_decision. Defined.

(** A datagram handed to [BitStream::sendPacketStream]. *)
Record Datagram : Type := mkDatagram {
  dg_to : NetAddress;
  dg_body : list WireItem
}.

#[global] Instance Datagram_eq_dec : EqDecision Datagram.
Proof. solve_decision. Defined.

(** The four [SimEvent] subclasses of the file, each carrying the stamp it was
    created with. *)
Inductive SimEvent : Type :=
  | ProcessMasterQueryEvent (session : Z)
  | ProcessPingEvent (session : Z)
  | ProcessPacketEvent (session : Z)
  | HeartbeatEvent (seq : Z).

(** The progress argument of [onServerQueryStatus].  The source passes either
    a literal (["0"], ["1"]) or an [F32] it computes as
    [base + F32(num) / F32(den)]; the quotient is kept exact here, floating
    point rounding is not modelled. *)
Inductive Progress : Type :=
  | ProgressLit (s : string)
  | ProgressF32 (half : bool) (frac : option (Z * Z)).

(** [Con::executef(4, "onServerQueryStatus", phase, msg, progress)]. *)
Inductive ConsoleCall : Type :=
  | onServerQueryStatus (phase : string) (msg : string) (progress : Progress).

(** ** The host

    What the file asks of the platform, the simulator, the network layer and
    the build: clocks, version constants, the connection gate, the
    authentication predicate, the hole-punching compile switch and the address
    codec.  All are read-only during one handler. *)
Record Host : Type := mkHost {
  getVirtualMilliseconds : Z;          (* Platform::getVirtualMilliseconds() *)
  getCurrentTime : Z;                  (* Sim::getCurrentTime() *)
  getTargetTime : Z;                   (* Sim::getTargetTime() *)
  getVersionNumber : Z;
  CurrentProtocolVersion : Z;          (* GameConnection:: *)
  MinRequiredProtocolVersion : Z;      (* GameConnection:: *)
  doesAllowConnections : bool;         (* GNet->doesAllowConnections() *)
  validateAuthenticatedServer : bool;
  TORQUE_NET_HOLEPUNCHING : bool;
  stringToAddress : string -> option NetAddress;   (* Net::stringToAddress *)
  addressToString : NetAddress -> string           (* Net::addressToString *)
}.

(** ** Global state *)

Record State : Type := mkState {
  gServerList : list ServerInfo;
  gMasterServerList : list MasterInfo;
  gFinishedList : list NetAddress;   (* timed out servers and finished servers go here *)
  gMasterServerQueryAddress : NetAddress;
  gServerBrowserDirty : bool;
  sgServerQueryActive : bool;
  gPingSession : Z;                  (* S32 *)
  gKey : Z;                          (* S32 *)
  gGotFirstListPacket : bool;
  gServerPingCount : Z;              (* U32 *)
  gServerQueryCount : Z;             (* U32 *)
  gHeartbeatSeq : Z;                 (* U32 *)
  gMasterServerPing : Ping;
  gPingList : list Ping;
  gQueryList : list Ping;
  gPacketStatusList : list PacketStatus;
  sActiveFilter : ServerFilter;
  localNetAddresses : list NetAddress;
  netOut : list Datagram;            (* datagrams sent, oldest first *)
  simQueue : list (SimEvent * Z);    (* Sim::postEvent(event, time) *)
  conCalls : list ConsoleCall;       (* script callbacks made *)
  conVars : gmap string string       (* console variables *)
}.

Definition set_gServerList (v : list ServerInfo) (st : State) : State :=
  {| gServerList := v; gMasterServerList := gMasterServerList st;
     gFinishedList := gFinishedList st;
     gMasterServerQueryAddress := gMasterServerQueryAddress st;
     gServerBrowserDirty := gServerBrowserDirty st;
     sgServerQueryActive := sgServerQueryActive st; gPingSession := gPingSession st;
     gKey := gKey st; gGotFirstListPacket := gGotFirstListPacket st;
     gServerPingCount := gServerPingCount st; gServerQueryCount := gServerQueryCount st;
     gHeartbeatSeq := gHeartbeatSeq st; gMasterServerPing := gMasterServerPing st;
     gPingList := gPingList st; gQueryList := gQueryList st;
     gPacketStatusList := gPacketStatusList st; sActiveFilter := sActiveFilter st;
     localNetAddresses := localNetAddresses st; netOut := netOut st; simQueue := simQueue st;
     conCalls := conCalls st; conVars := conVars st |}.
Definition set_gMasterServerList (v : list MasterInfo) (st : State) : State :=
  {| gServerList := gServerList st; gMasterServerList := v; gFinishedList := gFinishedList st;
     gMasterServerQueryAddress := gMasterServerQueryAddress st;
     gServerBrowserDirty := gServerBrowserDirty st;
     sgServerQueryActive := sgServerQueryActive st; gPingSession := gPingSession st;
     gKey := gKey st; gGotFirstListPacket := gGotFirstListPacket st;
     gServerPingCount := gServerPingCount st; gServerQueryCount := gServerQueryCount st;
     gHeartbeatSeq := gHeartbeatSeq st; gMasterServerPing := gMasterServerPing st;
     gPingList := gPingList st; gQueryList := gQueryList st;
     gPacketStatusList := gPacketStatusList st; sActiveFilter := sActiveFilter st;
     localNetAddresses := localNetAddresses st; netOut := netOut st; simQueue := simQueue st;
     conCalls := conCalls st; conVars := conVars st |}.
Definition set_gFinishedList (v : list NetAddress) (st : State) : State :=
  {| gServerList := gServerList st; gMasterServerList := gMasterServerList st;
     gFinishedList := v; gMasterServerQueryAddress := gMasterServerQueryAddress st;
     gServerBrowserDirty := gServerBrowserDirty st;
     sgServerQueryActive := sgServerQueryActive st; gPingSession := gPingSession st;
     gKey := gKey st; gGotFirstListPacket := gGotFirstListPacket st;
     gServerPingCount := gServerPingCount st; gServerQueryCount := gServerQueryCount st;
     gHeartbeatSeq := gHeartbeatSeq st; gMasterServerPing := gMasterServerPing st;
     gPingList := gPingList st; gQueryList := gQueryList st;
     gPacketStatusList := gPacketStatusList st; sActiveFilter := sActiveFilter st;
     localNetAddresses := localNetAddresses st; netOut := netOut st; simQueue := simQueue st;
     conCalls := conCalls st; conVars := conVars st |}.
Definition set_gMasterServerQueryAddress (v : NetAddress) (st : State) : State :=
  {| gServerList := gServerList st; gMasterServerList := gMasterServerList st;
     gFinishedList := gFinishedList st; gMasterServerQueryAddress := v;
     gServerBrowserDirty := gServerBrowserDirty st;
     sgServerQueryActive := sgServerQueryActive st; gPingSession := gPingSession st;
     gKey := gKey st; gGotFirstListPacket := gGotFirstListPacket st;
     gServerPingCount := gServerPingCount st; gServerQueryCount := gServerQueryCount st;
     gHeartbeatSeq := gHeartbeatSeq st; gMasterServerPing := gMasterServerPing st;
     gPingList := gPingList st; gQueryList := gQueryList st;
     gPacketStatusList := gPacketStatusList st; sActiveFilter := sActiveFilter st;
     localNetAddresses := localNetAddresses st; netOut := netOut st; simQueue := simQueue st;
     conCalls := conCalls st; conVars := conVars st |}.
Definition set_gServerBrowserDirty (v : bool) (st : State) : State :=
  {| gServerList := gServerList st; gMasterServerList := gMasterServerList st;
     gFinishedList := gFinishedList st;
     gMasterServerQueryAddress := gMasterServerQueryAddress st; gServerBrowserDirty := v;
     sgServerQueryActive := sgServerQueryActive st; gPingSession := gPingSession st;
     gKey := gKey st; gGotFirstListPacket := gGotFirstListPacket st;
     gServerPingCount := gServerPingCount st; gServerQueryCount := gServerQueryCount st;
     gHeartbeatSeq := gHeartbeatSeq st; gMasterServerPing := gMasterServerPing st;
     gPingList := gPingList st; gQueryList := gQueryList st;
     gPacketStatusList := gPacketStatusList st; sActiveFilter := sActiveFilter st;
     localNetAddresses := localNetAddresses st; netOut := netOut st; simQueue := simQueue st;
     conCalls := conCalls st; conVars := conVars st |}.
Definition set_sgServerQueryActive (v : bool) (st : State) : State :=
  {| gServerList := gServerList st; gMasterServerList := gMasterServerList st;
     gFinishedList := gFinishedList st;
     gMasterServerQueryAddress := gMasterServerQueryAddress st;
     gServerBrowserDirty := gServerBrowserDirty st; sgServerQueryActive := v;
     gPingSession := gPingSession st; gKey := gKey st;
     gGotFirstListPacket := gGotFirstListPacket st; gServerPingCount := gServerPingCount st;
     gServerQueryCount := gServerQueryCount st; gHeartbeatSeq := gHeartbeatSeq st;
     gMasterServerPing := gMasterServerPing st; gPingList := gPingList st;
     gQueryList := gQueryList st; gPacketStatusList := gPacketStatusList st;
     sActiveFilter := sActiveFilter st; localNetAddresses := localNetAddresses st;
     netOut := netOut st; simQueue := simQueue st; conCalls := conCalls st;
     conVars := conVars st |}.
Definition set_gPingSession (v : Z) (st : State) : State :=
  {| gServerList := gServerList st; gMasterServerList := gMasterServerList st;
     gFinishedList := gFinishedList st;
     gMasterServerQueryAddress := gMasterServerQueryAddress st;
     gServerBrowserDirty := gServerBrowserDirty st;
     sgServerQueryActive := sgServerQueryActive st; gPingSession := v; gKey := gKey st;
     gGotFirstListPacket := gGotFirstListPacket st; gServerPingCount := gServerPingCount st;
     gServerQueryCount := gServerQueryCount st; gHeartbeatSeq := gHeartbeatSeq st;
     gMasterServerPing := gMasterServerPing st; gPingList := gPingList st;
     gQueryList := gQueryList st; gPacketStatusList := gPacketStatusList st;
     sActiveFilter := sActiveFilter st; localNetAddresses := localNetAddresses st;
     netOut := netOut st; simQueue := simQueue st; conCalls := conCalls st;
     conVars := conVars st |}.
Definition set_gKey (v : Z) (st : State) : State :=
  {| gServerList := gServerList st; gMasterServerList := gMasterServerList st;
     gFinishedList := gFinishedList st;
     gMasterServerQueryAddress := gMasterServerQueryAddress st;
     gServerBrowserDirty := gServerBrowserDirty st;
     sgServerQueryActive := sgServerQueryActive st; gPingSession := gPingSession st; gKey := v;
     gGotFirstListPacket := gGotFirstListPacket st; gServerPingCount := gServerPingCount st;
     gServerQueryCount := gServerQueryCount st; gHeartbeatSeq := gHeartbeatSeq st;
     gMasterServerPing := gMasterServerPing st; gPingList := gPingList st;
     gQueryList := gQueryList st; gPacketStatusList := gPacketStatusList st;
     sActiveFilter := sActiveFilter st; localNetAddresses := localNetAddresses st;
     netOut := netOut st; simQueue := simQueue st; conCalls := conCalls st;
     conVars := conVars st |}.
Definition set_gGotFirstListPacket (v : bool) (st : State) : State :=
  {| gServerList := gServerList st; gMasterServerList := gMasterServerList st;
     gFinishedList := gFinishedList st;
     gMasterServerQueryAddress := gMasterServerQueryAddress st;
     gServerBrowserDirty := gServerBrowserDirty st;
     sgServerQueryActive := sgServerQueryActive st; gPingSession := gPingSession st;
     gKey := gKey st; gGotFirstListPacket := v; gServerPingCount := gServerPingCount st;
     gServerQueryCount := gServerQueryCount st; gHeartbeatSeq := gHeartbeatSeq st;
     gMasterServerPing := gMasterServerPing st; gPingList := gPingList st;
     gQueryList := gQueryList st; gPacketStatusList := gPacketStatusList st;
     sActiveFilter := sActiveFilter st; localNetAddresses := localNetAddresses st;
     netOut := netOut st; simQueue := simQueue st; conCalls := conCalls st;
     conVars := conVars st |}.
Definition set_gServerPingCount (v : Z) (st : State) : State :=
  {| gServerList := gServerList st; gMasterServerList := gMasterServerList st;
     gFinishedList := gFinishedList st;
     gMasterServerQueryAddress := gMasterServerQueryAddress st;
     gServerBrowserDirty := gServerBrowserDirty st;
     sgServerQueryActive := sgServerQueryActive st; gPingSession := gPingSession st;
     gKey := gKey st; gGotFirstListPacket := gGotFirstListPacket st; gServerPingCount := v;
     gServerQueryCount := gServerQueryCount st; gHeartbeatSeq := gHeartbeatSeq st;
     gMasterServerPing := gMasterServerPing st; gPingList := gPingList st;
     gQueryList := gQueryList st; gPacketStatusList := gPacketStatusList st;
     sActiveFilter := sActiveFilter st; localNetAddresses := localNetAddresses st;
     netOut := netOut st; simQueue := simQueue st; conCalls := conCalls st;
     conVars := conVars st |}.
Definition set_gServerQueryCount (v : Z) (st : State) : State :=
  {| gServerList := gServerList st; gMasterServerList := gMasterServerList st;
     gFinishedList := gFinishedList st;
     gMasterServerQueryAddress := gMasterServerQueryAddress st;
     gServerBrowserDirty := gServerBrowserDirty st;
     sgServerQueryActive := sgServerQueryActive st; gPingSession := gPingSession st;
     gKey := gKey st; gGotFirstListPacket := gGotFirstListPacket st;
     gServerPingCount := gServerPingCount st; gServerQueryCount := v;
     gHeartbeatSeq := gHeartbeatSeq st; gMasterServerPing := gMasterServerPing st;
     gPingList := gPingList st; gQueryList := gQueryList st;
     gPacketStatusList := gPacketStatusList st; sActiveFilter := sActiveFilter st;
     localNetAddresses := localNetAddresses st; netOut := netOut st; simQueue := simQueue st;
     conCalls := conCalls st; conVars := conVars st |}.
Definition set_gHeartbeatSeq (v : Z) (st : State) : State :=
  {| gServerList := gServerList st; gMasterServerList := gMasterServerList st;
     gFinishedList := gFinishedList st;
     gMasterServerQueryAddress := gMasterServerQueryAddress st;
     gServerBrowserDirty := gServerBrowserDirty st;
     sgServerQueryActive := sgServerQueryActive st; gPingSession := gPingSession st;
     gKey := gKey st; gGotFirstListPacket := gGotFirstListPacket st;
     gServerPingCount := gServerPingCount st; gServerQueryCount := gServerQueryCount st;
     gHeartbeatSeq := v; gMasterServerPing := gMasterServerPing st; gPingList := gPingList st;
     gQueryList := gQueryList st; gPacketStatusList := gPacketStatusList st;
     sActiveFilter := sActiveFilter st; localNetAddresses := localNetAddresses st;
     netOut := netOut st; simQueue := simQueue st; conCalls := conCalls st;
     conVars := conVars st |}.
Definition set_gMasterServerPing (v : Ping) (st : State) : State :=
  {| gServerList := gServerList st; gMasterServerList := gMasterServerList st;
     gFinishedList := gFinishedList st;
     gMasterServerQueryAddress := gMasterServerQueryAddress st;
     gServerBrowserDirty := gServerBrowserDirty st;
     sgServerQueryActive := sgServerQueryActive st; gPingSession := gPingSession st;
     gKey := gKey st; gGotFirstListPacket := gGotFirstListPacket st;
     gServerPingCount := gServerPingCount st; gServerQueryCount := gServerQueryCount st;
     gHeartbeatSeq := gHeartbeatSeq st; gMasterServerPing := v; gPingList := gPingList st;
     gQueryList := gQueryList st; gPacketStatusList := gPacketStatusList st;
     sActiveFilter := sActiveFilter st; localNetAddresses := localNetAddresses st;
     netOut := netOut st; simQueue := simQueue st; conCalls := conCalls st;
     conVars := conVars st |}.
Definition set_gPingList (v : list Ping) (st : State) : State :=
  {| gServerList := gServerList st; gMasterServerList := gMasterServerList st;
     gFinishedList := gFinishedList st;
     gMasterServerQueryAddress := gMasterServerQueryAddress st;
     gServerBrowserDirty := gServerBrowserDirty st;
     sgServerQueryActive := sgServerQueryActive st; gPingSession := gPingSession st;
     gKey := gKey st; gGotFirstListPacket := gGotFirstListPacket st;
     gServerPingCount := gServerPingCount st; gServerQueryCount := gServerQueryCount st;
     gHeartbeatSeq := gHeartbeatSeq st; gMasterServerPing := gMasterServerPing st;
     gPingList := v; gQueryList := gQueryList st; gPacketStatusList := gPacketStatusList st;
     sActiveFilter := sActiveFilter st; localNetAddresses := localNetAddresses st;
     netOut := netOut st; simQueue := simQueue st; conCalls := conCalls st;
     conVars := conVars st |}.
Definition set_gQueryList (v : list Ping) (st : State) : State :=
  {| gServerList := gServerList st; gMasterServerList := gMasterServerList st;
     gFinishedList := gFinishedList st;
     gMasterServerQueryAddress := gMasterServerQueryAddress st;
     gServerBrowserDirty := gServerBrowserDirty st;
     sgServerQueryActive := sgServerQueryActive st; gPingSession := gPingSession st;
     gKey := gKey st; gGotFirstListPacket := gGotFirstListPacket st;
     gServerPingCount := gServerPingCount st; gServerQueryCount := gServerQueryCount st;
     gHeartbeatSeq := gHeartbeatSeq st; gMasterServerPing := gMasterServerPing st;
     gPingList := gPingList st; gQueryList := v; gPacketStatusList := gPacketStatusList st;
     sActiveFilter := sActiveFilter st; localNetAddresses := localNetAddresses st;
     netOut := netOut st; simQueue := simQueue st; conCalls := conCalls st;
     conVars := conVars st |}.
Definition set_gPacketStatusList (v : list PacketStatus) (st : State) : State :=
  {| gServerList := gServerList st; gMasterServerList := gMasterServerList st;
     gFinishedList := gFinishedList st;
     gMasterServerQueryAddress := gMasterServerQueryAddress st;
     gServerBrowserDirty := gServerBrowserDirty st;
     sgServerQueryActive := sgServerQueryActive st; gPingSession := gPingSession st;
     gKey := gKey st; gGotFirstListPacket := gGotFirstListPacket st;
     gServerPingCount := gServerPingCount st; gServerQueryCount := gServerQueryCount st;
     gHeartbeatSeq := gHeartbeatSeq st; gMasterServerPing := gMasterServerPing st;
     gPingList := gPingList st; gQueryList := gQueryList st; gPacketStatusList := v;
     sActiveFilter := sActiveFilter st; localNetAddresses := localNetAddresses st;
     netOut := netOut st; simQueue := simQueue st; conCalls := conCalls st;
     conVars := conVars st |}.
Definition set_sActiveFilter (v : ServerFilter) (st : State) : State :=
  {| gServerList := gServerList st; gMasterServerList := gMasterServerList st;
     gFinishedList := gFinishedList st;
     gMasterServerQueryAddress := gMasterServerQueryAddress st;
     gServerBrowserDirty := gServerBrowserDirty st;
     sgServerQueryActive := sgServerQueryActive st; gPingSession := gPingSession st;
     gKey := gKey st; gGotFirstListPacket := gGotFirstListPacket st;
     gServerPingCount := gServerPingCount st; gServerQueryCount := gServerQueryCount st;
     gHeartbeatSeq := gHeartbeatSeq st; gMasterServerPing := gMasterServerPing st;
     gPingList := gPingList st; gQueryList := gQueryList st;
     gPacketStatusList := gPacketStatusList st; sActiveFilter := v;
     localNetAddresses := localNetAddresses st; netOut := netOut st; simQueue := simQueue st;
     conCalls := conCalls st; conVars := conVars st |}.
Definition set_localNetAddresses (v : list NetAddress) (st : State) : State :=
  {| gServerList := gServerList st; gMasterServerList := gMasterServerList st;
     gFinishedList := gFinishedList st;
     gMasterServerQueryAddress := gMasterServerQueryAddress st;
     gServerBrowserDirty := gServerBrowserDirty st;
     sgServerQueryActive := sgServerQueryActive st; gPingSession := gPingSession st;
     gKey := gKey st; gGotFirstListPacket := gGotFirstListPacket st;
     gServerPingCount := gServerPingCount st; gServerQueryCount := gServerQueryCount st;
     gHeartbeatSeq := gHeartbeatSeq st; gMasterServerPing := gMasterServerPing st;
     gPingList := gPingList st; gQueryList := gQueryList st;
     gPacketStatusList := gPacketStatusList st; sActiveFilter := sActiveFilter st;
     localNetAddresses := v; netOut := netOut st; simQueue := simQueue st;
     conCalls := conCalls st; conVars := conVars st |}.
Definition set_netOut (v : list Datagram) (st : State) : State :=
  {| gServerList := gServerList st; gMasterServerList := gMasterServerList st;
     gFinishedList := gFinishedList st;
     gMasterServerQueryAddress := gMasterServerQueryAddress st;
     gServerBrowserDirty := gServerBrowserDirty st;
     sgServerQueryActive := sgServerQueryActive st; gPingSession := gPingSession st;
     gKey := gKey st; gGotFirstListPacket := gGotFirstListPacket st;
     gServerPingCount := gServerPingCount st; gServerQueryCount := gServerQueryCount st;
     gHeartbeatSeq := gHeartbeatSeq st; gMasterServerPing := gMasterServerPing st;
     gPingList := gPingList st; gQueryList := gQueryList st;
     gPacketStatusList := gPacketStatusList st; sActiveFilter := sActiveFilter st;
     localNetAddresses := localNetAddresses st; netOut := v; simQueue := simQueue st;
     conCalls := conCalls st; conVars := conVars st |}.
Definition set_simQueue (v : list (SimEvent * Z)) (st : State) : State :=
  {| gServerList := gServerList st; gMasterServerList := gMasterServerList st;
     gFinishedList := gFinishedList st;
     gMasterServerQueryAddress := gMasterServerQueryAddress st;
     gServerBrowserDirty := gServerBrowserDirty st;
     sgServerQueryActive := sgServerQueryActive st; gPingSession := gPingSession st;
     gKey := gKey st; gGotFirstListPacket := gGotFirstListPacket st;
     gServerPingCount := gServerPingCount st; gServerQueryCount := gServerQueryCount st;
     gHeartbeatSeq := gHeartbeatSeq st; gMasterServerPing := gMasterServerPing st;
     gPingList := gPingList st; gQueryList := gQueryList st;
     gPacketStatusList := gPacketStatusList st; sActiveFilter := sActiveFilter st;
     localNetAddresses := localNetAddresses st; netOut := netOut st; simQueue := v;
     conCalls := conCalls st; conVars := conVars st |}.
Definition set_conCalls (v : list ConsoleCall) (st : State) : State :=
  {| gServerList := gServerList st; gMasterServerList := gMasterServerList st;
     gFinishedList := gFinishedList st;
     gMasterServerQueryAddress := gMasterServerQueryAddress st;
     gServerBrowserDirty := gServerBrowserDirty st;
     sgServerQueryActive := sgServerQueryActive st; gPingSession := gPingSession st;
     gKey := gKey st; gGotFirstListPacket := gGotFirstListPacket st;
     gServerPingCount := gServerPingCount st; gServerQueryCount := gServerQueryCount st;
     gHeartbeatSeq := gHeartbeatSeq st; gMasterServerPing := gMasterServerPing st;
     gPingList := gPingList st; gQueryList := gQueryList st;
     gPacketStatusList := gPacketStatusList st; sActiveFilter := sActiveFilter st;
     localNetAddresses := localNetAddresses st; netOut := netOut st; simQueue := simQueue st;
     conCalls := v; conVars := conVars st |}.
Definition set_conVars (v : gmap string string) (st : State) : State :=
  {| gServerList := gServerList st; gMasterServerList := gMasterServerList st;
     gFinishedList := gFinishedList st;
     gMasterServerQueryAddress := gMasterServerQueryAddress st;
     gServerBrowserDirty := gServerBrowserDirty st;
     sgServerQueryActive := sgServerQueryActive st; gPingSession := gPingSession st;
     gKey := gKey st; gGotFirstListPacket := gGotFirstListPacket st;
     gServerPingCount := gServerPingCount st; gServerQueryCount := gServerQueryCount st;
     gHeartbeatSeq := gHeartbeatSeq st; gMasterServerPing := gMasterServerPing st;
     gPingList := gPingList st; gQueryList := gQueryList st;
     gPacketStatusList := gPacketStatusList st; sActiveFilter := sActiveFilter st;
     localNetAddresses := localNetAddresses st; netOut := netOut st; simQueue := simQueue st;
     conCalls := conCalls st; conVars := v |}.

(** Static storage is zero-initialised. *)
Definition zeroAddress : NetAddress := IPv4 0 0 0 0 0.

Definition zeroPing : Ping :=
  {| address := zeroAddress; session := 0; key := 0; time := 0; tryCount := 0;
     broadcast := false; isLocal := false |}.

Definition initialState (vars : gmap string string) : State :=
  {| gServerList := []; gMasterServerList := []; gFinishedList := [];
     gMasterServerQueryAddress := zeroAddress; gServerBrowserDirty := false;
     sgServerQueryActive := false; gPingSession := 0; gKey := 0;
     gGotFirstListPacket := false; gServerPingCount := 0; gServerQueryCount := 0;
     gHeartbeatSeq := 0; gMasterServerPing := zeroPing; gPingList := [];
     gQueryList := []; gPacketStatusList := []; sActiveFilter := initialFilter;
     localNetAddresses := []; netOut := []; simQueue := []; conCalls := [];
     conVars := vars |}.

(** ** C strings and the console *)

Definition char_code (c : Ascii.ascii) : Z := Z.of_N (Ascii.N_of_ascii c).

Definition isspace (c : Ascii.ascii) : bool :=
  (char_code c =? 32) || ((9 <=? char_code c) && (char_code c <=? 13)).

Definition digit_val (c : Ascii.ascii) : option Z :=
  if (48 <=? char_code c) && (char_code c <=? 57) then Some (char_code c - 48) else None.

Fixpoint skip_spaces (s : string) : string :=
  match s with
  | String c s' => if isspace c then skip_spaces s' else s
  | EmptyString => s
  end.

Fixpoint read_digits (acc : Z) (s : string) : Z :=
  match s with
  | String c s' =>
      match digit_val c with
      | Some d => read_digits (acc * 10 + d) s'
      | None => acc
      end
  | EmptyString => acc
  end.

Definition starts_with_digit (s : string) : bool :=
  match s with
  | String c _ => bool_decide (is_Some (digit_val c))
  | EmptyString => false
  end.

(** Modelled from the spec: the C library's [%d] conversion as used by
    [dSscanf(s, "%d:", &n)] and [dAtoi]: blanks, an optional sign, then
    decimal digits; [None] when no digit is there.  The platform string
    functions are not part of this file; the specification places numeric
    parsing of the string-typed configuration at the engine boundary. *)
Definition scan_int (s : string) : option Z :=
  match skip_spaces s with
  | String "-"%char s' => if starts_with_digit s' then Some (S32 (- read_digits 0 s')) else None
  | String "+"%char s' => if starts_with_digit s' then Some (S32 (read_digits 0 s')) else None
  | s' => if starts_with_digit s' then Some (S32 (read_digits 0 s')) else None
  end.

Definition dAtoi (s : string) : Z := default 0 (scan_int s).

Definition to_lower (c : Ascii.ascii) : Ascii.ascii :=
  if (65 <=? char_code c) && (char_code c <=? 90)
  then Ascii.ascii_of_N (Z.to_N (char_code c + 32)) else c.

Fixpoint string_lower (s : string) : string :=
  match s with
  | String c s' => String (to_lower c) (string_lower s')
  | EmptyString => EmptyString
  end.

(** Modelled from the spec: [dStricmp(a, b) == 0], the platform's
    case-insensitive comparison (the specification calls the comparison of
    the filter's ["any"] case-insensitive); letters are ASCII. *)
Definition dStricmp_eq (a b : string) : bool :=
  bool_decide (string_lower a = string_lower b).

(** [dStrncpy(dst, src, n); dst[n] = 0;] *)
Definition dStrncpy (s : string) (n : nat) : string := String.substring 0 n s.

(** The tail of [s] after its first [':'] ([dStrchr(s, ':') + 1]). *)
Fixpoint after_colon (s : string) : option string :=
  match s with
  | String c s' => if bool_decide (c = ":"%char) then Some s' else after_colon s'
  | EmptyString => None
  end.

(** Modelled from the spec: the scripting host's variable table, which the
    specification gives as a key/value configuration store with string-typed
    getters.  A variable that was never set reads as the empty string;
    integers are stored in decimal and booleans as ["1"] / ["0"]. *)
Definition getVariable (name : string) (st : State) : string :=
  default "" (conVars st !! name).
Definition getIntVariable (name : string) (st : State) : Z :=
  dAtoi (getVariable name st).
Definition setVariable (name value : string) (st : State) : State :=
  set_conVars (<[name := value]> (conVars st)) st.
Definition setIntVariable (name : string) (value : Z) (st : State) : State :=
  setVariable name (pretty value) st.
Definition setBoolVariable (name : string) (value : bool) (st : State) : State :=
  setVariable name (if value then "1" else "0") st.

(** [Con::executef(4, "onServerQueryStatus", ...)]. *)
Definition executef (c : ConsoleCall) (st : State) : State :=
  set_conCalls (conCalls st ++ [c]) st.

(** [Sim::postEvent(Sim::getRootGroup(), ev, at)]. *)
Definition postEvent (ev : SimEvent) (at_time : Z) (st : State) : State :=
  set_simQueue (simQueue st ++ [(ev, at_time)]) st.

(** [BitStream::sendPacketStream(addr)] of the assembled items. *)
Definition sendPacketStream (addr : NetAddress) (body : list WireItem) (st : State) : State :=
  set_netOut (netOut st ++ [mkDatagram addr body]) st.

(** ** Wire helpers *)

(** The 32-bit key field [(session << 16) | (key & 0xFFFF)]. *)
Definition keyField (session key : Z) : Z :=
  U32 (Z.lor (Z.shiftl session 16) (Z.land key 0xFFFF)).

Definition sendPacket (pType : PacketType) (addr : NetAddress) (key session flags : Z)
    (st : State) : State :=
  sendPacketStream addr [WType pType; W8 flags; W32 (keyField (U32 session) (U32 key))] st.

(** [writeCString]: a length byte, then that many characters. *)
Definition writeCString (s : string) : list WireItem :=
  let strLen := U8 (Z.of_nat (String.length s)) in
  W8 strLen :: map (fun c => W8 (char_code c))
                   (take (Z.to_nat strLen) (String.list_ascii_of_string s)).

(** [netNum[0..3]] and [port] of an address, as the hole-punching relays
    write them. *)
Definition addr_items (a : NetAddress) : list WireItem :=
  match a with
  | IPv4 n0 n1 n2 n3 p => [W8 n0; W8 n1; W8 n2; W8 n3; W16 p]
  | IPX net _ p => map W8 (take 4 net) ++ [W16 p]
  end.

(** ** Look-ups *)

Fixpoint findPingEntry (v : list Ping) (addr : NetAddress) : option nat :=
  match v with
  | [] => None
  | p :: v' =>
      if compareAddresses addr (address p) then Some 0%nat
      else S <$> findPingEntry v' addr
  end.

Definition addressFinished (addr : NetAddress) (st : State) : bool :=
  existsb (compareAddresses addr) (gFinishedList st).

(** [findServerInfo] returns a pointer into [gServerList]; here, the index. *)
Fixpoint findServerIndex (l : list ServerInfo) (addr : NetAddress) : option nat :=
  match l with
  | [] => None
  | si :: l' =>
      if compareAddresses addr (si_address si) then Some 0%nat
      else S <$> findServerIndex l' addr
  end.

Definition findServerInfo (addr : NetAddress) (st : State) : option nat :=
  findServerIndex (gServerList st) addr.

(** Assignment through a [ServerInfo*]. *)
Definition updateServerInfo (i : nat) (f : ServerInfo -> ServerInfo) (st : State) : State :=
  set_gServerList (alter f i (gServerList st)) st.

Definition findOrCreateServerInfo (addr : NetAddress) (st : State) : nat * State :=
  match findServerInfo addr st with
  | Some i => (i, st)
  | None =>
      (length (gServerList st),
       set_gServerList (gServerList st ++ [newServerInfo addr]) st)
  end.

(** The loop of [removeServerInfo]: the index advances also after an
    [erase]. *)
Fixpoint removeServerInfo_loop (fuel i : nat) (addr : NetAddress) (st : State) : State :=
  match fuel with
  | O => st
  | S fuel' =>
      match gServerList st !! i with
      | None => st
      | Some si =>
          if compareAddresses addr (si_address si)
          then removeServerInfo_loop fuel' (S i) addr
                 (set_gServerBrowserDirty true
                    (set_gServerList (delete i (gServerList st)) st))
          else removeServerInfo_loop fuel' (S i) addr st
      end
  end.

Definition removeServerInfo (addr : NetAddress) (st : State) : State :=
  removeServerInfo_loop (length (gServerList st)) 0 addr st.

Definition addLocalAddress (addr : NetAddress) (st : State) : State :=
  if existsb (compareAddresses addr) (localNetAddresses st) then st
  else set_localNetAddresses (localNetAddresses st ++ [addr]) st.

(** ** The ping queue *)

Definition pushPingRequest (addr : NetAddress) (st : State) : State :=
  if addressFinished addr st then st
  else
    let p := {| address := addr; session := gPingSession st; key := 0; time := 0;
                tryCount := gPingRetryCount; broadcast := false; isLocal := false |} in
    set_gServerPingCount (U32 (gServerPingCount st + 1))
      (set_gPingList (gPingList st ++ [p]) st).

Definition pushPingBroadcast (addr : NetAddress) (st : State) : State :=
  if addressFinished addr st then st
  else
    let p := {| address := addr; session := gPingSession st; key := 0; time := 0;
                tryCount := 1 (* only try this once *);
                broadcast := true; isLocal := true |} in
    (* broadcasts are not counted as requests *)
    set_gPingList (gPingList st ++ [p]) st.

(** The ping list also includes broadcast pings we don't want counted. *)
Definition countPingRequests (st : State) : Z :=
  S32 (fold_left (fun count p => if broadcast p then U32 (count - 1) else count)
         (gPingList st) (U32 (Z.of_nat (length (gPingList st))))).

Definition ping_set_isLocal (v : bool) (p : Ping) : Ping :=
  {| address := address p; session := session p; key := key p; time := time p;
     tryCount := tryCount p; broadcast := broadcast p; isLocal := v |}.

(** [p.tryCount--; p.time = time; p.key = gKey++;] *)
Definition ping_retry (now k : Z) (p : Ping) : Ping :=
  {| address := address p; session := session p; key := k; time := now;
     tryCount := U32 (tryCount p - 1); broadcast := broadcast p; isLocal := isLocal p |}.

(** [p.key = 0; p.time = 0; p.tryCount = gQueryRetryCount;] *)
Definition ping_to_query (p : Ping) : Ping :=
  {| address := address p; session := session p; key := 0; time := 0;
     tryCount := gQueryRetryCount; broadcast := broadcast p; isLocal := isLocal p |}.

(** ** Progress callbacks *)

Definition updateQueryProgress (st : State) : State :=
  match gPingList st with
  | _ :: _ => st
  | [] =>
      let queriesLeft := U32 (Z.of_nat (length (gQueryList st))) in
      let msg := "Querying servers: " +:+ pretty (S32 queriesLeft) +:+ " left..." in
      (* Query progress is 0.5 -> 1 *)
      let progress :=
        ProgressF32 true
          (if gServerQueryCount st =? 0 then None
           else Some (U32 (gServerQueryCount st - queriesLeft),
                      U32 (gServerQueryCount st * 2))) in
      executef (onServerQueryStatus "query" msg progress) st
  end.

Definition updatePingProgress (st : State) : State :=
  match gPingList st with
  | [] => updateQueryProgress st
  | _ :: _ =>
      let pingsLeft := U32 (countPingRequests st) in
      let msg :=
        if pingsLeft =? 0 then "Waiting for lan servers..."
        else "Pinging servers: " +:+ pretty (S32 pingsLeft) +:+ " left..." in
      (* Ping progress is 0 -> 0.5 *)
      let progress :=
        ProgressF32 false
          (if gServerPingCount st =? 0 then None
           else Some (U32 (gServerPingCount st - pingsLeft),
                      U32 (gServerPingCount st * 2))) in
      executef (onServerQueryStatus "ping" msg progress) st
  end.

(** ** The master list *)

(** One [Server::Master<i>] entry, ["<region>:<address>"].  The region
    defaults to 1 when the text does not start with a number; an entry with
    region 0 or an address that does not parse is rejected.  (An entry
    without any [':'] makes the source compute [NULL + 1]; it is rejected
    here.) *)
Definition parseMaster (h : Host) (master : string) : option MasterInfo :=
  let region := U32 (default 1 (scan_int master)) in
  if region =? 0 then None
  else
    match after_colon master with
    | None => None
    | Some madd =>
        match stringToAddress h madd with
        | Some address => Some {| mi_address := address; mi_region := region |}
        | None => None
        end
    end.

Definition masterVariable (i : nat) : string := "Server::Master" +:+ pretty i.

Definition getMasterServerList (h : Host) (st : State) : list MasterInfo :=
  omap (fun i =>
          let master := getVariable (masterVariable i) st in
          if bool_decide (master = "") then None else parseMaster h master)
       (seq 0 10).

(** ** Heartbeats *)

(** send heartbeats to all of the master servers *)
Definition sendHeartbeat (h : Host) (flags : Z) (st : State) : State :=
  fold_left (fun st' mi => sendPacket GameHeartbeat (mi_address mi) 0 (gPingSession st) flags st')
    (getMasterServerList h st) st.

Definition processHeartbeat (h : Host) (seq : Z) (st : State) : State :=
  if bool_decide (seq ≠ gHeartbeatSeq st) then st
  else
    postEvent (HeartbeatEvent seq) (U32 (getCurrentTime h + gHeartbeatInterval))
      (sendHeartbeat h 0 st).

Definition startHeartbeat (h : Host) (st : State) : State :=
  if validateAuthenticatedServer h then
    let st1 := set_gHeartbeatSeq (U32 (gHeartbeatSeq st + 1)) st in
    processHeartbeat h (gHeartbeatSeq st1) st1   (* thump-thump... *)
  else st.

Definition stopHeartbeat (st : State) : State :=
  set_gHeartbeatSeq (U32 (gHeartbeatSeq st + 1)) st.

(** ** Clearing, cancelling and stopping *)

Definition clearServerList (clearServerInfo : bool) (st : State) : State :=
  let st := set_gPacketStatusList [] st in
  let st := if clearServerInfo then set_gServerList [] st else st in
  let st := set_gFinishedList [] st in
  let st := set_gPingList [] st in
  let st := set_gQueryList [] st in
  let st := set_gServerQueryCount 0 (set_gServerPingCount 0 st) in
  let st := set_localNetAddresses [] st in
  set_gPingSession (S32 (gPingSession st + 1)) st.

(** [si = findServerInfo(addr); if (si && !si->status.test(Status_Responded))
    si->status = Status_TimedOut;] *)
Definition timeOutUnlessResponded (addr : NetAddress) (st : State) : State :=
  match findServerInfo addr st with
  | Some i =>
      match gServerList st !! i with
      | Some si =>
          if status_test (si_status si) Status_Responded then st
          else updateServerInfo i (si_set_status Status_TimedOut) st
      | None => st
      end
  | None => st
  end.

(** [while (v.size()) { ... v[0].address ...; v.erase(0); }]: every entry,
    front to back. *)
Fixpoint timeOutEntries (v : list Ping) (st : State) : State :=
  match v with
  | [] => st
  | p :: v' => timeOutEntries v' (timeOutUnlessResponded (address p) st)
  end.

(** Cancel the current query, if there is anything left on the ping list,
    it's dropped. *)
Definition cancelServerQuery (st : State) : State :=
  if sgServerQueryActive st then
    (* Clear the master server packet list: *)
    let st := set_gPacketStatusList [] st in
    (* Clear the ping list: *)
    let st := set_gPingList [] (timeOutEntries (gPingList st) st) in
    (* Clear the query list: *)
    let st := set_gQueryList [] (timeOutEntries (gQueryList st) st) in
    set_gServerBrowserDirty true (set_sgServerQueryActive false st)
  else st.

(** Cancel the current query, anything left on the ping list is moved to the
    finished list as "done". *)
Definition stopServerQuery (st : State) : State :=
  if sgServerQueryActive st then
    let st := set_gPacketStatusList [] st in
    match gPingList st with
    | _ :: _ =>
        set_gPingList []
          (set_gFinishedList (gFinishedList st ++ map address (gPingList st)) st)
    | [] => cancelServerQuery st
    end
  else st.

(** ** [setServerInfo(index)] *)

Definition publishServerInfo (h : Host) (info : ServerInfo) (st : State) : State :=
  let st := setIntVariable "ServerInfo::Status" (S32 (si_status info)) st in
  let st := setVariable "ServerInfo::Address" (addressToString h (si_address info)) st in
  let st := setVariable "ServerInfo::Name" (default "" (si_name info)) st in
  let st := setVariable "ServerInfo::GameType" (default "" (si_gameType info)) st in
  let st := setVariable "ServerInfo::MissionName" (default "" (si_missionName info)) st in
  let st := setVariable "ServerInfo::MissionType" (default "" (si_missionType info)) st in
  let st := setVariable "ServerInfo::State" (default "" (si_statusString info)) st in
  let st := setVariable "ServerInfo::Info" (default "" (si_infoString info)) st in
  let st := setIntVariable "ServerInfo::PlayerCount" (si_numPlayers info) st in
  let st := setIntVariable "ServerInfo::MaxPlayers" (si_maxPlayers info) st in
  let st := setIntVariable "ServerInfo::BotCount" (si_numBots info) st in
  let st := setIntVariable "ServerInfo::Version" (S32 (si_version info)) st in
  let st := setIntVariable "ServerInfo::Ping" (S32 (si_ping info)) st in
  let st := setIntVariable "ServerInfo::CPUSpeed" (si_cpuSpeed info) st in
  let st := setBoolVariable "ServerInfo::Favorite" (si_isFavorite info) st in
  let st := setBoolVariable "ServerInfo::Dedicated" (isDedicated info) st in
  let st := setBoolVariable "ServerInfo::Password" (isPassworded info) st in
  setBoolVariable "ServerInfo::IsLocal" (si_isLocal info) st.

(** The console function: [argv1] is the text of its one argument.  The
    result pairs the returned [bool] with the state. *)
Definition setServerInfo (h : Host) (argv1 : string) (st : State) : bool * State :=
  let index := U32 (dAtoi argv1) in
  if (0 <=? index) && (index <? U32 (Z.of_nat (length (gServerList st)))) then
    match gServerList st !! Z.to_nat index with
    | Some info => (true, publishServerInfo h info st)
    | None => (false, st)
    end
  else (false, st).

Definition getServerCount (st : State) : Z := S32 (Z.of_nat (length (gServerList st))).

(** ** Event processing *)

(** The rendezvous copy of a request that the hole-punching build relays
    through every master of [gMasterServerList]. *)
Definition relayToMasters (pType : PacketType) (flags : Z) (p : Ping) (st : State) : State :=
  let body := [WType pType] ++ addr_items (address p)
              ++ [W8 flags; W32 (keyField (session p) (key p))] in
  fold_left (fun st' mi => sendPacketStream (mi_address mi) body st')
    (gMasterServerList st) st.

(** The first loop of [processPingsAndQueries], from index [i] on.  An
    iteration either erases entry [i] or advances [i], so the length of the
    list bounds the number of iterations; [fuel] is that bound. *)
Fixpoint pingLoop (h : Host) (now flags : Z) (waitingForMaster : bool)
    (fuel i : nat) (st : State) : State :=
  match fuel with
  | O => st
  | S fuel' =>
      if negb (Z.of_nat i <? gMaxConcurrentPings) then st
      else
        match gPingList st !! i with
        | None => st
        | Some p =>
            if U32 (time p + gPingTimeout) <? now then
              if tryCount p =? 0 then
                (* it's timed out. *)
                (* If server info is in list (favorite), set its status: *)
                let st :=
                  match findServerInfo (address p) st with
                  | Some j =>
                      set_gServerBrowserDirty true
                        (updateServerInfo j (si_set_status Status_TimedOut) st)
                  | None => st
                  end in
                let st := set_gFinishedList (gFinishedList st ++ [address p]) st in
                let st := set_gPingList (delete i (gPingList st)) st in
                let st := if waitingForMaster then st else updatePingProgress st in
                pingLoop h now flags waitingForMaster fuel' i st
              else
                let p' := ping_retry now (gKey st) p in
                let st := set_gKey (S32 (gKey st + 1))
                            (set_gPingList (<[i := p']> (gPingList st)) st) in
                let st := sendPacket GamePingRequest (address p') (key p') (session p')
                            flags st in
                let st :=
                  if TORQUE_NET_HOLEPUNCHING h && negb (broadcast p')
                  then relayToMasters MasterServerGamePingRequest flags p' st
                  else st in
                pingLoop h now flags waitingForMaster fuel' (S i) st
            else pingLoop h now flags waitingForMaster fuel' (S i) st
        end
  end.

(** The query phase of [processPingsAndQueries], from index [i] on; [fuel]
    as for [pingLoop]. *)
Fixpoint queryLoop (h : Host) (now flags : Z) (fuel i : nat) (st : State) : State :=
  match fuel with
  | O => st
  | S fuel' =>
      if negb (Z.of_nat i <? gMaxConcurrentQueries) then st
      else
        match gQueryList st !! i with
        | None => st
        | Some p =>
            if U32 (time p + gPingTimeout) <? now then
              match findServerInfo (address p) st with
              | None =>
                  (* Server info not found, so remove the query: *)
                  queryLoop h now flags fuel' i
                    (set_gServerBrowserDirty true
                       (set_gQueryList (delete i (gQueryList st)) st))
              | Some j =>
                  if tryCount p =? 0 then
                    let st := updateServerInfo j (si_set_status Status_TimedOut) st in
                    let st := set_gQueryList (delete i (gQueryList st)) st in
                    queryLoop h now flags fuel' i (set_gServerBrowserDirty true st)
                  else
                    let p' := ping_retry now (gKey st) p in
                    let st := set_gKey (S32 (gKey st + 1))
                                (set_gQueryList (<[i := p']> (gQueryList st)) st) in
                    let st := sendPacket GameInfoRequest (address p') (key p') (session p')
                                flags st in
                    let st :=
                      if TORQUE_NET_HOLEPUNCHING h && negb (broadcast p')
                      then relayToMasters MasterServerGameInfoRequest flags p' st
                      else st in
                    let st :=
                      match gServerList st !! j with
                      | Some si =>
                          if isQuerying si then st
                          else
                            set_gServerBrowserDirty true
                              (updateServerInfo j
                                 (fun si => si_set_status
                                              (Z.lor (si_status si) Status_Querying) si) st)
                      | None => st
                      end in
                    queryLoop h now flags fuel' (S i) st
              end
            else queryLoop h now flags fuel' (S i) st
        end
  end.

(** The closing message of a query. *)
Definition doneMessage (foundCount : Z) : string :=
  if foundCount =? 0 then "No servers found."
  else if foundCount =? 1 then "One server found."
  else pretty (S32 foundCount) +:+ " servers found.".

Definition waitingForMaster_of (st : State) : bool :=
  bool_decide (f_type (sActiveFilter st) = Normal)
  && negb (gGotFirstListPacket st) && sgServerQueryActive st.

Definition processPingsAndQueries (h : Host) (session : Z) (schedule : bool)
    (st : State) : State :=
  if bool_decide (session ≠ U32 (gPingSession st)) then st
  else
    let now := getVirtualMilliseconds h in
    let flags := OnlineQuery in
    let waitingForMaster := waitingForMaster_of st in
    let st := pingLoop h now flags waitingForMaster (length (gPingList st)) 0 st in
    let st :=
      if bool_decide (gPingList st = []) && negb waitingForMaster
      then (* Start the query phase: *)
           queryLoop h now flags (length (gQueryList st)) 0 st
      else st in
    if negb (bool_decide (gPingList st = [])) || negb (bool_decide (gQueryList st = []))
       || waitingForMaster
    then
      (* The LAN query function doesn't always want to schedule the next ping. *)
      if schedule
      then postEvent (ProcessPingEvent session) (U32 (getTargetTime h + 1)) st
      else st
    else
      (* All done! *)
      executef (onServerQueryStatus "done"
                  (doneMessage (U32 (Z.of_nat (length (gServerList st)))))
                  (ProgressLit "1")) st.

Definition ps_retry (now k : Z) (p : PacketStatus) : PacketStatus :=
  {| ps_index := ps_index p; ps_key := k; ps_time := now;
     ps_tryCount := U32 (ps_tryCount p - 1) |}.

(** A re-request of one page: every filter field zeroed. *)
Definition rerequestBody (queryFlags session : Z) (p : PacketStatus) : list WireItem :=
  [WType MasterServerListRequest; W8 (U8 queryFlags);
   W32 (keyField session (ps_key p));
   W8 (ps_index p);  (* packet index *)
   W8 0; W8 0; W8 0; W8 0; W32 0; W32 0; W8 0; W8 0; W16 0; W8 0].

(** The loop of [processServerListPackets].  The index advances on every
    iteration, also after an [erase]. *)
Fixpoint packetLoop (now session : Z) (fuel i : nat) (st : State) : State :=
  match fuel with
  | O => st
  | S fuel' =>
      match gPacketStatusList st !! i with
      | None => st
      | Some p =>
          if U32 (ps_time p + gPacketTimeout) <? now then
            if ps_tryCount p =? 0 then
              (* Packet timed out :( *)
              packetLoop now session fuel' (S i)
                (set_gPacketStatusList (delete i (gPacketStatusList st)) st)
            else
              (* Try again... *)
              let p' := ps_retry now (gKey st) p in
              let st := set_gKey (S32 (gKey st + 1))
                          (set_gPacketStatusList (<[i := p']> (gPacketStatusList st)) st) in
              let st := sendPacketStream (gMasterServerQueryAddress st)
                          (rerequestBody (f_queryFlags (sActiveFilter st)) session p') st in
              packetLoop now session fuel' (S i) st
          else packetLoop now session fuel' (S i) st
      end
  end.

Definition processServerListPackets (h : Host) (session : Z) (st : State) : State :=
  if bool_decide (session ≠ U32 (gPingSession st)) || negb (sgServerQueryActive st) then st
  else
    let currentTime := getVirtualMilliseconds h in
    let st := packetLoop currentTime session (length (gPacketStatusList st)) 0 st in
    match gPacketStatusList st with
    | _ :: _ => postEvent (ProcessPacketEvent session) (U32 (getCurrentTime h + 30)) st
    | [] => processPingsAndQueries h (U32 (gPingSession st)) true st
    end.

(** ** Packet handlers *)

(** The body of a [MasterServerListResponse] after the common header, as the
    handler reads it: [packetIndex], [packetTotal], then [serverCount]
    entries of four address bytes and a port. *)
Record ListResponse : Type := mkListResponse {
  packetIndex : Z;                       (* U8 *)
  packetTotal : Z;                       (* U8 *)
  servers : list (Z * Z * Z * Z * Z)     (* netNum[0..3], port *)
}.

(** The address the handler builds from one entry
    (["IP:%d.%d.%d.%d:%d"] through [Net::stringToAddress]). *)
Definition entryAddress (e : Z * Z * Z * Z * Z) : NetAddress :=
  let '(n0, n1, n2, n3, port) := e in IPv4 n0 n1 n2 n3 port.

(** The key of the first [PacketStatus] with the given index, if any. *)
Fixpoint findPacketKey (l : list PacketStatus) (index : Z) : option Z :=
  match l with
  | [] => None
  | p :: l' => if ps_index p =? index then Some (ps_key p) else findPacketKey l' index
  end.

(** Erase the first [PacketStatus] with the given index. *)
Fixpoint erasePacketStatus (l : list PacketStatus) (index : Z) : list PacketStatus :=
  match l with
  | [] => []
  | p :: l' => if ps_index p =? index then l' else p :: erasePacketStatus l' index
  end.

(** [packetKey] of [handleMasterServerListResponse]: the master ping's key,
    replaced after the first list packet by the key of the packet status
    recorded for this index when there is one. *)
Definition storedKey (index : Z) (st : State) : Z :=
  let packetKey := U32 (key (gMasterServerPing st)) in
  if gGotFirstListPacket st then
    match findPacketKey (gPacketStatusList st) index with
    | Some k => U32 k
    | None => packetKey
    end
  else packetKey.

Definition testKey (index : Z) (st : State) : Z :=
  keyField (gPingSession st) (storedKey index st).

(** Enter all of the servers in this packet into the ping list. *)
Definition enterServers (flags : Z) (l : list (Z * Z * Z * Z * Z)) (st : State) : State :=
  fold_left (fun st' e =>
               let addr := entryAddress e in
               (* flags set: this is *our* own public IP *)
               let st' := if flags =? 0 then st' else addLocalAddress addr st' in
               pushPingRequest addr st')
    l st.

(** The entries the first list packet creates: one for every index below
    [packetTotal] other than the one received. *)
Definition missingPackets (packetIndex packetTotal key currentTime : Z) : list PacketStatus :=
  omap (fun i : nat =>
          if Z.of_nat i =? packetIndex then None
          else Some (newPacketStatus (U8 (Z.of_nat i)) key currentTime))
       (seq 0 (Z.to_nat packetTotal)).

(** The state [handleMasterServerListResponse] hands to
    [processServerListPackets] on the first list packet. *)
Definition fillPacketStatusList (h : Host) (pkt : ListResponse) (st : State) : State :=
  let st := set_gGotFirstListPacket true st in
  let st := set_gMasterServerQueryAddress (address (gMasterServerPing st)) st in
  let currentTime := getVirtualMilliseconds h in
  set_gPacketStatusList
    (gPacketStatusList st
     ++ missingPackets (packetIndex pkt) (packetTotal pkt)
          (key (gMasterServerPing st)) currentTime) st.

Definition handleMasterServerListResponse (h : Host) (pkt : ListResponse)
    (key flags : Z) (st : State) : State :=
  (* Validate the packet key: *)
  if bool_decide (testKey (packetIndex pkt) st ≠ key) then st
  else
    let st := enterServers flags (servers pkt) st in
    if negb (gGotFirstListPacket st) then
      (* fill the packet status list and start processing: *)
      let st := fillPacketStatusList h pkt st in
      processServerListPackets h (U32 (gPingSession st)) st
    else
      (* Remove the packet we just received from the status list: *)
      set_gPacketStatusList (erasePacketStatus (gPacketStatusList st) (packetIndex pkt)) st.

(** *** The ping responder (server side) *)

Definition pingResponseBody (h : Host) (key flags : Z) (st : State) : list WireItem :=
  let compressed := Z.land flags NoStringCompress =? 0 in
  (* Enforce a 24-character limit on the server name: *)
  let serverName := dStrncpy (getVariable "Pref::Server::Name" st) 24 in
  [WType GamePingResponse; W8 flags; W32 key]
  ++ (if compressed then [WString versionString] else writeCString versionString)
  ++ [W32 (CurrentProtocolVersion h); W32 (MinRequiredProtocolVersion h);
      W32 (getVersionNumber h)]
  ++ (if compressed then [WString serverName] else writeCString serverName).

Definition handleGamePingRequest (h : Host) (address : NetAddress) (key flags : Z)
    (st : State) : State :=
  (* Do not respond if a mission is not running: *)
  if doesAllowConnections h then
    (* Do not respond if this is a single-player game: *)
    if dStricmp_eq (getVariable "Server::ServerType" st) "SinglePlayer" then st
    (* Do not respond to offline queries if this is an online server: *)
    else if negb (Z.land flags OfflineQuery =? 0) then st
    else
      let maxCount := S32 (getIntVariable "Pref::Server::MaxPlayers" st
                           - getIntVariable "Pref::Server::PrivateSlots" st) in
      if maxCount <=? getIntVariable "Server::PlayerCount" st then st  (* Don't reply *)
      else sendPacketStream address (pingResponseBody h key flags st) st
  else st.

(** *** Ping responses (client side) *)

(** The body of a [GamePingResponse] after the common header. *)
Record PingResponse : Type := mkPingResponse {
  versionTag : string;
  protocolCurrent : Z;     (* U32 *)
  protocolMin : Z;         (* U32 *)
  buildVersion : Z;        (* U32 *)
  serverName : string
}.

(** [infoKey] of [handleGamePingResponse]: the key field a ping expects
    back. *)
Definition infoKey (p : Ping) : Z := keyField (session p) (key p).

(** The two ways [handleGamePingResponse] takes a server out of
    consideration: the address goes to the finished list, the ping is
    erased, and an existing server record is either marked timed out or
    removed. *)
Definition rejectPing (remove : bool) (address : NetAddress) (index : nat)
    (si : option nat) (waitingForMaster : bool) (st : State) : State :=
  let st := set_gFinishedList (gFinishedList st ++ [address]) st in
  let st := set_gPingList (delete index (gPingList st)) st in
  let st :=
    match si with
    | Some j =>
        if remove then removeServerInfo address st
        else set_gServerBrowserDirty true
               (updateServerInfo j (si_set_status Status_TimedOut) st)
    | None => st
    end in
  if waitingForMaster then st else updatePingProgress st.

Definition handleGamePingResponse (h : Host) (address : NetAddress) (pkt : PingResponse)
    (key flags : Z) (st : State) : State :=
  match gPingList st with
  | [] => st   (* Broadcast has timed out or query has been cancelled *)
  | _ :: _ =>
      match findPingEntry (gPingList st) address with
      | None =>
          (* an anonymous ping response - if it's not already timed out or
             finished, ping it.  Probably from a broadcast *)
          if negb (addressFinished address st) then
            let st := pushPingRequest address st in
            match findPingEntry (gPingList st) address with
            | Some index =>
                set_gPingList (alter (ping_set_isLocal true) index (gPingList st)) st
            | None => st
            end
          else st
      | Some index =>
          match gPingList st !! index with
          | None => st
          | Some p =>
              if bool_decide (infoKey p ≠ key) then st
              else
                (* Find if the server info already exists (favorite or refreshing): *)
                let si := findServerInfo address st in
                let filtered :=
                  bool_decide (f_type (sActiveFilter st) = Normal)
                  || bool_decide (f_type (sActiveFilter st) = OfflineFiltered) in
                let applyFilter :=
                  filtered &&
                  match si ≫= (fun j => gServerList st !! j) with
                  | Some info => negb (isUpdating info)
                  | None => true
                  end in
                let waitingForMaster :=
                  bool_decide (f_type (sActiveFilter st) = Normal)
                  && negb (gGotFirstListPacket st) in
                (* Verify the version: *)
                if negb (bool_decide (versionTag pkt = versionString)) then
                  rejectPing false address index si waitingForMaster st
                (* See if the server meets our minimum protocol: *)
                else if protocolCurrent pkt <? MinRequiredProtocolVersion h then
                  rejectPing false address index si waitingForMaster st
                (* See if we meet the server's minimum protocol: *)
                else if CurrentProtocolVersion h <? protocolMin pkt then
                  rejectPing false address index si waitingForMaster st
                else
                  (* Calculate the ping: *)
                  let now := getVirtualMilliseconds h in
                  let ping := if time p <? now then U32 (now - time p) else 0 in
                  (* Check for max ping filter: *)
                  if applyFilter && (0 <? f_maxPing (sActiveFilter st))
                     && (f_maxPing (sActiveFilter st) <? ping) then
                    rejectPing true address index si waitingForMaster st
                  else if negb (buildVersion pkt =? getVersionNumber h) then
                    rejectPing true address index si waitingForMaster st
                  else
                    (* OK, we can finally create the server info structure: *)
                    let '(j, st) :=
                      match si with
                      | Some j => (j, st)
                      | None => findOrCreateServerInfo address st
                      end in
                    let st := updateServerInfo j
                                (si_set_pinged ping (buildVersion pkt) (isLocal p)
                                   (serverName pkt)) st in
                    (* Set the server up to be queried: *)
                    let st := set_gFinishedList (gFinishedList st ++ [address]) st in
                    let st := set_gQueryList (gQueryList st ++ [ping_to_query p]) st in
                    let st := set_gServerQueryCount (U32 (gServerQueryCount st + 1)) st in
                    let st := set_gPingList (delete index (gPingList st)) st in
                    let st := if waitingForMaster then st else updatePingProgress st in
                    (* Update the server browser gui! *)
                    set_gServerBrowserDirty true st
          end
      end
  end.

(** ** Refreshing one server *)

(** Erase the first occurrence of [addr] ([erase(i); break;]). *)
Fixpoint eraseFirst (addr : NetAddress) (l : list NetAddress) : list NetAddress :=
  match l with
  | [] => []
  | a :: l' => if compareAddresses addr a then l' else a :: eraseFirst addr l'
  end.

Definition querySingleServer (h : Host) (addr : NetAddress) (flags : Z) (st : State) : State :=
  let st := set_sgServerQueryActive true st in
  let st :=
    match findServerInfo addr st with
    | Some j => updateServerInfo j (si_set_status (Z.lor Status_New Status_Updating)) st
    | None => st
    end in
  (* Remove the server from the finished list (if it's there): *)
  let st := set_gFinishedList (eraseFirst addr (gFinishedList st)) st in
  let st := executef (onServerQueryStatus "start" "Refreshing server..." (ProgressLit "0")) st in
  let st := set_gServerQueryCount 0 (set_gServerPingCount 0 st) in
  let st := pushPingRequest addr st in
  processPingsAndQueries h (U32 (gPingSession st)) true st.

(** ** Runs of the orchestrator

    The entry points modelled above, as inputs of one event loop: console
    calls, simulator events firing with the stamp they carry, and datagrams
    arriving.  Every input comes with the host as it stands at that
    moment. *)
Inductive Input : Type :=
  | CallQuerySingleServer (addr : NetAddress) (flags : Z)
  | CallCancelServerQuery
  | CallStopServerQuery
  | CallClearServerList (clearServerInfo : bool)
  | FireProcessPingEvent (session : Z)
  | FireProcessPacketEvent (session : Z)
  | RecvMasterServerListResponse (pkt : ListResponse) (key flags : Z)
  | RecvGamePingResponse (from : NetAddress) (pkt : PingResponse) (key flags : Z).

Definition step (h : Host) (i : Input) (st : State) : State :=
  match i with
  | CallQuerySingleServer addr flags => querySingleServer h addr flags st
  | CallCancelServerQuery => cancelServerQuery st
  | CallStopServerQuery => stopServerQuery st
  | CallClearServerList b => clearServerList b st
  | FireProcessPingEvent session => processPingsAndQueries h session true st
  | FireProcessPacketEvent session => processServerListPackets h session st
  | RecvMasterServerListResponse pkt key flags => handleMasterServerListResponse h pkt key flags st
  | RecvGamePingResponse from pkt key flags => handleGamePingResponse h from pkt key flags st
  end.

Definition run (trace : list (Host * Input)) (st : State) : State :=
  fold_left (fun st' hi => step (fst hi) (snd hi) st') trace st.

(** A state the orchestrator can be in: some run from the start-up state
    ends there. *)
Definition reachable (st : State) : Prop :=
  exists vars trace, run trace (initialState vars) = st.

(** The number of entries of the ping list for [addr]. *)
Definition pingsFor (addr : NetAddress) (st : State) : nat :=
  length (filter (fun p => address p = addr) (gPingList st)).

(** ** Sample data for the closed statements *)

Definition sampleHost : Host :=
  {| getVirtualMilliseconds := 5000; getCurrentTime := 5000; getTargetTime := 5000;
     getVersionNumber := 1000; CurrentProtocolVersion := 12;
     MinRequiredProtocolVersion := 12; doesAllowConnections := true;
     validateAuthenticatedServer := true; TORQUE_NET_HOLEPUNCHING := false;
     stringToAddress := fun _ => Some (IPv4 203 0 113 5 28002);
     addressToString := fun _ => "IP:192.0.2.10:28000" |}.

Definition sampleAddress : NetAddress := IPv4 192 0 2 10 28000.

Definition samplePingResponse (tag : string) : PingResponse :=
  {| versionTag := tag; protocolCurrent := 12; protocolMin := 12;
     buildVersion := 1000; serverName := "Sample" |}.

(** The ping an anonymous response enqueues. *)
Definition localPing (addr : NetAddress) (st : State) : Ping :=
  {| address := addr; session := gPingSession st; key := 0; time := 0;
     tryCount := gPingRetryCount; broadcast := false; isLocal := true |}.

(** The variables [setServerInfo] publishes for a server, with the text each
    one receives. *)
Definition serverInfoVariables (h : Host) (info : ServerInfo) : list (string * string) :=
  [("ServerInfo::Status", pretty (S32 (si_status info)));
   ("ServerInfo::Address", addressToString h (si_address info));
   ("ServerInfo::Name", default "" (si_name info));
   ("ServerInfo::GameType", default "" (si_gameType info));
   ("ServerInfo::MissionName", default "" (si_missionName info));
   ("ServerInfo::MissionType", default "" (si_missionType info));
   ("ServerInfo::State", default "" (si_statusString info));
   ("ServerInfo::Info", default "" (si_infoString info));
   ("ServerInfo::PlayerCount", pretty (si_numPlayers info));
   ("ServerInfo::MaxPlayers", pretty (si_maxPlayers info));
   ("ServerInfo::BotCount", pretty (si_numBots info));
   ("ServerInfo::Version", pretty (S32 (si_version info)));
   ("ServerInfo::Ping", pretty (S32 (si_ping info)));
   ("ServerInfo::CPUSpeed", pretty (si_cpuSpeed info));
   ("ServerInfo::Favorite", if si_isFavorite info then "1" else "0");
   ("ServerInfo::Dedicated", if isDedicated info then "1" else "0");
   ("ServerInfo::Password", if isPassworded info then "1" else "0");
   ("ServerInfo::IsLocal", if si_isLocal info then "1" else "0")].

(** The console of a running server with 3 of its 8 public slots taken and
    the given [Server::ServerType]. *)
Definition sampleServerVars (serverType : string) : gmap string string :=
  <["Server::ServerType" := serverType]>
    (<["Pref::Server::MaxPlayers" := "8"]>
       (<["Pref::Server::PrivateSlots" := "0"]>
          (<["Server::PlayerCount" := "3"]>
             (<["Pref::Server::Name" := "Sample"]> ∅)))).

(** The [GameHeartbeat] datagram [sendHeartbeat] sends to one master. *)
Definition heartbeatDatagram (session flags : Z) (mi : MasterInfo) : Datagram :=
  mkDatagram (mi_address mi)
    [WType GameHeartbeat; W8 flags; W32 (keyField (U32 session) (U32 0))].

(** Two configured masters. *)
Definition sampleMasterVars : gmap string string :=
  <["Server::Master0" := "2:IP:203.0.113.5:28002"]>
    (<["Server::Master1" := "1:IP:203.0.113.6:28002"]> ∅).

(** A datagram that asks a server for its game info: the direct
    [GameInfoRequest] or the copy relayed through a master. *)
Definition isGameInfoRequest (d : Datagram) : bool :=
  match dg_body d with
  | WType GameInfoRequest :: _ => true
  | WType MasterServerGameInfoRequest :: _ => true
  | _ => false
  end.

(** A [Normal] query is under way and still waits for the first list packet
    of the master. *)
Definition awaitingFirstListPacket (st : State) : Prop :=
  f_type (sActiveFilter st) = Normal
  /\ sgServerQueryActive st = true
  /\ gGotFirstListPacket st = false.

(** The number of times [addr] occurs among the entries of a list
    packet. *)
Definition occurrences (addr : NetAddress) (l : list (Z * Z * Z * Z * Z)) : nat :=
  length (filter (fun e => entryAddress e = addr) l).

(** A second server, and the two fragments of a two-packet master list that
    both name [sampleAddress]. *)
Definition otherAddress : NetAddress := IPv4 198 51 100 7 28000.

Definition fragment0 : ListResponse :=
  {| packetIndex := 0; packetTotal := 2; servers := [(192, 0, 2, 10, 28000)] |}.
Definition fragment1 : ListResponse :=
  {| packetIndex := 1; packetTotal := 2;
     servers := [(198, 51, 100, 7, 28000); (192, 0, 2, 10, 28000)] |}.

Definition duplicateTrace : list (Host * Input) :=
  [(sampleHost, RecvMasterServerListResponse fragment0 0 0);
   (sampleHost, RecvMasterServerListResponse fragment1 0 0)].

(** A LAN query in which one server is still being pinged while another,
    already known, is due for its info request. *)
Definition pendingPingState : State :=
  let known := IPv4 198 51 100 7 28000 in
  set_sActiveFilter
    {| f_type := Offline; f_gameType := None; f_missionType := None;
       f_queryFlags := 0; f_minPlayers := 0; f_maxPlayers := 255; f_maxBots := 16;
       f_regionMask := 0xFFFFFFFF; f_maxPing := 0; f_filterFlags := 0;
       f_minCPU := 0; f_buddyList := [] |}
    (set_sgServerQueryActive true
       (set_gServerList [newServerInfo known]
          (set_gQueryList
             [{| address := known; session := 0; key := 0; time := 0;
                 tryCount := gQueryRetryCount; broadcast := false; isLocal := false |}]
             (set_gPingList
                [{| address := sampleAddress; session := 0; key := 0; time := 0;
                    tryCount := gPingRetryCount; broadcast := false; isLocal := false |}]
                (initialState ∅))))).


(** ** Reading strings back

    The reader side of the string helpers.  A stream is the sequence of
    items still to be read; a read of a width other than the one that was
    written, or past the end, is outside the model ([None]). *)

Definition readU8 (s : list WireItem) : option (Z * list WireItem) :=
  match s with
  | W8 v :: rest => Some (v, rest)
  | _ => None
  end.

Definition readU16 (s : list WireItem) : option (Z * list WireItem) :=
  match s with
  | W16 v :: rest => Some (v, rest)
  | _ => None
  end.

(** [n] successive [stream->read(&ptr[i])]. *)
Fixpoint readBytes (n : nat) (s : list WireItem) : option (list Z * list WireItem) :=
  match n with
  | O => Some ([], s)
  | S n' =>
      match readU8 s with
      | Some (b, s1) =>
          match readBytes n' s1 with
          | Some (bs, s2) => Some (b :: bs, s2)
          | None => None
          end
      | None => None
      end
  end.

(** The C string a buffer holds: the bytes up to the first NUL. *)
Fixpoint cstring_of_bytes (bs : list Z) : string :=
  match bs with
  | [] => EmptyString
  | b :: bs' =>
      if b =? 0 then EmptyString
      else String (Ascii.ascii_of_N (Z.to_N b)) (cstring_of_bytes bs')
  end.

(** [readCString]: a length byte, that many bytes, then the terminator
    [buffer[i] = 0]. *)
Definition readCString (s : list WireItem) : option (string * list WireItem) :=
  match readU8 s with
  | Some (strLen, s1) =>
      match readBytes (Z.to_nat strLen) s1 with
      | Some (bs, s2) => Some (cstring_of_bytes bs, s2)
      | None => None
      end
  | None => None
  end.

(** [writeLongCString]: as [writeCString] with a 16-bit length. *)
Definition writeLongCString (s : string) : list WireItem :=
  let strLen := U16 (Z.of_nat (String.length s)) in
  W16 strLen :: map (fun c => W8 (char_code c))
                    (take (Z.to_nat strLen) (String.list_ascii_of_string s)).

(** The outcome of a read into a caller's buffer: the string the buffer
    then holds and the rest of the stream; a read outside the model (as
    above); or a write past the end of the buffer. *)
Inductive BufferRead : Type :=
  | ReadOk (s : string) (rest : list WireItem)
  | ReadOutsideModel
  | BufferOverrun.

(** [readLongCString(stream, buffer)]: a 16-bit length, that many bytes
    stored at [buffer[0 .. strLen - 1]], then the terminator
    [buffer[strLen] = 0].  The function is not told the size of [buffer];
    [capacity] is the size of the array the caller passes, and the writes
    stay inside it only when [strLen < capacity]. *)
Definition readLongCString (capacity : nat) (s : list WireItem) : BufferRead :=
  match readU16 s with
  | Some (strLen, s1) =>
      match readBytes (Z.to_nat strLen) s1 with
      | Some (bs, s2) =>
          if (capacity <=? Z.to_nat strLen)%nat then BufferOverrun
          else ReadOk (cstring_of_bytes bs) s2
      | None => ReadOutsideModel
      end
  | None => ReadOutsideModel
  end.

(** [char stringBuf[2048]] of [handleGameInfoResponse], the buffer of the
    only call of [readLongCString]. *)
Definition stringBufSize : nat := 2048.

(** A C string has no NUL among its characters. *)
Definition nulFree (s : string) : Prop :=
  Forall (fun c => char_code c ≠ 0) (String.list_ascii_of_string s).

(** ** Vocabulary for the statements about the server list *)

(** The addresses of the server list, in order. *)
Definition serverAddresses (st : State) : list NetAddress :=
  map si_address (gServerList st).

(** The entries of a server list other than those of [addr]. *)
Definition serversExcept (addr : NetAddress) (l : list ServerInfo) : list ServerInfo :=
  filter (fun si => si_address si ≠ addr) l.

(** ** Vocabulary for the statements about a tick *)

(** The datagrams of the given type sent directly to a server (the first
    item written is the packet type). *)
Definition isPacket (t : PacketType) (d : Datagram) : bool :=
  match dg_body d with
  | WType t' :: _ => bool_decide (t' = t)
  | _ => false
  end.

Definition countPackets (t : PacketType) (l : list Datagram) : nat :=
  length (filter (fun d => isPacket t d = true) l).

(** What cancelling may do to one server record: nothing, or, for a server
    that has not responded, replace its status by [Status_TimedOut]. *)
Definition keptOrTimedOut (before after : ServerInfo) : Prop :=
  after = before
  \/ (status_test (si_status before) Status_Responded = false
      /\ after = si_set_status Status_TimedOut before).

(** ** The master query *)

(** [gMasterServerPing.time = 0; .key = 0; .tryCount = gMasterServerRetryCount;
    .session = gPingSession;] *)
Definition ping_reset (s : Z) (p : Ping) : Ping :=
  {| address := address p; session := s; key := 0; time := 0;
     tryCount := gMasterServerRetryCount; broadcast := broadcast p; isLocal := isLocal p |}.

Definition ping_set_address (a : NetAddress) (p : Ping) : Ping :=
  {| address := a; session := session p; key := key p; time := time p;
     tryCount := tryCount p; broadcast := broadcast p; isLocal := isLocal p |}.

(** The search loop of [pickMasterServer]: from [index] on, with wrap-around,
    the first master of the wanted region; the index the loop ends on
    otherwise. *)
Fixpoint pickLoop (l : list MasterInfo) (region : Z) (fuel index : nat) : nat :=
  match fuel with
  | O => index
  | S fuel' =>
      match l !! index with
      | Some mi =>
          if mi_region mi =? region then index
          else pickLoop l region fuel'
                 (if (index <? length l - 1)%nat then S index else 0%nat)
      | None => index
      end
  end.

(** The result pairs the returned [bool] with the state. *)
Definition pickMasterServer (h : Host) (st : State) : bool * State :=
  (* Reset the master server ping: *)
  let st := set_gMasterServerPing (ping_reset (gPingSession st) (gMasterServerPing st)) st in
  let serverCount := length (gMasterServerList st) in
  match gMasterServerList st with
  | [] => (false, st)   (* There are no more servers left to try...:( *)
  | _ :: _ =>
      let region := U32 (getIntVariable "$pref::Net::RegionMask" st) in
      let index := Z.to_nat (U32 (getCurrentTime h) mod Z.of_nat serverCount) in
      (* First try to find a master server in the same region; settle for the
         one we first picked: *)
      let index := pickLoop (gMasterServerList st) region serverCount index in
      match gMasterServerList st !! index with
      | Some mi =>
          (true, set_gMasterServerPing
                   (ping_set_address (mi_address mi) (gMasterServerPing st)) st)
      | None => (true, st)
      end
  end.

(** Erase the first master with the given address ([erase(i); break;]). *)
Fixpoint eraseMaster (addr : NetAddress) (l : list MasterInfo) : list MasterInfo :=
  match l with
  | [] => []
  | mi :: l' =>
      if compareAddresses (mi_address mi) addr then l' else mi :: eraseMaster addr l'
  end.

(** The request for the whole server list (page 255) with the active
    filter. *)
Definition masterRequestBody (f : ServerFilter) (version : Z) (p : Ping) : list WireItem :=
  let buddyCount := U8 (Z.of_nat (length (f_buddyList f))) in
  [WType MasterServerListRequest; W8 (U8 (f_queryFlags f));
   W32 (keyField (session p) (key p)); W8 255]
  ++ writeCString (default "" (f_gameType f))
  ++ writeCString (default "" (f_missionType f))
  ++ [W8 (f_minPlayers f); W8 (f_maxPlayers f); W32 (f_regionMask f); W32 version;
      W8 (f_filterFlags f); W8 (f_maxBots f); W16 (f_minCPU f); W8 buddyCount]
  ++ map W32 (take (Z.to_nat buddyCount) (f_buddyList f)).

Definition statusUpdate (msg : string) : ConsoleCall :=
  onServerQueryStatus "update" msg (ProgressLit "0").

(** The body of [processMasterServerQuery] inside
    [if (gMasterServerPing.time + gMasterServerTimeout < time)]: the value
    of [keepGoing] and the state. *)
Definition masterQueryDue (h : Host) (now : Z) (st : State) : bool * State :=
  let '(keepGoing, st) :=
    if tryCount (gMasterServerPing st) =? 0 then
      (* The query timed out.  Remove this server from the list: *)
      let st := set_gMasterServerList
                  (eraseMaster (address (gMasterServerPing st)) (gMasterServerList st)) st in
      (* Pick a new master server to try: *)
      let '(keepGoing, st) := pickMasterServer h st in
      (keepGoing,
       if keepGoing then executef (statusUpdate "Switching master servers...") st else st)
    else (true, st) in
  if keepGoing then
    let p' := ping_retry now (gKey st) (gMasterServerPing st) in
    let st := set_gKey (S32 (gKey st + 1)) (set_gMasterServerPing p' st) in
    (* Send a request to the master server for the server list: *)
    let st := sendPacketStream (address p')
                (masterRequestBody (sActiveFilter st) (getVersionNumber h) p') st in
    let st :=
      if tryCount p' <? gMasterServerRetryCount - 1
      then executef (statusUpdate "Retrying the master server...") st
      else st in
    (true, st)
  else (false, st).

Definition processMasterServerQuery (h : Host) (session : Z) (st : State) : State :=
  if bool_decide (session ≠ U32 (gPingSession st)) || negb (sgServerQueryActive st) then st
  else if gGotFirstListPacket st then st
  else
    let now := getVirtualMilliseconds h in
    let '(keepGoing, st) :=
      if U32 (time (gMasterServerPing st) + gMasterServerTimeout) <? now
      then masterQueryDue h now st
      else (true, st) in
    if keepGoing then
      (* schedule another check: *)
      postEvent (ProcessMasterQueryEvent session) (U32 (getTargetTime h + 1)) st
    else
      processPingsAndQueries h (U32 (gPingSession st)) true st.

(** The region the client prefers. *)
Definition preferredRegion (st : State) : Z :=
  U32 (getIntVariable "$pref::Net::RegionMask" st).

(** The four kinds of datagram a tick of [processPingsAndQueries] can send:
    ping and info requests, direct or relayed through the masters. *)
Definition isTickPacket (d : Datagram) : bool :=
  isPacket GamePingRequest d || isPacket MasterServerGamePingRequest d
  || isPacket GameInfoRequest d || isPacket MasterServerGameInfoRequest d.

(** The master query is live: stamped with the current session, a query
    active, and the first list packet not yet in. *)
Definition masterQueryLive (session : Z) (st : State) : Prop :=
  session = U32 (gPingSession st)
  /\ sgServerQueryActive st = true
  /\ gGotFirstListPacket st = false.

(** The last request to the master is older than [gMasterServerTimeout]. *)
Definition masterRequestDue (h : Host) (st : State) : Prop :=
  U32 (time (gMasterServerPing st) + gMasterServerTimeout) < getVirtualMilliseconds h.

(** A master query whose first master, [sampleAddress], has used up its
    tries; a second master is configured. *)
Definition exhaustedMasterState : State :=
  set_gMasterServerPing
    {| address := sampleAddress; session := 0; key := 2; time := 0; tryCount := 0;
       broadcast := false; isLocal := false |}
    (set_gMasterServerList [mkMasterInfo sampleAddress 2; mkMasterInfo otherAddress 7]
       (set_sgServerQueryActive true (initialState ∅))).

(** ** Info responses (client side) *)

(** Filter flags of [ServerFilter]. *)
Definition Dedicated : Z := BIT 0.
Definition NotPassworded : Z := BIT 1.
Definition Linux : Z := BIT 2.
Definition CurrentVersion : Z := BIT 7.

(** The body of a [GameInfoResponse] after the common header, in the order
    the handler reads it. *)
Record InfoResponse : Type := mkInfoResponse {
  ir_gameType : string;
  ir_missionType : string;
  ir_missionName : string;
  ir_status : Z;           (* U8 *)
  ir_numPlayers : Z;       (* U8 *)
  ir_maxPlayers : Z;       (* U8 *)
  ir_numBots : Z;          (* U8 *)
  ir_cpuSpeed : Z;         (* U16 *)
  ir_infoString : string;
  ir_statusString : string
}.

(** [temp = dStrstr(buf, pat); if (temp) *temp = '\0';] *)
Fixpoint clipAt (pat s : string) : string :=
  if String.prefix pat s then EmptyString
  else
    match s with
    | String c s' => String c (clipAt pat s')
    | EmptyString => EmptyString
    end.

(** [dStrcmp(a, b) != 0] for a field that may be [NULL]:
    [!field || dStrcmp(field, buf) != 0]. *)
Definition differs (field : option string) (buf : string) : bool :=
  match field with
  | Some s => negb (bool_decide (s = buf))
  | None => true
  end.

(** [!field || dStricmp(field, buf) != 0]. *)
Definition differsNoCase (field : option string) (buf : string) : bool :=
  match field with
  | Some s => negb (dStricmp_eq s buf)
  | None => true
  end.

(** [dStricmp(filter, "any") != 0 && dStricmp(value, filter) != 0].  The
    filter strings are [NULL] until a query sets them, and [dStricmp] on a
    null pointer has no defined result: [None]. *)
Definition filteredOut (filter : option string) (value : string) : option bool :=
  match filter with
  | Some f => Some (negb (dStricmp_eq f "any") && negb (dStricmp_eq value f))
  | None => None
  end.

Definition si_set_gameType (v : string) (si : ServerInfo) : ServerInfo :=
  {| si_address := si_address si; si_name := si_name si; si_gameType := Some v;
     si_missionType := si_missionType si; si_missionName := si_missionName si;
     si_statusString := si_statusString si; si_infoString := si_infoString si;
     si_numPlayers := si_numPlayers si; si_maxPlayers := si_maxPlayers si;
     si_numBots := si_numBots si; si_version := si_version si; si_ping := si_ping si;
     si_cpuSpeed := si_cpuSpeed si; si_isFavorite := si_isFavorite si;
     si_status := si_status si; si_isLocal := si_isLocal si |}.

Definition si_set_missionType (v : string) (si : ServerInfo) : ServerInfo :=
  {| si_address := si_address si; si_name := si_name si; si_gameType := si_gameType si;
     si_missionType := Some v; si_missionName := si_missionName si;
     si_statusString := si_statusString si; si_infoString := si_infoString si;
     si_numPlayers := si_numPlayers si; si_maxPlayers := si_maxPlayers si;
     si_numBots := si_numBots si; si_version := si_version si; si_ping := si_ping si;
     si_cpuSpeed := si_cpuSpeed si; si_isFavorite := si_isFavorite si;
     si_status := si_status si; si_isLocal := si_isLocal si |}.

Definition si_set_missionName (v : string) (si : ServerInfo) : ServerInfo :=
  {| si_address := si_address si; si_name := si_name si; si_gameType := si_gameType si;
     si_missionType := si_missionType si; si_missionName := Some v;
     si_statusString := si_statusString si; si_infoString := si_infoString si;
     si_numPlayers := si_numPlayers si; si_maxPlayers := si_maxPlayers si;
     si_numBots := si_numBots si; si_version := si_version si; si_ping := si_ping si;
     si_cpuSpeed := si_cpuSpeed si; si_isFavorite := si_isFavorite si;
     si_status := si_status si; si_isLocal := si_isLocal si |}.

Definition si_set_statusString (v : string) (si : ServerInfo) : ServerInfo :=
  {| si_address := si_address si; si_name := si_name si; si_gameType := si_gameType si;
     si_missionType := si_missionType si; si_missionName := si_missionName si;
     si_statusString := Some v; si_infoString := si_infoString si;
     si_numPlayers := si_numPlayers si; si_maxPlayers := si_maxPlayers si;
     si_numBots := si_numBots si; si_version := si_version si; si_ping := si_ping si;
     si_cpuSpeed := si_cpuSpeed si; si_isFavorite := si_isFavorite si;
     si_status := si_status si; si_isLocal := si_isLocal si |}.

Definition si_set_infoString (v : string) (si : ServerInfo) : ServerInfo :=
  {| si_address := si_address si; si_name := si_name si; si_gameType := si_gameType si;
     si_missionType := si_missionType si; si_missionName := si_missionName si;
     si_statusString := si_statusString si; si_infoString := Some v;
     si_numPlayers := si_numPlayers si; si_maxPlayers := si_maxPlayers si;
     si_numBots := si_numBots si; si_version := si_version si; si_ping := si_ping si;
     si_cpuSpeed := si_cpuSpeed si; si_isFavorite := si_isFavorite si;
     si_status := si_status si; si_isLocal := si_isLocal si |}.

Definition si_set_numPlayers (v : Z) (si : ServerInfo) : ServerInfo :=
  {| si_address := si_address si; si_name := si_name si; si_gameType := si_gameType si;
     si_missionType := si_missionType si; si_missionName := si_missionName si;
     si_statusString := si_statusString si; si_infoString := si_infoString si;
     si_numPlayers := v; si_maxPlayers := si_maxPlayers si;
     si_numBots := si_numBots si; si_version := si_version si; si_ping := si_ping si;
     si_cpuSpeed := si_cpuSpeed si; si_isFavorite := si_isFavorite si;
     si_status := si_status si; si_isLocal := si_isLocal si |}.

Definition si_set_maxPlayers_numBots (maxPlayers numBots : Z) (si : ServerInfo) : ServerInfo :=
  {| si_address := si_address si; si_name := si_name si; si_gameType := si_gameType si;
     si_missionType := si_missionType si; si_missionName := si_missionName si;
     si_statusString := si_statusString si; si_infoString := si_infoString si;
     si_numPlayers := si_numPlayers si; si_maxPlayers := maxPlayers;
     si_numBots := numBots; si_version := si_version si; si_ping := si_ping si;
     si_cpuSpeed := si_cpuSpeed si; si_isFavorite := si_isFavorite si;
     si_status := si_status si; si_isLocal := si_isLocal si |}.

Definition si_set_cpuSpeed (v : Z) (si : ServerInfo) : ServerInfo :=
  {| si_address := si_address si; si_name := si_name si; si_gameType := si_gameType si;
     si_missionType := si_missionType si; si_missionName := si_missionName si;
     si_statusString := si_statusString si; si_infoString := si_infoString si;
     si_numPlayers := si_numPlayers si; si_maxPlayers := si_maxPlayers si;
     si_numBots := si_numBots si; si_version := si_version si; si_ping := si_ping si;
     si_cpuSpeed := v; si_isFavorite := si_isFavorite si;
     si_status := si_status si; si_isLocal := si_isLocal si |}.

(** [!si->statusString || (isUpdate && dStrcmp(si->statusString, buf) != 0)] *)
Definition statusStale (isUpdate : bool) (si : ServerInfo) (buf : string) : bool :=
  match si_statusString si with
  | None => true
  | Some s => isUpdate && negb (bool_decide (s = buf))
  end.

(** The part of [handleGameInfoResponse] that works through [si]: the
    record after the assignments made so far, and whether the server is
    kept ([false]: the handler calls [removeServerInfo] and returns).  The
    strings are the ones [readString] and [readLongCString] deliver. *)
Definition applyInfoResponse (f : ServerFilter) (isUpdate applyFilter : bool)
    (pkt : InfoResponse) (si : ServerInfo) : option (bool * ServerInfo) :=
  (* Get the rules set: *)
  let fresh := differsNoCase (si_gameType si) (ir_gameType pkt) in
  let si := if fresh then si_set_gameType (ir_gameType pkt) si else si in
  out ← (if fresh && applyFilter
         then filteredOut (f_gameType f) (ir_gameType pkt) else Some false);
  if (out : bool) then Some (false, si) else
  (* Get the mission type: *)
  let fresh := differs (si_missionType si) (ir_missionType pkt) in
  let si := if fresh then si_set_missionType (ir_missionType pkt) si else si in
  out ← (if fresh && applyFilter
         then filteredOut (f_missionType f) (ir_missionType pkt) else Some false);
  if (out : bool) then Some (false, si) else
  (* Get the mission name, clip the file extension off: *)
  let name := clipAt ".mis" (ir_missionName pkt) in
  let si := if differs (si_missionName si) name then si_set_missionName name si else si in
  (* Get the server status: *)
  let si := si_set_status (ir_status pkt) si in
  (* Filter by the flags: *)
  if applyFilter && negb (Z.land (f_filterFlags f) Dedicated =? 0) && negb (isDedicated si)
  then Some (false, si)
  else if applyFilter && negb (Z.land (f_filterFlags f) NotPassworded =? 0) && isPassworded si
  then Some (false, si)
  else
  let si := si_set_status (Z.lor (si_status si) Status_Responded) si in
  (* Get the player count: *)
  let si := si_set_numPlayers (ir_numPlayers pkt) si in
  if applyFilter && ((si_numPlayers si <? f_minPlayers f) || (f_maxPlayers f <? si_numPlayers si))
  then Some (false, si)
  else
  (* Get the max players and bot count: *)
  let si := si_set_maxPlayers_numBots (ir_maxPlayers pkt) (ir_numBots pkt) si in
  if applyFilter && (f_maxBots f <? si_numBots si) then Some (false, si) else
  (* Get the CPU speed: *)
  let si := si_set_cpuSpeed (ir_cpuSpeed pkt) si in
  if applyFilter && (si_cpuSpeed si <? f_minCPU f) then Some (false, si) else
  (* Get the server info: *)
  let si := if statusStale isUpdate si (ir_infoString pkt)
            then si_set_infoString (ir_infoString pkt) si else si in
  (* Get the content string: *)
  let si := if statusStale isUpdate si (ir_statusString pkt)
            then si_set_statusString (ir_statusString pkt) si else si in
  Some (true, si).

(** [None] stands for the undefined comparison against a [NULL] filter
    string. *)
Definition handleGameInfoResponse (address : NetAddress) (pkt : InfoResponse)
    (st : State) : option State :=
  match gQueryList st with
  | [] => Some st
  | _ :: _ =>
      match findPingEntry (gQueryList st) address with
      | None => Some st
      | Some index =>
          (* Remove the server from the query list since it has been so kind
             as to respond: *)
          let st := set_gQueryList (delete index (gQueryList st)) st in
          let st := updateQueryProgress st in
          match findServerInfo address st with
          | None => Some st
          | Some j =>
              match gServerList st !! j with
              | None => Some st
              | Some si =>
                  let isUpdate := isUpdating si in
                  let applyFilter :=
                    negb isUpdate
                    && (bool_decide (f_type (sActiveFilter st) = Normal)
                        || bool_decide (f_type (sActiveFilter st) = OfflineFiltered)) in
                  '(kept, si) ← applyInfoResponse (sActiveFilter st) isUpdate applyFilter pkt si;
                  let st := updateServerInfo j (fun _ => si) st in
                  Some (if (kept : bool) then set_gServerBrowserDirty true st
                        else removeServerInfo address st)
              end
          end
      end
  end.

(** ** Vocabulary for the statements about info responses *)

(** The filter type under which [handleGameInfoResponse] filters. *)
Definition filterApplies (f : ServerFilter) : bool :=
  bool_decide (f_type f = Normal) || bool_decide (f_type f = OfflineFiltered).


(** An info response meets the flag and number limits of a filter. *)
Definition numbersPass (f : ServerFilter) (pkt : InfoResponse) : Prop :=
  (Z.land (f_filterFlags f) Dedicated <> 0 -> status_test (ir_status pkt) Status_Dedicated = true)
  /\ (Z.land (f_filterFlags f) NotPassworded <> 0 ->
      status_test (ir_status pkt) Status_Passworded = false)
  /\ f_minPlayers f <= ir_numPlayers pkt <= f_maxPlayers f
  /\ ir_numBots pkt <= f_maxBots f
  /\ f_minCPU f <= ir_cpuSpeed pkt.


(** The record of a server whose info response was taken over. *)
Definition infoRecorded (pkt : InfoResponse) (si : ServerInfo) : Prop :=
  si_status si = Z.lor (ir_status pkt) Status_Responded
  /\ si_numPlayers si = ir_numPlayers pkt
  /\ si_maxPlayers si = ir_maxPlayers pkt
  /\ si_numBots si = ir_numBots pkt
  /\ si_cpuSpeed si = ir_cpuSpeed pkt
  /\ si_missionType si = Some (ir_missionType pkt)
  /\ si_missionName si = Some (clipAt ".mis" (ir_missionName pkt))
  /\ (exists g, si_gameType si = Some g /\ dStricmp_eq g (ir_gameType pkt) = true).

(** What an info response never changes in a record. *)
Definition sameIdentity (si si' : ServerInfo) : Prop :=
  si_address si' = si_address si
  /\ si_name si' = si_name si
  /\ si_ping si' = si_ping si
  /\ si_version si' = si_version si
  /\ si_isLocal si' = si_isLocal si
  /\ si_isFavorite si' = si_isFavorite si.

Definition sampleInfoResponse : InfoResponse :=
  {| ir_gameType := "Marble"; ir_missionType := "Race";
     ir_missionName := "beginner01.mis"; ir_status := 1;
     ir_numPlayers := 3; ir_maxPlayers := 8; ir_numBots := 0; ir_cpuSpeed := 2400;
     ir_infoString := "welcome"; ir_statusString := "players" |}.

Definition anyFilter : ServerFilter :=
  {| f_type := Normal; f_gameType := Some "any"; f_missionType := Some "Any";
     f_queryFlags := 0; f_minPlayers := 0; f_maxPlayers := 255; f_maxBots := 16;
     f_regionMask := 0xFFFFFFFF; f_maxPing := 0; f_filterFlags := 0;
     f_minCPU := 0; f_buddyList := [] |}.

(** A server that was pinged and whose info request is outstanding. *)
Definition queriedState (status : Z) : State :=
  set_sActiveFilter anyFilter
    (set_gQueryList [ping_to_query (localPing sampleAddress (initialState ∅))]
       (set_gServerList [si_set_status status (newServerInfo sampleAddress)]
          (initialState ∅))).

(** ** Vocabulary for the statements about ping responses *)

(** The round-trip time [handleGamePingResponse] computes for a ping. *)
Definition measuredPing (h : Host) (p : Ping) : Z :=
  let now := getVirtualMilliseconds h in
  if time p <? now then U32 (now - time p) else 0.

(** What every verdict on an answered ping has in common: the address is
    finished, the ping entry is gone, nothing was sent or scheduled and the
    records of the other servers are as they were. *)
Definition pingSettled (address : NetAddress) (index : nat) (st st' : State) : Prop :=
  gFinishedList st' = gFinishedList st ++ [address]
  /\ gPingList st' = delete index (gPingList st)
  /\ netOut st' = netOut st
  /\ simQueue st' = simQueue st
  /\ serversExcept address (gServerList st') = serversExcept address (gServerList st).

(** The server was not promoted to the query phase. *)
Definition notPromoted (st st' : State) : Prop :=
  gQueryList st' = gQueryList st /\ gServerQueryCount st' = gServerQueryCount st.

(** The server of ping [p] was promoted to the query phase. *)
Definition promoted (p : Ping) (st st' : State) : Prop :=
  gQueryList st' = gQueryList st ++ [ping_to_query p]
  /\ gServerQueryCount st' = U32 (gServerQueryCount st + 1).

(** ** Vocabulary for the statements about the list packets *)

(** The request for a page has gone unanswered for longer than
    [gPacketTimeout] ([p.time + gPacketTimeout < currentTime]). *)
Definition overdue (now : Z) (p : PacketStatus) : bool :=
  U32 (ps_time p + gPacketTimeout) <? now.

(** A re-request of a page, sent to the given master. *)
Definition isRerequestTo (master : NetAddress) (d : Datagram) : Prop :=
  dg_to d = master /\ isPacket MasterServerListRequest d = true.

(** ** Vocabulary for the statements about a server's record *)

(** [info] is the record [findServerInfo] finds for [addr]: the one at place
    [j], with no record of [addr] before it. *)
Definition firstRecordOf (addr : NetAddress) (l : list ServerInfo) (j : nat)
    (info : ServerInfo) : Prop :=
  l !! j = Some info
  /\ si_address info = addr
  /\ forall i q, (i < j)%nat -> l !! i = Some q -> si_address q <> addr.

(** [after] is [before] with its status word replaced by exactly
    [Status_TimedOut]. *)
Definition timedOutCopy (before after : ServerInfo) : Prop :=
  si_status after = Status_TimedOut
  /\ si_address after = si_address before
  /\ si_name after = si_name before
  /\ si_gameType after = si_gameType before
  /\ si_missionType after = si_missionType before
  /\ si_missionName after = si_missionName before
  /\ si_statusString after = si_statusString before
  /\ si_infoString after = si_infoString before
  /\ si_numPlayers after = si_numPlayers before
  /\ si_maxPlayers after = si_maxPlayers before
  /\ si_numBots after = si_numBots before
  /\ si_version after = si_version before
  /\ si_ping after = si_ping before
  /\ si_cpuSpeed after = si_cpuSpeed before
  /\ si_isFavorite after = si_isFavorite before
  /\ si_isLocal after = si_isLocal before.

(** A server list with a record of another server and one of
    [sampleAddress] that has responded before. *)
Definition knownServers : list ServerInfo :=
  [newServerInfo otherAddress;
   si_set_status (Z.lor Status_Responded Status_Dedicated) (newServerInfo sampleAddress)].

(** The two fragments of [duplicateTrace] followed by a ping tick: the
    address named twice then has two pings in flight, with different
    keys. *)
Definition twoPingsTrace : list (Host * Input) :=
  duplicateTrace ++ [(sampleHost, FireProcessPingEvent 0)].

(** ** Every entry point of the model, as one event loop

    The inputs of [step], and with them the other entry points modelled
    here: the master-query and heartbeat events, the heartbeat and
    [setServerInfo] console calls, and the ping-request and info-response
    handlers.  [None]: the entry left the defined behaviour of the source
    (see [handleGameInfoResponse]). *)
Inductive Entry : Type :=
  | Orchestrated (i : Input)
  | FireProcessMasterQueryEvent (session : Z)
  | FireHeartbeatEvent (seq : Z)
  | CallStartHeartbeat
  | CallStopHeartbeat
  | CallSetServerInfo (argv1 : string)
  | RecvGamePingRequest (from : NetAddress) (key flags : Z)
  | RecvGameInfoResponse (from : NetAddress) (pkt : InfoResponse).

Definition enter (h : Host) (e : Entry) (st : State) : option State :=
  match e with
  | Orchestrated i => Some (step h i st)
  | FireProcessMasterQueryEvent session => Some (processMasterServerQuery h session st)
  | FireHeartbeatEvent seq => Some (processHeartbeat h seq st)
  | CallStartHeartbeat => Some (startHeartbeat h st)
  | CallStopHeartbeat => Some (stopHeartbeat st)
  | CallSetServerInfo argv1 => Some (setServerInfo h argv1 st).2
  | RecvGamePingRequest from key flags => Some (handleGamePingRequest h from key flags st)
  | RecvGameInfoResponse from pkt => handleGameInfoResponse from pkt st
  end.

Fixpoint enterAll (trace : list (Host * Entry)) (st : State) : option State :=
  match trace with
  | [] => Some st
  | (h, e) :: trace' =>
      match enter h e st with
      | Some st' => enterAll trace' st'
      | None => None
      end
  end.

(** The entry is a call of [clearServerList]. *)
Definition callsClearServerList (e : Entry) : bool :=
  match e with
  | Orchestrated (CallClearServerList _) => true
  | _ => false
  end.

(** No entry of the trace is a call of [clearServerList]. *)
Definition withoutClearServerList (trace : list (Host * Entry)) : Prop :=
  Forall (fun he => callsClearServerList he.2 = false) trace.
(** * Properties *)

(** ** Basic facts about the integer casts *)

Lemma U32_range x : 0 <= U32 x < 2 ^ 32.
Proof. unfold U32. apply Z.mod_pos_bound. lia. Qed.

Lemma U32_id x : 0 <= x < 2 ^ 32 -> U32 x = x.
Proof. intros. unfold U32. apply Z.mod_small. lia. Qed.

Lemma S32_range x : - 2 ^ 31 <= S32 x < 2 ^ 31.
Proof.
  unfold S32. pose proof (Z.mod_pos_bound (x + 2 ^ 31) (2 ^ 32)). lia.
Qed.

Lemma S32_id x : - 2 ^ 31 <= x < 2 ^ 31 -> S32 x = x.
Proof. intros. unfold S32. rewrite Z.mod_small; lia. Qed.

(** Adding one always changes a 32-bit value, wrap-around included. *)
Lemma U32_succ_neq x : U32 (x + 1) ≠ x.
Proof.
  unfold U32. intros H.
  assert (Hx : 0 <= x < 2 ^ 32) by (rewrite <- H; apply Z.mod_pos_bound; lia).
  destruct (Z.eq_dec x (2 ^ 32 - 1)) as [-> | Hne].
  - vm_compute in H. discriminate.
  - rewrite Z.mod_small in H; lia.
Qed.

Lemma U32_S32_succ_neq x : U32 (S32 (x + 1)) ≠ U32 x.
Proof.
  unfold U32, S32. intros H.
  replace ((x + 1 + 2 ^ 31) mod 2 ^ 32 - 2 ^ 31)
    with ((x + 1 + 2 ^ 31) mod 2 ^ 32 + (- 2 ^ 31)) in H by lia.
  rewrite Zplus_mod_idemp_l in H.
  replace (x + 1 + 2 ^ 31 + - 2 ^ 31) with (x + 1) in H by lia.
  pose proof (Z.mod_pos_bound x (2 ^ 32) ltac:(lia)) as Hb.
  rewrite <- (Zplus_mod_idemp_l x 1) in H.
  destruct (Z.eq_dec (x mod 2 ^ 32) (2 ^ 32 - 1)) as [E | Hne].
  - rewrite E in H. vm_compute in H. discriminate.
  - rewrite Z.mod_small in H; lia.
Qed.

(** ** Progress callbacks only touch the callback log *)

Ltac progress_only :=
  intros; unfold updatePingProgress, updateQueryProgress, executef;
  repeat case_match; simpl; congruence.

Lemma updatePingProgress_gPingList st : gPingList (updatePingProgress st) = gPingList st.
Proof. progress_only. Qed.
Lemma updatePingProgress_gQueryList st : gQueryList (updatePingProgress st) = gQueryList st.
Proof. progress_only. Qed.
Lemma updatePingProgress_gFinishedList st :
  gFinishedList (updatePingProgress st) = gFinishedList st.
Proof. progress_only. Qed.
Lemma updatePingProgress_gServerList st : gServerList (updatePingProgress st) = gServerList st.
Proof. progress_only. Qed.
Lemma updatePingProgress_netOut st : netOut (updatePingProgress st) = netOut st.
Proof. progress_only. Qed.
Lemma updatePingProgress_simQueue st : simQueue (updatePingProgress st) = simQueue st.
Proof. progress_only. Qed.
Lemma updatePingProgress_gPacketStatusList st :
  gPacketStatusList (updatePingProgress st) = gPacketStatusList st.
Proof. progress_only. Qed.
Lemma updatePingProgress_gGotFirstListPacket st :
  gGotFirstListPacket (updatePingProgress st) = gGotFirstListPacket st.
Proof. progress_only. Qed.

(** ** Look-ups *)

Lemma findPingEntry_lookup v addr i :
  findPingEntry v addr = Some i -> exists p, v !! i = Some p /\ address p = addr.
Proof.
  revert i. induction v as [| q v IH]; intros i H; simpl in H; [discriminate |].
  unfold compareAddresses in H. case_bool_decide.
  - injection H as <-. exists q. split; [reflexivity | congruence].
  - destruct (findPingEntry v addr) as [j |]; simpl in H; [| discriminate].
    injection H as <-. destruct (IH j eq_refl) as (p & Hp & Ha). exists p. auto.
Qed.

Lemma findPingEntry_None v addr :
  findPingEntry v addr = None <-> Forall (fun p => address p ≠ addr) v.
Proof.
  induction v as [| q v IH]; simpl.
  - split; [constructor | reflexivity].
  - unfold compareAddresses. case_bool_decide.
    + split; [discriminate |]. intros HF. inversion HF. congruence.
    + destruct (findPingEntry v addr) as [j |]; simpl.
      * split; [discriminate |]. intros HF. inversion HF as [| ? ? ? HF']. subst.
        apply IH in HF'. discriminate.
      * split; [| reflexivity]. intros _. constructor; [congruence | apply IH; reflexivity].
Qed.

Lemma findPingEntry_snoc v p :
  findPingEntry v (address p) = None ->
  findPingEntry (v ++ [p]) (address p) = Some (length v).
Proof.
  induction v as [| q v IH]; simpl; intros H.
  - unfold compareAddresses. rewrite bool_decide_eq_true_2; reflexivity.
  - destruct (compareAddresses (address p) (address q)); [discriminate |].
    destruct (findPingEntry v (address p)); [discriminate |].
    rewrite IH; reflexivity.
Qed.

Lemma alter_snoc {A} (f : A -> A) (l : list A) (x : A) :
  alter f (length l) (l ++ [x]) = l ++ [f x].
Proof. induction l as [| y l IH]; simpl; [reflexivity | f_equal; exact IH]. Qed.

(** With no ping on the list the handler is the identity. *)
Lemma handleGamePingResponse_no_pings h from pkt k flags st :
  gPingList st = [] -> handleGamePingResponse h from pkt k flags st = st.
Proof. intros H. unfold handleGamePingResponse. rewrite H. reflexivity. Qed.

(** ** C9 *)

(** C9.  Whenever [gPingList] is empty, [handleGamePingResponse] returns at
    once: the response, whatever its sender, key and contents, leaves the
    whole state as it was, so no list and no [ServerInfo] changes. *)
Theorem ping_response_dropped_without_pings
    (h : Host) (from : NetAddress) (pkt : PingResponse) (k flags : Z) (st : State) :
  gPingList st = [] ->
  handleGamePingResponse h from pkt k flags st = st.
Proof. intros H. unfold handleGamePingResponse. rewrite H. reflexivity. Qed.

Lemma ping_response_dropped_without_pings_witness :
  handleGamePingResponse sampleHost sampleAddress (samplePingResponse "VER1") 0 0
    (initialState ∅) = initialState ∅.
Proof.
  apply (ping_response_dropped_without_pings sampleHost sampleAddress
           (samplePingResponse "VER1") 0 0 (initialState ∅)).
  reflexivity.
Defined.

(** ** C7 *)

(** C7, as stated, fails when the ping list is empty: a response from an
    address that has no ping entry and is not finished is dropped, nothing is
    enqueued.  Here the state is the start-up state. *)
Lemma anonymous_ping_response_not_enqueued :
  let st := initialState ∅ in
  let st' := handleGamePingResponse sampleHost sampleAddress (samplePingResponse "VER1") 0 0 st in
  findPingEntry (gPingList st) sampleAddress = None
  /\ addressFinished sampleAddress st = false
  /\ ~ (exists p, p ∈ gPingList st' /\ address p = sampleAddress).
Proof.
  repeat split. intros (p & Hp & _). simpl in Hp. inversion Hp.
Qed.

(** C7, amended.  While the ping list is not empty, a [GamePingResponse]
    from an address that has no ping entry and is not in the finished list
    appends a fresh ping for that address (current session, key 0, time 0,
    [gPingRetryCount] tries, not a broadcast) with [isLocal = true], counts
    it as a ping request, and changes neither the server list nor the query
    list, the finished list or the datagrams sent. *)
Theorem anonymous_ping_response_enqueues_local_ping
    (h : Host) (from : NetAddress) (pkt : PingResponse) (k flags : Z) (st : State) :
  gPingList st ≠ [] ->
  findPingEntry (gPingList st) from = None ->
  addressFinished from st = false ->
  let st' := handleGamePingResponse h from pkt k flags st in
  gPingList st' = gPingList st ++ [localPing from st]
  /\ gServerPingCount st' = U32 (gServerPingCount st + 1)
  /\ gServerList st' = gServerList st
  /\ gQueryList st' = gQueryList st
  /\ gFinishedList st' = gFinishedList st
  /\ netOut st' = netOut st.
Proof.
  intros Hne Hnone Hfin. unfold handleGamePingResponse.
  destruct (gPingList st) as [| p0 l0] eqn:El; [congruence |].
  rewrite Hnone, Hfin. simpl negb. cbv iota.
  unfold pushPingRequest. rewrite Hfin. simpl gPingList. rewrite El.
  set (p := {| address := from; session := gPingSession st; key := 0; time := 0;
               tryCount := gPingRetryCount; broadcast := false; isLocal := false |}).
  pose proof (findPingEntry_snoc (p0 :: l0) p Hnone) as Hs.
  simpl address in Hs. rewrite Hs. rewrite alter_snoc.
  simpl. repeat split; rewrite ?El; reflexivity.
Qed.

Lemma anonymous_ping_response_enqueues_local_ping_witness :
  let st := pushPingBroadcast (IPv4 255 255 255 255 28000) (initialState ∅) in
  let st' := handleGamePingResponse sampleHost sampleAddress (samplePingResponse "VER1") 0 0 st in
  gPingList st' = gPingList st ++ [localPing sampleAddress st]
  /\ gServerPingCount st' = U32 (gServerPingCount st + 1)
  /\ gServerList st' = gServerList st
  /\ gQueryList st' = gQueryList st
  /\ gFinishedList st' = gFinishedList st
  /\ netOut st' = netOut st.
Proof.
  apply (anonymous_ping_response_enqueues_local_ping sampleHost sampleAddress
           (samplePingResponse "VER1") 0 0
           (pushPingBroadcast (IPv4 255 255 255 255 28000) (initialState ∅))).
  - simpl. discriminate.
  - reflexivity.
  - reflexivity.
Defined.

(** ** Turning a ping down *)

Lemma addressFinished_snoc addr l st :
  gFinishedList st = l ++ [addr] -> addressFinished addr st = true.
Proof.
  intros H. unfold addressFinished. rewrite H, existsb_app. simpl.
  unfold compareAddresses. rewrite bool_decide_eq_true_2 by reflexivity.
  rewrite orb_true_r. reflexivity.
Qed.

Lemma rejectPing_timed_out addr index si w st :
  let st' := rejectPing false addr index si w st in
  gFinishedList st' = gFinishedList st ++ [addr]
  /\ gPingList st' = delete index (gPingList st)
  /\ gQueryList st' = gQueryList st
  /\ gServerQueryCount st' = gServerQueryCount st
  /\ netOut st' = netOut st
  /\ simQueue st' = simQueue st
  /\ gServerList st' =
       match si with
       | Some j => alter (si_set_status Status_TimedOut) j (gServerList st)
       | None => gServerList st
       end.
Proof.
  unfold rejectPing. destruct si as [j |], w; simpl;
    rewrite ?updatePingProgress_gFinishedList, ?updatePingProgress_gPingList,
      ?updatePingProgress_gQueryList, ?updatePingProgress_netOut,
      ?updatePingProgress_simQueue, ?updatePingProgress_gServerList;
    repeat split; try reflexivity; progress_only.
Qed.

(** ** C10 *)

Lemma dAtoi_range s : - 2 ^ 31 <= dAtoi s < 2 ^ 31.
Proof.
  unfold dAtoi, scan_int.
  repeat case_match; simpl; try apply S32_range; lia.
Qed.

Lemma publishServerInfo_only_vars h info st :
  publishServerInfo h info st =
  set_conVars (conVars (publishServerInfo h info st)) st.
Proof. destruct st. reflexivity. Qed.

Lemma conVars_setVariable name value st :
  conVars (setVariable name value st) = <[name := value]> (conVars st).
Proof. reflexivity. Qed.

Lemma conVars_setIntVariable name value st :
  conVars (setIntVariable name value st) = <[name := pretty value]> (conVars st).
Proof. reflexivity. Qed.

Lemma conVars_setBoolVariable name value st :
  conVars (setBoolVariable name value st)
  = <[name := if value then "1" else "0"]> (conVars st).
Proof. reflexivity. Qed.

Lemma conVars_publishServerInfo h info st :
  conVars (publishServerInfo h info st)
  = foldr (fun nv m => <[nv.1 := nv.2]> m) (conVars st) (reverse (serverInfoVariables h info)).
Proof.
  unfold publishServerInfo. cbv zeta.
  repeat first [rewrite conVars_setBoolVariable | rewrite conVars_setIntVariable
               | rewrite conVars_setVariable].
  reflexivity.
Qed.

Lemma lookup_foldr_insert_last (l : list (string * string)) (m : gmap string string) name :
  name ∉ l.*1 -> foldr (fun nv m => <[nv.1 := nv.2]> m) m l !! name = m !! name.
Proof.
  induction l as [| [n v] l IH]; simpl; intros Hn; [reflexivity |].
  rewrite lookup_insert_ne by (intros ->; apply Hn; left).
  apply IH. intros Hin. apply Hn. right. exact Hin.
Qed.

Lemma lookup_foldr_insert_NoDup (l : list (string * string)) (m : gmap string string) name value :
  NoDup l.*1 -> (name, value) ∈ l ->
  foldr (fun nv m => <[nv.1 := nv.2]> m) m l !! name = Some value.
Proof.
  induction l as [| [n v] l IH]; simpl; intros Hnd Hin; [inversion Hin |].
  apply NoDup_cons in Hnd as [Hn Hnd].
  apply elem_of_cons in Hin as [Heq | Hin].
  - injection Heq as -> ->. apply lookup_insert_eq.
  - rewrite lookup_insert_ne.
    + apply IH; assumption.
    + intros <-. apply Hn. apply list_elem_of_fmap. exists (n, value).
      split; [reflexivity | exact Hin].
Qed.

Lemma serverInfoVariables_names h info :
  (serverInfoVariables h info).*1 =
  ["ServerInfo::Status"; "ServerInfo::Address"; "ServerInfo::Name"; "ServerInfo::GameType";
   "ServerInfo::MissionName"; "ServerInfo::MissionType"; "ServerInfo::State";
   "ServerInfo::Info"; "ServerInfo::PlayerCount"; "ServerInfo::MaxPlayers";
   "ServerInfo::BotCount"; "ServerInfo::Version"; "ServerInfo::Ping"; "ServerInfo::CPUSpeed";
   "ServerInfo::Favorite"; "ServerInfo::Dedicated"; "ServerInfo::Password";
   "ServerInfo::IsLocal"].
Proof. reflexivity. Qed.

Lemma serverInfoVariables_NoDup h info : NoDup (serverInfoVariables h info).*1.
Proof.
  rewrite serverInfoVariables_names. apply (bool_decide_unpack _). vm_compute. exact I.
Qed.

Lemma publishServerInfo_published h info st name value :
  (name, value) ∈ serverInfoVariables h info ->
  conVars (publishServerInfo h info st) !! name = Some value.
Proof.
  intros Hin. rewrite conVars_publishServerInfo.
  apply lookup_foldr_insert_NoDup.
  - rewrite fmap_reverse, reverse_Permutation. apply serverInfoVariables_NoDup.
  - apply elem_of_reverse. exact Hin.
Qed.

Lemma publishServerInfo_others h info st name :
  name ∉ (serverInfoVariables h info).*1 ->
  conVars (publishServerInfo h info st) !! name = conVars st !! name.
Proof.
  intros Hn. rewrite conVars_publishServerInfo.
  apply lookup_foldr_insert_last. rewrite fmap_reverse.
  intros Hin. apply Hn. apply elem_of_reverse. exact Hin.
Qed.

(** C10.  [setServerInfo(index)] returns [true] exactly when the index its
    argument denotes satisfies [0 <= index < gServerList.size()]; it then
    sets each [ServerInfo::*] variable to the corresponding field of that
    server and changes nothing else.  For every other index it returns
    [false] and leaves the state, console variables included, as it was.
    (The list holds fewer than [2^31] servers.) *)
Theorem setServerInfo_in_range_iff (h : Host) (argv1 : string) (st : State) :
  Z.of_nat (length (gServerList st)) < 2 ^ 31 ->
  let index := dAtoi argv1 in
  let ret := (setServerInfo h argv1 st).1 in
  let st' := (setServerInfo h argv1 st).2 in
  (ret = true <-> 0 <= index < Z.of_nat (length (gServerList st)))
  /\ (ret = true ->
      exists info,
        gServerList st !! Z.to_nat index = Some info
        /\ (forall name value,
              (name, value) ∈ serverInfoVariables h info ->
              conVars st' !! name = Some value)
        /\ (forall name,
              name ∉ (serverInfoVariables h info).*1 ->
              conVars st' !! name = conVars st !! name)
        /\ st' = set_conVars (conVars st') st)
  /\ (ret = false -> st' = st).
Proof.
  intros Hlen. cbv zeta. unfold setServerInfo.
  pose proof (dAtoi_range argv1) as Hr.
  set (n := dAtoi argv1) in *.
  set (len := Z.of_nat (length (gServerList st))) in *.
  assert (Hlen0 : 0 <= len) by (subst len; lia).
  rewrite (U32_id len) by lia.
  pose proof (U32_range n) as Hu.
  destruct ((0 <=? U32 n) && (U32 n <? len)) eqn:Hc.
  - apply andb_true_iff in Hc as [_ Hc]. apply Z.ltb_lt in Hc.
    assert (Hn : U32 n = n).
    { destruct (Z_lt_le_dec n 0) as [Hneg | Hpos]; [| apply U32_id; lia].
      assert (U32 n = n + 2 ^ 32); [| lia].
      unfold U32. symmetry. apply (Z.mod_unique_pos _ _ (-1)); lia. }
    rewrite Hn in *.
    destruct (gServerList st !! Z.to_nat n) as [info |] eqn:Hl.
    + cbn [fst snd]. split; [split; [lia | reflexivity] |].
      split; [| discriminate].
      intros _. exists info. split; [reflexivity |].
      split; [intros name value; apply publishServerInfo_published |].
      split; [intros name; apply publishServerInfo_others |].
      apply publishServerInfo_only_vars.
    + apply lookup_ge_None in Hl. subst len. lia.
  - cbn [fst snd]. split; [| split; [discriminate | reflexivity]].
    split; [discriminate |]. intros Hin. exfalso.
    rewrite (U32_id n) in Hc by lia.
    apply andb_false_iff in Hc as [Hc | Hc]; [apply Z.leb_gt in Hc | apply Z.ltb_ge in Hc]; lia.
Qed.

Lemma setServerInfo_in_range_iff_witness :
  let st := set_gServerList [newServerInfo sampleAddress] (initialState ∅) in
  Z.of_nat (length (gServerList st)) < 2 ^ 31
  /\ (setServerInfo sampleHost "0" st).1 = true.
Proof.
  assert (Hlen : Z.of_nat (length (gServerList
                   (set_gServerList [newServerInfo sampleAddress] (initialState ∅))))
                 < 2 ^ 31) by reflexivity.
  split; [exact Hlen |].
  apply (proj1 (setServerInfo_in_range_iff sampleHost "0" _ Hlen)).
  vm_compute. split; [discriminate | reflexivity].
Defined.

(** ** C6 *)

(** The server type is compared with [dStricmp]: a server that accepts
    connections, whose [Server::ServerType] is spelled ["singleplayer"],
    asked without the [OfflineQuery] bit while 3 of its 8 public slots are
    taken, is a single-player server too and sends no reply. *)
Lemma lower_case_single_player_gets_no_reply :
  let st := initialState (sampleServerVars "singleplayer") in
  let st' := handleGamePingRequest sampleHost sampleAddress 7 0 st in
  doesAllowConnections sampleHost = true
  /\ getVariable "Server::ServerType" st ≠ "SinglePlayer"
  /\ Z.land 0 OfflineQuery = 0
  /\ getIntVariable "Server::PlayerCount" st
     < getIntVariable "Pref::Server::MaxPlayers" st
       - getIntVariable "Pref::Server::PrivateSlots" st
  /\ netOut st' = netOut st.
Proof. vm_compute. repeat split; discriminate || reflexivity. Qed.

(** C6.  The responder sends nothing (and changes nothing) when the server
    does not accept connections, when [Server::ServerType] is
    ["SinglePlayer"] (compared with [dStricmp], so without regard to letter
    case), when the request's [OfflineQuery] bit is set, or when the player
    count is at least [MaxPlayers - PrivateSlots]; in every other case it
    sends exactly one datagram, to the requester, that starts with
    [GamePingResponse] and echoes the request's flags and key.  (The
    subtraction is taken where C defines it: within a 32-bit [int].) *)
Theorem ping_request_reply_iff
    (h : Host) (from : NetAddress) (k flags : Z) (st : State) :
  let maxPlayers := getIntVariable "Pref::Server::MaxPlayers" st in
  let privateSlots := getIntVariable "Pref::Server::PrivateSlots" st in
  let players := getIntVariable "Server::PlayerCount" st in
  let st' := handleGamePingRequest h from k flags st in
  - 2 ^ 31 <= maxPlayers - privateSlots < 2 ^ 31 ->
  (doesAllowConnections h = false
   \/ string_lower (getVariable "Server::ServerType" st) = "singleplayer"
   \/ Z.land flags OfflineQuery ≠ 0
   \/ maxPlayers - privateSlots <= players ->
   st' = st)
  /\ (doesAllowConnections h = true ->
      string_lower (getVariable "Server::ServerType" st) ≠ "singleplayer" ->
      Z.land flags OfflineQuery = 0 ->
      players < maxPlayers - privateSlots ->
      exists rest,
        st' = set_netOut
                (netOut st
                 ++ [mkDatagram from ([WType GamePingResponse; W8 flags; W32 k] ++ rest)]) st).
Proof.
  cbv zeta. intros Hrange. unfold handleGamePingRequest. rewrite (S32_id _ Hrange).
  unfold dStricmp_eq. change (string_lower "SinglePlayer") with "singleplayer".
  split.
  - intros [Hc | [Hs | [Hf | Hp]]].
    + rewrite Hc. reflexivity.
    + rewrite (bool_decide_eq_true_2 _ Hs). destruct (doesAllowConnections h); reflexivity.
    + destruct (doesAllowConnections h); [| reflexivity].
      case_bool_decide; [reflexivity |].
      destruct (Z.eqb_spec (Z.land flags OfflineQuery) 0); [contradiction | reflexivity].
    + destruct (doesAllowConnections h); [| reflexivity].
      case_bool_decide; [reflexivity |].
      destruct (negb _); [reflexivity |].
      destruct (Z.leb_spec (getIntVariable "Pref::Server::MaxPlayers" st
                            - getIntVariable "Pref::Server::PrivateSlots" st)
                  (getIntVariable "Server::PlayerCount" st)); [reflexivity | lia].
  - intros Hc Hs Hf Hp. rewrite Hc, (bool_decide_eq_false_2 _ Hs), Hf. simpl.
    destruct (Z.leb_spec (getIntVariable "Pref::Server::MaxPlayers" st
                          - getIntVariable "Pref::Server::PrivateSlots" st)
                (getIntVariable "Server::PlayerCount" st)); [lia |].
    eexists. unfold sendPacketStream, pingResponseBody. cbv zeta. reflexivity.
Qed.

Lemma ping_request_reply_iff_witness :
  let st := initialState (sampleServerVars "MultiPlayer") in
  exists rest,
    handleGamePingRequest sampleHost sampleAddress 7 0 st =
    set_netOut
      (netOut st ++ [mkDatagram sampleAddress ([WType GamePingResponse; W8 0; W32 7] ++ rest)])
      st.
Proof.
  refine (proj2 (ping_request_reply_iff sampleHost sampleAddress 7 0
                   (initialState (sampleServerVars "MultiPlayer")) _) _ _ _ _);
    vm_compute; repeat split; first [reflexivity | discriminate].
Defined.

(** ** C8 *)

Lemma sendHeartbeat_netOut h flags st :
  sendHeartbeat h flags st =
  set_netOut (netOut st
              ++ map (heartbeatDatagram (gPingSession st) flags) (getMasterServerList h st)) st.
Proof.
  unfold sendHeartbeat. generalize (getMasterServerList h st) as l.
  generalize (gPingSession st) as s. intros s l. revert st.
  induction l as [| mi l IH]; intros st; simpl.
  - rewrite app_nil_r. destruct st; reflexivity.
  - rewrite IH. unfold sendPacket, sendPacketStream, heartbeatDatagram.
    destruct st; simpl. rewrite <- app_assoc. reflexivity.
Qed.

(** C8.  The heartbeat loop is gated by [gHeartbeatSeq].  A tick carrying
    the current sequence number sends one [GameHeartbeat] to every master of
    the configured list, in order, and posts a [HeartbeatEvent] with the same
    number [gHeartbeatInterval = 10000] ms after the current time.
    [stopHeartbeat] (and an authenticated [startHeartbeat]) adds one to the
    32-bit counter, which increases it unless it wraps; after
    [stopHeartbeat], an event scheduled with the number current before the
    stop, or with any earlier number, changes nothing when it fires: nothing
    is sent and nothing is rescheduled. *)
Theorem heartbeat_gated_by_sequence (h : Host) (st : State) :
  processHeartbeat h (gHeartbeatSeq st) st =
    set_simQueue
      (simQueue st
       ++ [(HeartbeatEvent (gHeartbeatSeq st), U32 (getCurrentTime h + 10000))])
      (set_netOut
         (netOut st ++ map (heartbeatDatagram (gPingSession st) 0) (getMasterServerList h st))
         st)
  /\ gHeartbeatSeq (stopHeartbeat st) = U32 (gHeartbeatSeq st + 1)
  /\ (validateAuthenticatedServer h = true ->
      gHeartbeatSeq (startHeartbeat h st) = U32 (gHeartbeatSeq st + 1))
  /\ (0 <= gHeartbeatSeq st < 2 ^ 32 - 1 ->
      gHeartbeatSeq st < gHeartbeatSeq (stopHeartbeat st))
  /\ processHeartbeat h (gHeartbeatSeq st) (stopHeartbeat st) = stopHeartbeat st
  /\ (forall seq,
        0 <= seq <= gHeartbeatSeq st -> gHeartbeatSeq st < 2 ^ 32 - 1 ->
        processHeartbeat h seq (stopHeartbeat st) = stopHeartbeat st).
Proof.
  repeat split.
  - unfold processHeartbeat. rewrite bool_decide_eq_false_2 by (intros Hc; apply Hc; reflexivity).
    rewrite sendHeartbeat_netOut. reflexivity.
  - intros Hauth. unfold startHeartbeat. rewrite Hauth. cbv zeta.
    unfold processHeartbeat.
    rewrite bool_decide_eq_false_2 by (intros Hc; apply Hc; reflexivity).
    rewrite sendHeartbeat_netOut. reflexivity.
  - intros Hr. simpl. rewrite U32_id; lia.
  - unfold processHeartbeat. rewrite bool_decide_eq_true_2; [reflexivity |].
    simpl. intros Hc. symmetry in Hc. exact (U32_succ_neq _ Hc).
  - intros seq Hseq Hmax. unfold processHeartbeat.
    rewrite bool_decide_eq_true_2; [reflexivity |].
    simpl. rewrite U32_id; lia.
Qed.

Lemma heartbeat_gated_by_sequence_witness :
  let st := startHeartbeat sampleHost (initialState sampleMasterVars) in
  length (netOut st) = 2%nat
  /\ gHeartbeatSeq st < gHeartbeatSeq (stopHeartbeat st)
  /\ processHeartbeat sampleHost 1 (stopHeartbeat st) = stopHeartbeat st.
Proof.
  pose proof (heartbeat_gated_by_sequence sampleHost
                (startHeartbeat sampleHost (initialState sampleMasterVars)))
    as (_ & _ & _ & Hlt & _ & Hdead).
  split; [vm_compute; reflexivity | split].
  - apply Hlt. vm_compute. split; [discriminate | reflexivity].
  - apply Hdead; vm_compute; [split; discriminate | reflexivity].
Defined.

(** ** What the loops of [processPingsAndQueries] leave alone *)

Lemma relayToMasters_netOut t flags p st :
  relayToMasters t flags p st =
  set_netOut
    (netOut st
     ++ map (fun mi => mkDatagram (mi_address mi)
                         ([WType t] ++ addr_items (address p)
                          ++ [W8 flags; W32 (keyField (session p) (key p))]))
          (gMasterServerList st)) st.
Proof.
  unfold relayToMasters.
  generalize ([WType t] ++ addr_items (address p)
              ++ [W8 flags; W32 (keyField (session p) (key p))]) as body.
  intros body. generalize (gMasterServerList st) as l. intros l. revert st.
  induction l as [| mi l IH]; intros st; simpl.
  - rewrite app_nil_r. destruct st; reflexivity.
  - rewrite IH. unfold sendPacketStream. destruct st; simpl.
    rewrite <- app_assoc. reflexivity.
Qed.

(** One script for every "the loop does not touch this field" lemma. *)
Ltac loop_preserves IH :=
  repeat case_match; rewrite ?IH; unfold sendPacket, sendPacketStream, updateServerInfo;
  rewrite ?relayToMasters_netOut; simpl;
  rewrite ?updatePingProgress_gQueryList, ?updatePingProgress_gPacketStatusList,
    ?updatePingProgress_gGotFirstListPacket, ?updatePingProgress_gPingList;
  try reflexivity.

Lemma pingLoop_gQueryList h now flags w fuel i st :
  gQueryList (pingLoop h now flags w fuel i st) = gQueryList st.
Proof.
  revert i st. induction fuel as [| fuel IH]; intros i st; [reflexivity |].
  cbn [pingLoop]. loop_preserves IH.
Qed.

Lemma pingLoop_gPacketStatusList h now flags w fuel i st :
  gPacketStatusList (pingLoop h now flags w fuel i st) = gPacketStatusList st.
Proof.
  revert i st. induction fuel as [| fuel IH]; intros i st; [reflexivity |].
  cbn [pingLoop]. loop_preserves IH.
Qed.

Lemma pingLoop_gGotFirstListPacket h now flags w fuel i st :
  gGotFirstListPacket (pingLoop h now flags w fuel i st) = gGotFirstListPacket st.
Proof.
  revert i st. induction fuel as [| fuel IH]; intros i st; [reflexivity |].
  cbn [pingLoop]. loop_preserves IH.
Qed.

Lemma queryLoop_gPingList h now flags fuel i st :
  gPingList (queryLoop h now flags fuel i st) = gPingList st.
Proof.
  revert i st. induction fuel as [| fuel IH]; intros i st; [reflexivity |].
  cbn [queryLoop]. loop_preserves IH.
Qed.

Lemma queryLoop_gPacketStatusList h now flags fuel i st :
  gPacketStatusList (queryLoop h now flags fuel i st) = gPacketStatusList st.
Proof.
  revert i st. induction fuel as [| fuel IH]; intros i st; [reflexivity |].
  cbn [queryLoop]. loop_preserves IH.
Qed.

Lemma queryLoop_gGotFirstListPacket h now flags fuel i st :
  gGotFirstListPacket (queryLoop h now flags fuel i st) = gGotFirstListPacket st.
Proof.
  revert i st. induction fuel as [| fuel IH]; intros i st; [reflexivity |].
  cbn [queryLoop]. loop_preserves IH.
Qed.

Lemma processPingsAndQueries_gPacketStatusList h session schedule st :
  gPacketStatusList (processPingsAndQueries h session schedule st) = gPacketStatusList st.
Proof.
  unfold processPingsAndQueries, postEvent, executef.
  repeat case_match; simpl;
    rewrite ?queryLoop_gPacketStatusList, ?pingLoop_gPacketStatusList; reflexivity.
Qed.

Lemma processPingsAndQueries_gGotFirstListPacket h session schedule st :
  gGotFirstListPacket (processPingsAndQueries h session schedule st) = gGotFirstListPacket st.
Proof.
  unfold processPingsAndQueries, postEvent, executef.
  repeat case_match; simpl;
    rewrite ?queryLoop_gGotFirstListPacket, ?pingLoop_gGotFirstListPacket; reflexivity.
Qed.

(** ** The fuel of the loops is enough

    Each loop is run with the length of its list as fuel.  More fuel never
    changes the result, so the bound cuts no iteration short. *)

Lemma length_delete_lookup {A} (l : list A) (i : nat) (x : A) :
  l !! i = Some x -> S (length (delete i l)) = length l.
Proof.
  revert i. induction l as [| y l IH]; intros [| i] H; simpl in *; try discriminate.
  - reflexivity.
  - f_equal. apply IH. exact H.
Qed.

Lemma pingLoop_fuel h now flags w fuel extra i st :
  (length (gPingList st) - i <= fuel)%nat ->
  pingLoop h now flags w (fuel + extra) i st = pingLoop h now flags w fuel i st.
Proof.
  revert i st. induction fuel as [| fuel IH]; intros i st Hlen.
  - destruct extra as [| extra]; [reflexivity |]. cbn [Nat.add pingLoop].
    rewrite (lookup_ge_None_2 (gPingList st) i) by lia.
    destruct (negb _); reflexivity.
  - cbn [Nat.add pingLoop].
    destruct (negb (Z.of_nat i <? gMaxConcurrentPings)); [reflexivity |].
    destruct (gPingList st !! i) as [p |] eqn:Hp; [| reflexivity].
    pose proof (length_delete_lookup _ _ _ Hp) as Hd.
    destruct (U32 (time p + gPingTimeout) <? now); [| apply IH; lia].
    destruct (tryCount p =? 0); apply IH.
    + destruct w, (findServerInfo (address p) st); simpl;
        rewrite ?updatePingProgress_gPingList; simpl; lia.
    + destruct (TORQUE_NET_HOLEPUNCHING h && negb _);
        rewrite ?relayToMasters_netOut; simpl; rewrite length_insert; lia.
Qed.

Lemma queryLoop_fuel h now flags fuel extra i st :
  (length (gQueryList st) - i <= fuel)%nat ->
  queryLoop h now flags (fuel + extra) i st = queryLoop h now flags fuel i st.
Proof.
  revert i st. induction fuel as [| fuel IH]; intros i st Hlen.
  - destruct extra as [| extra]; [reflexivity |]. cbn [Nat.add queryLoop].
    rewrite (lookup_ge_None_2 (gQueryList st) i) by lia.
    destruct (negb _); reflexivity.
  - cbn [Nat.add queryLoop].
    destruct (negb (Z.of_nat i <? gMaxConcurrentQueries)); [reflexivity |].
    destruct (gQueryList st !! i) as [p |] eqn:Hp; [| reflexivity].
    pose proof (length_delete_lookup _ _ _ Hp) as Hd.
    destruct (U32 (time p + gPingTimeout) <? now); [| apply IH; lia].
    destruct (findServerInfo (address p) st) as [j |]; [| apply IH; simpl; lia].
    destruct (tryCount p =? 0); apply IH; [simpl; lia |].
    repeat case_match; rewrite ?relayToMasters_netOut; simpl; rewrite length_insert; lia.
Qed.

Lemma packetLoop_fuel now session fuel extra i st :
  (length (gPacketStatusList st) - i <= fuel)%nat ->
  packetLoop now session (fuel + extra) i st = packetLoop now session fuel i st.
Proof.
  revert i st. induction fuel as [| fuel IH]; intros i st Hlen.
  - destruct extra as [| extra]; [reflexivity |]. cbn [Nat.add packetLoop].
    rewrite (lookup_ge_None_2 (gPacketStatusList st) i) by lia. reflexivity.
  - cbn [Nat.add packetLoop].
    destruct (gPacketStatusList st !! i) as [p |] eqn:Hp; [| reflexivity].
    pose proof (length_delete_lookup _ _ _ Hp) as Hd.
    destruct (U32 (ps_time p + gPacketTimeout) <? now); [| apply IH; lia].
    destruct (ps_tryCount p =? 0); apply IH; simpl; [lia | rewrite length_insert; lia].
Qed.

Lemma removeServerInfo_loop_fuel fuel extra i addr st :
  (length (gServerList st) - i <= fuel)%nat ->
  removeServerInfo_loop (fuel + extra) i addr st = removeServerInfo_loop fuel i addr st.
Proof.
  revert i st. induction fuel as [| fuel IH]; intros i st Hlen.
  - destruct extra as [| extra]; [reflexivity |]. cbn [Nat.add removeServerInfo_loop].
    rewrite (lookup_ge_None_2 (gServerList st) i) by lia. reflexivity.
  - cbn [Nat.add removeServerInfo_loop].
    destruct (gServerList st !! i) as [si |] eqn:Hp; [| reflexivity].
    pose proof (length_delete_lookup _ _ _ Hp) as Hd.
    destruct (compareAddresses addr (si_address si)); apply IH; simpl; lia.
Qed.

(** ** C5 *)

Lemma enterServers_fields flags l st :
  let st' := enterServers flags l st in
  gGotFirstListPacket st' = gGotFirstListPacket st
  /\ gPacketStatusList st' = gPacketStatusList st
  /\ gMasterServerPing st' = gMasterServerPing st
  /\ gPingSession st' = gPingSession st
  /\ sgServerQueryActive st' = sgServerQueryActive st.
Proof.
  unfold enterServers. revert st. induction l as [| e l IH]; intros st; simpl.
  - repeat split.
  - destruct (IH (pushPingRequest (entryAddress e)
                    (if flags =? 0 then st else addLocalAddress (entryAddress e) st)))
      as (H1 & H2 & H3 & H4 & H5).
    simpl in H1, H2, H3, H4, H5. rewrite H1, H2, H3, H4, H5.
    unfold pushPingRequest, addLocalAddress.
    repeat case_match; repeat split.
Qed.

(** [findPacketKey] returns the key of the first entry with the index. *)
Lemma findPacketKey_first l index i p :
  l !! i = Some p -> ps_index p = index ->
  (forall j q, (j < i)%nat -> l !! j = Some q -> ps_index q ≠ index) ->
  findPacketKey l index = Some (ps_key p).
Proof.
  revert i. induction l as [| q l IH]; intros i Hl Hp Hfirst; [destruct i; discriminate |].
  simpl. destruct i as [| i]; simpl in Hl.
  - injection Hl as ->. rewrite (proj2 (Z.eqb_eq _ _) Hp). reflexivity.
  - destruct (Z.eqb_spec (ps_index q) index) as [Heq | Hne].
    + exfalso. apply (Hfirst 0%nat q); [lia | reflexivity | exact Heq].
    + apply (IH i Hl Hp). intros j r Hj Hr. apply (Hfirst (S j) r); [lia | exact Hr].
Qed.

Lemma findPacketKey_none l index :
  Forall (fun p => ps_index p ≠ index) l -> findPacketKey l index = None.
Proof.
  induction 1 as [| q l Hq _ IH]; simpl; [reflexivity |].
  destruct (Z.eqb_spec (ps_index q) index); [contradiction | exact IH].
Qed.

Lemma delete_app_lt {A} (l1 l2 : list A) (i : nat) :
  (i < length l1)%nat -> delete i (l1 ++ l2) = delete i l1 ++ l2.
Proof.
  revert i. induction l1 as [| x l1 IH]; intros [| i] H; simpl in *; try lia.
  - reflexivity.
  - f_equal. apply IH. lia.
Qed.

Lemma length_delete_le {A} (l : list A) (i : nat) :
  (length (delete i l) <= length l)%nat.
Proof.
  revert i. induction l as [| x l IH]; intros [| i]; simpl; try lia.
  specialize (IH i). lia.
Qed.

(** Entries that are not yet due at the end of the status list survive the
    re-request loop unchanged; the part before them can only shrink. *)
Lemma packetLoop_keeps_fresh_suffix now session fresh :
  Forall (fun p => (U32 (ps_time p + gPacketTimeout) <? now) = false) fresh ->
  forall fuel i st older,
    gPacketStatusList st = older ++ fresh ->
    exists older',
      gPacketStatusList (packetLoop now session fuel i st) = older' ++ fresh
      /\ (length older' <= length older)%nat.
Proof.
  intros Hfresh. induction fuel as [| fuel IH]; intros i st older Hl.
  - exists older. split; [exact Hl | lia].
  - cbn [packetLoop].
    destruct (gPacketStatusList st !! i) as [p |] eqn:Hp; [| exists older; split; [exact Hl | lia]].
    destruct (U32 (ps_time p + gPacketTimeout) <? now) eqn:Hdue;
      [| apply (IH _ _ older Hl)].
    assert (Hi : (i < length older)%nat).
    { destruct (Nat.lt_ge_cases i (length older)) as [? | Hge]; [assumption |].
      rewrite Hl, lookup_app_r in Hp by exact Hge.
      apply list_elem_of_lookup_2 in Hp.
      rewrite Forall_forall in Hfresh. rewrite (Hfresh _ Hp) in Hdue. discriminate. }
    destruct (ps_tryCount p =? 0).
    + destruct (IH (S i) (set_gPacketStatusList (delete i (gPacketStatusList st)) st)
                  (delete i older)) as (older' & Ho & Hlen).
      { simpl. rewrite Hl. apply delete_app_lt. exact Hi. }
      exists older'. split; [exact Ho |].
      pose proof (length_delete_le older i). lia.
    + match goal with
      | |- context [packetLoop now session fuel (S i) ?s] =>
          destruct (IH (S i) s (<[i := ps_retry now (gKey st) p]> older))
            as (older' & Ho & Hlen)
      end.
      { simpl. rewrite Hl. apply insert_app_l. exact Hi. }
      exists older'. split; [exact Ho |]. rewrite length_insert in Hlen. exact Hlen.
Qed.

Lemma missingPackets_spec packetIndex packetTotal k now ps :
  0 <= packetTotal <= 256 ->
  ps ∈ missingPackets packetIndex packetTotal k now <->
  exists i, 0 <= i < packetTotal /\ i ≠ packetIndex
            /\ ps = {| ps_index := i; ps_key := k; ps_time := now; ps_tryCount := 4 |}.
Proof.
  intros Htot. unfold missingPackets. rewrite list_elem_of_omap. split.
  - intros (n & Hn & Hsome). apply elem_of_seq in Hn.
    destruct (Z.eqb_spec (Z.of_nat n) packetIndex); [discriminate |].
    injection Hsome as <-. exists (Z.of_nat n).
    split; [lia |]. split; [assumption |].
    unfold newPacketStatus, U8. rewrite Z.mod_small by lia. reflexivity.
  - intros (i & Hi & Hne & ->). exists (Z.to_nat i). split.
    + apply elem_of_seq. lia.
    + rewrite Z2Nat.id by lia. destruct (Z.eqb_spec i packetIndex); [contradiction |].
      unfold newPacketStatus, U8. rewrite Z.mod_small by lia. reflexivity.
Qed.

Lemma missingPackets_fresh packetIndex packetTotal k now :
  0 <= now -> now + gPacketTimeout < 2 ^ 32 ->
  Forall (fun p => (U32 (ps_time p + gPacketTimeout) <? now) = false)
    (missingPackets packetIndex packetTotal k now).
Proof.
  intros H0 H1. apply Forall_forall. intros p Hp.
  unfold missingPackets in Hp. apply list_elem_of_omap in Hp as (n & _ & Hsome).
  destruct (Z.of_nat n =? packetIndex); [discriminate |]. injection Hsome as <-.
  simpl. rewrite U32_id by (unfold gPacketTimeout in *; lia).
  apply Z.ltb_ge. unfold gPacketTimeout. lia.
Qed.

Lemma packetLoop_gGotFirstListPacket now session fuel i st :
  gGotFirstListPacket (packetLoop now session fuel i st) = gGotFirstListPacket st.
Proof.
  revert i st. induction fuel as [| fuel IH]; intros i st; [reflexivity |].
  cbn [packetLoop]. repeat case_match; rewrite ?IH; reflexivity.
Qed.

Lemma processServerListPackets_fresh_suffix h session st older fresh :
  Forall (fun p => (U32 (ps_time p + gPacketTimeout) <? getVirtualMilliseconds h) = false)
    fresh ->
  gPacketStatusList st = older ++ fresh ->
  let st' := processServerListPackets h session st in
  gGotFirstListPacket st' = gGotFirstListPacket st
  /\ exists older',
       gPacketStatusList st' = older' ++ fresh /\ (length older' <= length older)%nat.
Proof.
  intros Hfresh Hl. cbv zeta. unfold processServerListPackets.
  destruct (bool_decide (session ≠ U32 (gPingSession st)) || negb (sgServerQueryActive st)).
  - split; [reflexivity |]. exists older. split; [exact Hl | lia].
  - destruct (packetLoop_keeps_fresh_suffix (getVirtualMilliseconds h) session fresh Hfresh
                (length (gPacketStatusList st)) 0%nat st older Hl) as (older' & Ho & Hlen).
    pose proof (packetLoop_gGotFirstListPacket (getVirtualMilliseconds h) session
                  (length (gPacketStatusList st)) 0%nat st) as Hg.
    set (st1 := packetLoop _ _ _ _ st) in *.
    destruct (gPacketStatusList st1) as [| p0 l0] eqn:E.
    + rewrite processPingsAndQueries_gGotFirstListPacket,
        processPingsAndQueries_gPacketStatusList.
      split; [exact Hg |]. exists older'. rewrite E. split; [exact Ho | exact Hlen].
    + unfold postEvent. simpl. split; [exact Hg |].
      exists older'. rewrite E. split; [exact Ho | exact Hlen].
Qed.

(** C5.  A [MasterServerListResponse] whose echoed key differs from
    [(session << 16) | (storedKey & 0xFFFF)] is dropped without any effect,
    where [storedKey] is the master ping's key before the first list packet
    and, after it, the key of the first [PacketStatus] recorded for the
    packet's index (the master ping's key again when none is recorded).  The
    first accepted packet sets [gGotFirstListPacket] and appends to the
    status list one [PacketStatus] for every index in [0, packetTotal) other
    than the index received, each with 4 tries left, the master ping's key
    and the current time; these entries are still there, as the tail of the
    list, when the handler returns (the clock being at least [gPacketTimeout]
    short of wrapping). *)
Theorem list_response_key_check_and_status_fill
    (h : Host) (pkt : ListResponse) (k flags : Z) (st : State) :
  let index := packetIndex pkt in
  let masterKey := key (gMasterServerPing st) in
  let now := getVirtualMilliseconds h in
  let st' := handleMasterServerListResponse h pkt k flags st in
  (k ≠ keyField (gPingSession st) (storedKey index st) -> st' = st)
  /\ (gGotFirstListPacket st = false -> storedKey index st = U32 masterKey)
  /\ (gGotFirstListPacket st = true ->
      forall i p,
        gPacketStatusList st !! i = Some p -> ps_index p = index ->
        (forall j q, (j < i)%nat -> gPacketStatusList st !! j = Some q -> ps_index q ≠ index) ->
        storedKey index st = U32 (ps_key p))
  /\ (gGotFirstListPacket st = true ->
      Forall (fun p => ps_index p ≠ index) (gPacketStatusList st) ->
      storedKey index st = U32 masterKey)
  /\ (k = keyField (gPingSession st) (storedKey index st) ->
      gGotFirstListPacket st = false ->
      0 <= now -> now + gPacketTimeout < 2 ^ 32 ->
      gGotFirstListPacket st' = true
      /\ exists older,
           gPacketStatusList st' =
             older ++ missingPackets index (packetTotal pkt) masterKey now
           /\ (length older <= length (gPacketStatusList st))%nat)
  /\ (0 <= packetTotal pkt <= 255 ->
      forall ps,
        ps ∈ missingPackets index (packetTotal pkt) masterKey now <->
        exists i, 0 <= i < packetTotal pkt /\ i ≠ index
                  /\ ps = {| ps_index := i; ps_key := masterKey; ps_time := now;
                             ps_tryCount := 4 |}).
Proof.
  cbv zeta. repeat apply conj.
  - intros Hk. unfold handleMasterServerListResponse, testKey.
    rewrite bool_decide_eq_true_2; [reflexivity | congruence].
  - intros Hg. unfold storedKey. rewrite Hg. reflexivity.
  - intros Hg i p Hp Hi Hfirst. unfold storedKey. rewrite Hg.
    rewrite (findPacketKey_first _ _ i p Hp Hi Hfirst). reflexivity.
  - intros Hg Hnone. unfold storedKey. rewrite Hg.
    rewrite (findPacketKey_none _ _ Hnone). reflexivity.
  - intros Hk Hg Hnow0 Hnow. unfold handleMasterServerListResponse, testKey.
    rewrite bool_decide_eq_false_2 by (intros Hc; apply Hc; symmetry; exact Hk).
    destruct (enterServers_fields flags (servers pkt) st) as (E1 & E2 & E3 & _).
    set (st1 := enterServers flags (servers pkt) st) in *. simpl in E1, E2, E3.
    rewrite E1, Hg. simpl negb. cbv iota.
    pose proof (missingPackets_fresh (packetIndex pkt) (packetTotal pkt)
                  (key (gMasterServerPing st)) _ Hnow0 Hnow) as Hfresh.
    destruct (processServerListPackets_fresh_suffix h
                (U32 (gPingSession (fillPacketStatusList h pkt st1)))
                (fillPacketStatusList h pkt st1) (gPacketStatusList st)
                _ Hfresh) as (G & older' & Ho & Hlen).
    { unfold fillPacketStatusList. simpl. rewrite E2, E3. reflexivity. }
    split; [rewrite G; reflexivity |].
    exists older'. split; [exact Ho | exact Hlen].
  - intros Htot ps. apply missingPackets_spec. lia.
Qed.

Lemma list_response_key_check_and_status_fill_witness :
  let st := querySingleServer sampleHost sampleAddress 0 (initialState ∅) in
  let st' := handleMasterServerListResponse sampleHost
               (mkListResponse 1 3 [(198, 51, 100, 7, 28000)]) 0 0 st in
  gGotFirstListPacket st' = true
  /\ exists older,
       gPacketStatusList st' =
         older ++ [ {| ps_index := 0; ps_key := 0; ps_time := 5000; ps_tryCount := 4 |};
                    {| ps_index := 2; ps_key := 0; ps_time := 5000; ps_tryCount := 4 |} ]
       /\ (length older <= 0)%nat.
Proof.
  refine (proj1 (proj2 (proj2 (proj2 (proj2
            (list_response_key_check_and_status_fill sampleHost
               (mkListResponse 1 3 [(198, 51, 100, 7, 28000)]) 0 0
               (querySingleServer sampleHost sampleAddress 0 (initialState ∅))))))) _ _ _ _);
    vm_compute; first [reflexivity | discriminate].
Defined.

(** ** C3 *)

Lemma pingLoop_sends_no_info_request h now flags w fuel i st :
  exists new,
    netOut (pingLoop h now flags w fuel i st) = netOut st ++ new
    /\ Forall (fun d => isGameInfoRequest d = false) new.
Proof.
  revert i st. induction fuel as [| fuel IH]; intros i st.
  - exists []. rewrite app_nil_r. split; [reflexivity | constructor].
  - cbn [pingLoop].
    destruct (negb (Z.of_nat i <? gMaxConcurrentPings));
      [exists []; rewrite app_nil_r; split; [reflexivity | constructor] |].
    destruct (gPingList st !! i) as [p |];
      [| exists []; rewrite app_nil_r; split; [reflexivity | constructor]].
    destruct (U32 (time p + gPingTimeout) <? now); [| apply IH].
    destruct (tryCount p =? 0).
    + match goal with
      | |- context [pingLoop h now flags w fuel i ?s] =>
          destruct (IH i s) as (new & Hn & Hf);
          assert (Hs : netOut s = netOut st)
      end.
      { destruct w, (findServerInfo (address p) st); simpl;
          rewrite ?updatePingProgress_netOut; reflexivity. }
      exists new. rewrite Hn, Hs. split; [reflexivity | exact Hf].
    + match goal with
      | |- context [pingLoop h now flags w fuel (S i) ?s] =>
          destruct (IH (S i) s) as (new & Hn & Hf);
          assert (Hs : exists sent, netOut s = netOut st ++ sent
                                    /\ Forall (fun d => isGameInfoRequest d = false) sent)
      end.
      { destruct (TORQUE_NET_HOLEPUNCHING h && negb _).
        - rewrite relayToMasters_netOut. unfold sendPacket, sendPacketStream. simpl.
          eexists. rewrite <- app_assoc. split; [reflexivity |].
          apply Forall_cons. split; [reflexivity |].
          apply Forall_fmap, Forall_forall. intros mi _. reflexivity.
        - unfold sendPacket, sendPacketStream. simpl.
          eexists. split; [reflexivity |]. repeat constructor. }
      destruct Hs as (sent & Hs & Hfs).
      exists (sent ++ new). rewrite Hn, Hs, <- app_assoc.
      split; [reflexivity | apply Forall_app; split; assumption].
Qed.

(** C3.  The query phase of a tick of [processPingsAndQueries] runs only
    when the ping pass of that tick leaves [gPingList] empty and no [Normal]
    query is waiting for the master's first list packet.  Otherwise (a ping
    is still on the list when the tick ends, or a [Normal] query is active
    and [gGotFirstListPacket] is unset) the tick sends no [GameInfoRequest],
    direct or relayed, and leaves [gQueryList] exactly as it was, so no query
    entry was retried, timed out or removed. *)
Theorem query_phase_waits_for_pings
    (h : Host) (session : Z) (schedule : bool) (st : State) :
  let st' := processPingsAndQueries h session schedule st in
  gPingList st' ≠ [] \/ awaitingFirstListPacket st ->
  gQueryList st' = gQueryList st
  /\ exists new,
       netOut st' = netOut st ++ new
       /\ Forall (fun d => isGameInfoRequest d = false) new.
Proof.
  cbv zeta. unfold processPingsAndQueries.
  destruct (bool_decide (session ≠ U32 (gPingSession st))).
  { intros _. split; [reflexivity |]. exists []. rewrite app_nil_r.
    split; [reflexivity | constructor]. }
  set (w := waitingForMaster_of st).
  set (st1 := pingLoop h (getVirtualMilliseconds h) OnlineQuery w (length (gPingList st)) 0 st).
  destruct (pingLoop_sends_no_info_request h (getVirtualMilliseconds h) OnlineQuery w
              (length (gPingList st)) 0 st) as (new & Hn & Hf).
  fold st1 in Hn.
  pose proof (pingLoop_gQueryList h (getVirtualMilliseconds h) OnlineQuery w
                (length (gPingList st)) 0 st) as Hq.
  fold st1 in Hq.
  intros Hgate.
  assert (Hskip : bool_decide (gPingList st1 = []) && negb w = false).
  { destruct Hgate as [Hne | (Ht & Ha & Hg)].
    - destruct (bool_decide (gPingList st1 = []) && negb w) eqn:E; [| reflexivity].
      exfalso. apply Hne.
      apply andb_true_iff in E as [E _]. apply bool_decide_eq_true in E.
      assert (Hp : gPingList (queryLoop h (getVirtualMilliseconds h) OnlineQuery
                                (length (gQueryList st1)) 0 st1) = [])
        by (rewrite queryLoop_gPingList; exact E).
      unfold postEvent, executef. repeat case_match; simpl; exact Hp.
    - subst w. unfold waitingForMaster_of.
      rewrite (bool_decide_eq_true_2 _ Ht), Ha, Hg. apply andb_false_r. }
  rewrite Hskip. unfold postEvent, executef.
  repeat case_match; simpl; rewrite Hq, Hn; (split; [reflexivity |]);
    exists new; (split; [reflexivity | exact Hf]).
Qed.

Lemma query_phase_waits_for_pings_witness :
  let st' := processPingsAndQueries sampleHost 0 true pendingPingState in
  gQueryList st' = gQueryList pendingPingState
  /\ exists new,
       netOut st' = netOut pendingPingState ++ new
       /\ Forall (fun d => isGameInfoRequest d = false) new.
Proof.
  apply (query_phase_waits_for_pings sampleHost 0 true pendingPingState).
  left. vm_compute. discriminate.
Defined.

(** The gate is not vacuous: once the ping has left the list, the same tick
    does send the pending [GameInfoRequest]. *)
Example query_phase_runs_without_pings :
  let st := set_gPingList [] pendingPingState in
  let st' := processPingsAndQueries sampleHost 0 true st in
  exists d, netOut st' = [d] /\ isGameInfoRequest d = true.
Proof. eexists. split; vm_compute; reflexivity. Qed.

(** ** C2 *)

(** C2, as stated, fails: from the start-up state, two fragments of one
    master list that both carry [sampleAddress] are both accepted (their key
    field matches session 0 and the master ping's key 0), and the second is
    handled while the ping of the first is still on the list; the ping list
    then holds two entries for that address. *)
Lemma same_address_in_two_fragments_pinged_twice :
  let st := run duplicateTrace (initialState ∅) in
  reachable st
  /\ pingsFor sampleAddress (run (take 1 duplicateTrace) (initialState ∅)) = 1%nat
  /\ pingsFor sampleAddress st = 2%nat.
Proof.
  split; [| split].
  - exists ∅, duplicateTrace. reflexivity.
  - vm_compute. reflexivity.
  - vm_compute. reflexivity.
Qed.

Lemma pingsFor_snoc a p st0 st :
  gPingList st = gPingList st0 ++ [p] ->
  pingsFor a st = (pingsFor a st0 + if decide (address p = a) then 1 else 0)%nat.
Proof.
  intros H. unfold pingsFor. rewrite H, filter_app, length_app.
  f_equal. rewrite filter_cons, filter_nil. destruct (decide (address p = a)); reflexivity.
Qed.

Lemma pushPingRequest_pingsFor addr a st :
  pingsFor a (pushPingRequest addr st) =
  (pingsFor a st
   + if addressFinished addr st then 0 else if decide (addr = a) then 1 else 0)%nat.
Proof.
  unfold pushPingRequest. destruct (addressFinished addr st) eqn:Hf; [lia |].
  erewrite pingsFor_snoc by reflexivity. reflexivity.
Qed.

Lemma addLocalAddress_pings addr st :
  gPingList (addLocalAddress addr st) = gPingList st
  /\ gFinishedList (addLocalAddress addr st) = gFinishedList st.
Proof. unfold addLocalAddress. destruct (existsb _ _); split; reflexivity. Qed.

Lemma pushPingRequest_gFinishedList addr st :
  gFinishedList (pushPingRequest addr st) = gFinishedList st.
Proof. unfold pushPingRequest. destruct (addressFinished addr st); reflexivity. Qed.

Lemma enterServers_pingsFor flags l a st :
  pingsFor a (enterServers flags l st) =
  (pingsFor a st + if addressFinished a st then 0 else occurrences a l)%nat.
Proof.
  unfold enterServers, occurrences. revert st.
  induction l as [| e l IH]; intros st; simpl.
  - destruct (addressFinished a st); lia.
  - set (st1 := if flags =? 0 then st else addLocalAddress (entryAddress e) st).
    assert (Hp : pingsFor a st1 = pingsFor a st /\ gFinishedList st1 = gFinishedList st).
    { subst st1. destruct (flags =? 0); [split; reflexivity |].
      destruct (addLocalAddress_pings (entryAddress e) st) as [H1 H2].
      unfold pingsFor. rewrite H1, H2. split; reflexivity. }
    destruct Hp as [Hp Hfin].
    rewrite IH, pushPingRequest_pingsFor, Hp.
    assert (Hf1 : forall x, addressFinished x (pushPingRequest (entryAddress e) st1)
                            = addressFinished x st).
    { intros x. unfold addressFinished. rewrite pushPingRequest_gFinishedList, Hfin.
      reflexivity. }
    assert (Hf2 : forall x, addressFinished x st1 = addressFinished x st).
    { intros x. unfold addressFinished. rewrite Hfin. reflexivity. }
    rewrite Hf1, Hf2, filter_cons.
    destruct (decide (entryAddress e = a)) as [-> | Hne].
    + destruct (addressFinished a st); simpl; lia.
    + destruct (addressFinished (entryAddress e) st), (addressFinished a st); simpl; lia.
Qed.

(** C2, amended.  The only guard of the ping list is the finished list.
    [pushPingRequest(A)] does nothing at all when [A] is on the finished
    list; otherwise it appends one entry for [A], whether or not the list
    already holds one, and never changes the number of entries of another
    address.  Accordingly an accepted list packet adds, for an address that
    is not finished, as many entries as the packet names it. *)
Theorem ping_list_guarded_by_finished_list_only
    (addr a : NetAddress) (flags : Z) (l : list (Z * Z * Z * Z * Z)) (st : State) :
  (addressFinished addr st = true -> pushPingRequest addr st = st)
  /\ (addressFinished addr st = false ->
      pingsFor addr (pushPingRequest addr st) = S (pingsFor addr st))
  /\ (a ≠ addr -> pingsFor a (pushPingRequest addr st) = pingsFor a st)
  /\ pingsFor a (enterServers flags l st) =
       (pingsFor a st + if addressFinished a st then 0 else occurrences a l)%nat.
Proof.
  repeat apply conj.
  - intros Hf. unfold pushPingRequest. rewrite Hf. reflexivity.
  - intros Hf. rewrite pushPingRequest_pingsFor, Hf.
    destruct (decide (addr = addr)); [lia | congruence].
  - intros Hne. rewrite pushPingRequest_pingsFor.
    destruct (addressFinished addr st); [lia |].
    destruct (decide (addr = a)); [congruence | lia].
  - apply enterServers_pingsFor.
Qed.

Lemma ping_list_guarded_by_finished_list_only_witness :
  let st := pushPingRequest sampleAddress (initialState ∅) in
  pingsFor sampleAddress (pushPingRequest sampleAddress st) = 2%nat
  /\ pingsFor otherAddress (pushPingRequest sampleAddress st) = 0%nat.
Proof.
  pose proof (ping_list_guarded_by_finished_list_only sampleAddress otherAddress 0 []
                (pushPingRequest sampleAddress (initialState ∅))) as (_ & H1 & H2 & _).
  split.
  - rewrite H1; reflexivity.
  - rewrite H2; [reflexivity | discriminate].
Defined.

(** ** C1 *)

(** The upper half of a key field is the low half of the session. *)
Lemma keyField_high session k : keyField session k / 2 ^ 16 = session mod 2 ^ 16.
Proof.
  unfold keyField, U32.
  change (2 ^ 32) with (2 ^ 32)%Z. rewrite <- (Z.land_ones _ 32) by lia.
  rewrite <- Z.shiftr_div_pow2 by lia.
  rewrite Z.shiftr_land, Z.shiftr_lor, Z.shiftr_land.
  rewrite Z.shiftr_shiftl_l by lia.
  change (Z.shiftr 65535 16) with 0. change (Z.shiftr (Z.ones 32) 16) with (Z.ones 16).
  rewrite Z.land_0_r, Z.lor_0_r. replace (16 - 16) with 0 by lia.
  rewrite Z.shiftl_0_r, Z.land_ones by lia. reflexivity.
Qed.

Lemma S32_mod16 x : S32 x mod 2 ^ 16 = x mod 2 ^ 16.
Proof.
  unfold S32.
  rewrite Zminus_mod, Z.mod_mod_divide by (exists (2 ^ 16); reflexivity).
  rewrite <- Zminus_mod. f_equal. lia.
Qed.

(** A key field built with the session before [gPingSession++] never equals
    one built with the session after it. *)
Lemma keyField_stale_session session k k' :
  keyField session k ≠ keyField (S32 (session + 1)) k'.
Proof.
  intros H. apply (f_equal (fun x => x / 2 ^ 16)) in H.
  rewrite !keyField_high, S32_mod16 in H.
  pose proof (Z.mod_pos_bound session (2 ^ 16) ltac:(lia)) as Hb.
  rewrite <- (Zplus_mod_idemp_l session 1) in H.
  destruct (Z.eq_dec (session mod 2 ^ 16) (2 ^ 16 - 1)) as [E | Hne].
  - rewrite E in H. vm_compute in H. discriminate.
  - rewrite (Z.mod_small (session mod 2 ^ 16 + 1)) in H by lia. lia.
Qed.

Lemma clearServerList_fields b st :
  let st' := clearServerList b st in
  gPingSession st' = S32 (gPingSession st + 1)
  /\ gPingList st' = [] /\ gQueryList st' = [] /\ gPacketStatusList st' = []
  /\ gFinishedList st' = [].
Proof. unfold clearServerList. destruct b; repeat split. Qed.

Lemma timeOutEntries_fields v st :
  let st' := timeOutEntries v st in
  gPingSession st' = gPingSession st
  /\ gPingList st' = gPingList st /\ gQueryList st' = gQueryList st
  /\ gPacketStatusList st' = gPacketStatusList st
  /\ sgServerQueryActive st' = sgServerQueryActive st.
Proof.
  revert st. induction v as [| p v IH]; intros st; simpl; [repeat split |].
  destruct (IH (timeOutUnlessResponded (address p) st)) as (H1 & H2 & H3 & H4 & H5).
  simpl in *. rewrite H1, H2, H3, H4, H5.
  unfold timeOutUnlessResponded, updateServerInfo. repeat case_match; repeat split.
Qed.

Lemma cancelServerQuery_fields st :
  let st' := cancelServerQuery st in
  gPingSession st' = gPingSession st
  /\ (sgServerQueryActive st = true ->
      gPingList st' = [] /\ gQueryList st' = [] /\ gPacketStatusList st' = []
      /\ sgServerQueryActive st' = false).
Proof.
  cbv zeta. unfold cancelServerQuery. destruct (sgServerQueryActive st) eqn:Ha;
    [| split; [reflexivity | discriminate]].
  cbv zeta.
  set (st1 := set_gPacketStatusList [] st).
  set (st2 := set_gPingList [] (timeOutEntries (gPingList st1) st1)).
  destruct (timeOutEntries_fields (gPingList st1) st1) as (A1 & _ & _ & A4 & _).
  destruct (timeOutEntries_fields (gQueryList st2) st2) as (B1 & B2 & _ & B4 & _).
  simpl in A1, A4, B1, B2, B4. simpl.
  split; [rewrite B1; subst st2; simpl; rewrite A1; reflexivity |].
  intros _. split; [rewrite B2; reflexivity |]. split; [reflexivity |].
  split; [rewrite B4; subst st2; simpl; rewrite A4; reflexivity | reflexivity].
Qed.

(** * Further properties *)

(** ** Wire strings *)

Lemma readBytes_chars (cs : list ascii) (rest : list WireItem) :
  readBytes (length cs) (map (fun c => W8 (char_code c)) cs ++ rest)
  = Some (map char_code cs, rest).
Proof.
  induction cs as [| c cs IH]; simpl; [reflexivity |]. rewrite IH. reflexivity.
Qed.

Lemma cstring_of_bytes_chars (cs : list ascii) :
  Forall (fun c => char_code c ≠ 0) cs ->
  cstring_of_bytes (map char_code cs) = String.string_of_list_ascii cs.
Proof.
  induction 1 as [| c cs Hc _ IH]; simpl; [reflexivity |].
  destruct (Z.eqb_spec (char_code c) 0); [contradiction |].
  rewrite IH. unfold char_code. rewrite N2Z.id, Ascii.ascii_N_embedding. reflexivity.
Qed.

Lemma length_list_ascii_of_string s :
  length (String.list_ascii_of_string s) = String.length s.
Proof. induction s as [| c s IH]; simpl; [reflexivity | f_equal; exact IH]. Qed.

Lemma string_of_list_ascii_take (n : nat) (s : string) :
  String.string_of_list_ascii (take n (String.list_ascii_of_string s))
  = String.substring 0 n s.
Proof.
  revert n. induction s as [| c s IH]; intros [| n]; simpl; try reflexivity.
  rewrite IH. reflexivity.
Qed.

(** X1.  A NUL-free string of at most 255 characters written with
    [writeCString] is read back unchanged by [readCString], which leaves the
    stream exactly after it. *)
Theorem cstring_round_trip (s : string) (rest : list WireItem) :
  (String.length s <= 255)%nat -> nulFree s ->
  readCString (writeCString s ++ rest) = Some (s, rest).
Proof.
  intros Hlen Hnul. unfold readCString, writeCString. cbv zeta.
  unfold U8. rewrite Z.mod_small by (change (2 ^ 8) with 256; lia).
  cbn [app readU8]. rewrite Nat2Z.id.
  rewrite <- length_list_ascii_of_string, firstn_all.
  rewrite readBytes_chars, (cstring_of_bytes_chars _ Hnul).
  rewrite String.string_of_list_ascii_of_string. reflexivity.
Qed.

Lemma cstring_round_trip_witness :
  readCString (writeCString "VER1" ++ [W32 12]) = Some ("VER1", [W32 12]).
Proof.
  apply (cstring_round_trip "VER1" [W32 12]).
  - simpl. lia.
  - unfold nulFree. simpl. repeat constructor; discriminate.
Defined.

(** X2.  The length byte of [writeCString] is the length modulo 256, and
    only that many characters follow: a string of 256 or more characters is
    cut, and what [readCString] returns is its prefix of [length mod 256]
    characters. *)
Theorem cstring_length_wraps (s : string) (rest : list WireItem) :
  nulFree s ->
  let n := (String.length s mod 256)%nat in
  length (writeCString s) = S n
  /\ readCString (writeCString s ++ rest) = Some (String.substring 0 n s, rest).
Proof.
  intros Hnul. cbv zeta. unfold readCString, writeCString. cbv zeta.
  assert (Hn : Z.to_nat (U8 (Z.of_nat (String.length s))) = (String.length s mod 256)%nat).
  { unfold U8. change (2 ^ 8) with (Z.of_nat 256). rewrite <- Nat2Z.inj_mod.
    apply Nat2Z.id. }
  rewrite Hn. set (n := (String.length s mod 256)%nat).
  set (cs := take n (String.list_ascii_of_string s)).
  assert (Hlen : length cs = n).
  { subst cs. rewrite length_take, length_list_ascii_of_string.
    pose proof (Nat.Div0.mod_le (String.length s) 256). lia. }
  split; [cbn [length]; rewrite length_map, Hlen; reflexivity |].
  cbn [app readU8].
  assert (Hrb : readBytes n (map (fun c => W8 (char_code c)) cs ++ rest)
                = Some (map char_code cs, rest))
    by (rewrite <- Hlen; apply readBytes_chars).
  rewrite Hn. fold n. rewrite Hrb, cstring_of_bytes_chars.
  - subst cs. rewrite string_of_list_ascii_take. reflexivity.
  - subst cs. unfold nulFree in Hnul. apply Forall_take. exact Hnul.
Qed.

Lemma cstring_length_wraps_witness :
  length (writeCString "ab") = 3%nat
  /\ readCString (writeCString "ab" ++ []) = Some ("ab", []).
Proof.
  apply (cstring_length_wraps "ab" []).
  unfold nulFree. simpl. repeat constructor; discriminate.
Defined.

(** X3.  [readLongCString] reads back what [writeLongCString] wrote only
    as far as the destination buffer reaches.  A NUL-free string of at most
    65535 characters that fits the buffer together with its terminator is
    read back unchanged, the stream being left exactly after it; for the
    2048-byte [stringBuf] of the only call site that is a string of at most
    2047 characters.  A string as long as the buffer or longer makes the
    reader write past the end of the buffer. *)
Theorem long_cstring_round_trip (capacity : nat) (s : string) (rest : list WireItem) :
  Z.of_nat (String.length s) <= 65535 -> nulFree s ->
  ((String.length s < capacity)%nat ->
   readLongCString capacity (writeLongCString s ++ rest) = ReadOk s rest)
  /\ ((capacity <= String.length s)%nat ->
      readLongCString capacity (writeLongCString s ++ rest) = BufferOverrun)
  /\ ((String.length s <= 2047)%nat ->
      readLongCString stringBufSize (writeLongCString s ++ rest) = ReadOk s rest)
  /\ ((2048 <= String.length s)%nat ->
      readLongCString stringBufSize (writeLongCString s ++ rest) = BufferOverrun).
Proof.
  intros Hlen Hnul.
  assert (Hread : forall c,
            readLongCString c (writeLongCString s ++ rest)
            = if (c <=? String.length s)%nat then BufferOverrun else ReadOk s rest).
  { intros c. unfold readLongCString, writeLongCString. cbv zeta.
    unfold U16. rewrite Z.mod_small by (change (2 ^ 16) with 65536; lia).
    cbn [app readU16]. rewrite Nat2Z.id.
    rewrite <- length_list_ascii_of_string, firstn_all.
    rewrite readBytes_chars, (cstring_of_bytes_chars _ Hnul).
    rewrite String.string_of_list_ascii_of_string. reflexivity. }
  assert (Hfit : forall c, (String.length s < c)%nat ->
            readLongCString c (writeLongCString s ++ rest) = ReadOk s rest).
  { intros c Hc. rewrite Hread. destruct (Nat.leb_spec c (String.length s)); [lia |].
    reflexivity. }
  assert (Hover : forall c, (c <= String.length s)%nat ->
            readLongCString c (writeLongCString s ++ rest) = BufferOverrun).
  { intros c Hc. rewrite Hread. destruct (Nat.leb_spec c (String.length s)); [| lia].
    reflexivity. }
  split; [apply Hfit |]. split; [apply Hover |].
  split; intros H; [apply Hfit | apply Hover]; unfold stringBufSize; lia.
Qed.

Lemma long_cstring_round_trip_witness :
  readLongCString stringBufSize (writeLongCString "status" ++ []) = ReadOk "status" [].
Proof.
  apply (long_cstring_round_trip stringBufSize "status" []).
  - vm_compute. discriminate.
  - unfold nulFree. simpl. repeat constructor; discriminate.
  - vm_compute. lia.
Defined.

(** ** The key field *)

Lemma keyField_low session k : keyField session k mod 2 ^ 16 = k mod 2 ^ 16.
Proof.
  unfold keyField, U32.
  rewrite Z.mod_mod_divide by (exists (2 ^ 16); reflexivity).
  rewrite <- !(Z.land_ones _ 16) by lia.
  rewrite Z.land_lor_distr_l.
  rewrite (Z.land_ones (Z.shiftl session 16)) by lia.
  rewrite Z.shiftl_mul_pow2, Z.mod_mul by lia.
  rewrite Z.lor_0_l, <- Z.land_assoc.
  change (Z.land 65535 (Z.ones 16)) with (Z.ones 16). reflexivity.
Qed.

Lemma keyField_split session k :
  keyField session k = 2 ^ 16 * (session mod 2 ^ 16) + k mod 2 ^ 16.
Proof.
  pose proof (Z.div_mod (keyField session k) (2 ^ 16) ltac:(lia)) as H.
  rewrite keyField_high, keyField_low in H. exact H.
Qed.

Lemma keyField_congruent session k session' k' :
  session mod 2 ^ 16 = session' mod 2 ^ 16 -> k mod 2 ^ 16 = k' mod 2 ^ 16 ->
  keyField session k = keyField session' k'.
Proof. intros Hs Hk. rewrite !keyField_split, Hs, Hk. reflexivity. Qed.

(** X4.  The 32-bit key field packs the low 16 bits of the session above the
    low 16 bits of the key and nothing else: it always fits 32 bits, its
    upper half is [session mod 2^16], its lower half [key mod 2^16].  Two
    key fields are therefore equal exactly when session and key agree modulo
    [2^16]; higher bits of either never reach the wire. *)
Theorem keyField_packs_low_halves (session k session' k' : Z) :
  0 <= keyField session k < 2 ^ 32
  /\ keyField session k / 2 ^ 16 = session mod 2 ^ 16
  /\ keyField session k mod 2 ^ 16 = k mod 2 ^ 16
  /\ (keyField session k = keyField session' k' <->
      session mod 2 ^ 16 = session' mod 2 ^ 16 /\ k mod 2 ^ 16 = k' mod 2 ^ 16).
Proof.
  repeat apply conj.
  - apply U32_range.
  - apply U32_range.
  - apply keyField_high.
  - apply keyField_low.
  - intros H. split.
    + rewrite <- (keyField_high session k), <- (keyField_high session' k'), H. reflexivity.
    + rewrite <- (keyField_low session k), <- (keyField_low session' k'), H. reflexivity.
  - intros [Hs Hk]. apply keyField_congruent; assumption.
Qed.

Lemma U32_mod16 x : U32 x mod 2 ^ 16 = x mod 2 ^ 16.
Proof. unfold U32. apply Z.mod_mod_divide. exists (2 ^ 16). reflexivity. Qed.

(** X5.  The request [sendPacket] builds for a queue entry carries exactly
    the key field [handleGamePingResponse] later expects from that entry:
    passing the signed [key] and [session] through the unsigned parameters
    of [sendPacket] does not change the field.  A reply that echoes the
    request verbatim therefore passes the key check. *)
Theorem sendPacket_carries_infoKey (pType : PacketType) (flags : Z) (p : Ping) (st : State) :
  sendPacket pType (address p) (key p) (session p) flags st
  = sendPacketStream (address p) [WType pType; W8 flags; W32 (infoKey p)] st.
Proof.
  unfold sendPacket, infoKey.
  rewrite (keyField_congruent (U32 (session p)) (U32 (key p)) (session p) (key p))
    by apply U32_mod16.
  reflexivity.
Qed.

(** ** The server list *)

Lemma findServerIndex_Some l addr i :
  findServerIndex l addr = Some i ->
  (exists si, l !! i = Some si /\ si_address si = addr)
  /\ addr ∉ map si_address (take i l).
Proof.
  revert i. induction l as [| q l IH]; intros i H; simpl in H; [discriminate |].
  unfold compareAddresses in H. case_bool_decide as Hq.
  - injection H as <-. split; [exists q; split; [reflexivity | congruence] |].
    simpl. apply not_elem_of_nil.
  - destruct (findServerIndex l addr) as [j |]; simpl in H; [| discriminate].
    injection H as <-. destruct (IH j eq_refl) as [Hex Hno]. split; [exact Hex |].
    simpl. intros Hin. apply elem_of_cons in Hin as [Heq | Hin]; [congruence | contradiction].
Qed.

Lemma findServerIndex_None l addr :
  findServerIndex l addr = None <-> addr ∉ map si_address l.
Proof.
  induction l as [| q l IH]; simpl.
  - split; [intros _; apply not_elem_of_nil | reflexivity].
  - unfold compareAddresses. case_bool_decide as Hq.
    + split; [discriminate |]. intros Hn. exfalso. apply Hn. rewrite Hq. left.
    + destruct (findServerIndex l addr) as [j |] eqn:E; simpl.
      * split; [discriminate |]. intros Hn. exfalso.
        assert (Hl : addr ∉ map si_address l)
          by (intros Hin; apply Hn; right; exact Hin).
        apply IH in Hl. discriminate.
      * split; [| reflexivity]. intros _ Hin.
        apply elem_of_cons in Hin as [Heq | Hin]; [congruence |].
        apply (proj1 IH eq_refl). exact Hin.
Qed.

Lemma findServerIndex_snoc l addr :
  findServerIndex l addr = None ->
  findServerIndex (l ++ [newServerInfo addr]) addr = Some (length l).
Proof.
  induction l as [| q l IH]; simpl; intros H.
  - unfold compareAddresses. rewrite bool_decide_eq_true_2; reflexivity.
  - destruct (compareAddresses addr (si_address q)); [discriminate |].
    destruct (findServerIndex l addr); [discriminate |]. rewrite IH; reflexivity.
Qed.

(** X6.  [findOrCreateServerInfo] returns the place of the first record of
    the address, which [findServerInfo] then finds too.  An existing record
    is returned without any change of state; otherwise one default record is
    appended and every existing record stays where it was.  A list without
    duplicate addresses stays so. *)
Theorem findOrCreateServerInfo_finds_or_appends (addr : NetAddress) (st : State) :
  let j := (findOrCreateServerInfo addr st).1 in
  let st' := (findOrCreateServerInfo addr st).2 in
  findServerInfo addr st' = Some j
  /\ (exists info, gServerList st' !! j = Some info /\ si_address info = addr)
  /\ (addr ∈ serverAddresses st -> st' = st)
  /\ (addr ∉ serverAddresses st ->
      st' = set_gServerList (gServerList st ++ [newServerInfo addr]) st
      /\ j = length (gServerList st))
  /\ (NoDup (serverAddresses st) -> NoDup (serverAddresses st')).
Proof.
  cbv zeta. unfold findOrCreateServerInfo, findServerInfo, serverAddresses.
  destruct (findServerIndex (gServerList st) addr) as [i |] eqn:E; cbn [fst snd].
  - pose proof (findServerIndex_Some _ _ _ E) as [Hex _].
    repeat apply conj; try assumption; try (intros; reflexivity); [| trivial].
    intros Hn. exfalso. apply findServerIndex_None in Hn. congruence.
  - pose proof (proj1 (findServerIndex_None _ _) E) as Hn.
    simpl. repeat apply conj.
    + apply findServerIndex_snoc. exact E.
    + exists (newServerInfo addr). split; [| reflexivity].
      rewrite lookup_app_r by lia. rewrite Nat.sub_diag. reflexivity.
    + intros Hin. contradiction.
    + intros _. split; reflexivity.
    + intros Hnd. rewrite map_app. apply NoDup_app. split; [exact Hnd |].
      split; [| apply NoDup_singleton].
      intros x Hx Hx'. simpl in Hx'. apply list_elem_of_singleton in Hx'. subst x.
      contradiction.
Qed.

Lemma filter_delete_rejected {A} (P : A -> Prop) `{forall x, Decision (P x)}
    (l : list A) (i : nat) (x : A) :
  l !! i = Some x -> ~ P x -> filter P (delete i l) = filter P l.
Proof.
  revert i. induction l as [| y l IH]; intros [| i] Hl Hx; simpl in *; try discriminate.
  - injection Hl as ->. rewrite filter_cons_False by exact Hx. reflexivity.
  - rewrite !filter_cons. rewrite (IH i Hl Hx). reflexivity.
Qed.

Lemma removeServerInfo_loop_others fuel i addr st :
  let st' := removeServerInfo_loop fuel i addr st in
  serversExcept addr (gServerList st') = serversExcept addr (gServerList st)
  /\ (length (gServerList st') <= length (gServerList st))%nat
  /\ st' = set_gServerBrowserDirty (gServerBrowserDirty st')
             (set_gServerList (gServerList st') st).
Proof.
  revert i st. induction fuel as [| fuel IH]; intros i st; cbn [removeServerInfo_loop].
  - split; [reflexivity |]. split; [lia |]. destruct st; reflexivity.
  - destruct (gServerList st !! i) as [si |] eqn:Hl;
      [| split; [reflexivity |]; split; [lia |]; destruct st; reflexivity].
    unfold compareAddresses. case_bool_decide as Ha.
    + destruct (IH (S i) (set_gServerBrowserDirty true
                            (set_gServerList (delete i (gServerList st)) st)))
        as (H1 & H2 & H3).
      cbv zeta in H1, H2, H3. simpl in H1, H2.
      split; [| split].
      * rewrite H1. unfold serversExcept.
        apply (filter_delete_rejected _ _ _ _ Hl). intros Hne. apply Hne. congruence.
      * pose proof (length_delete_le (gServerList st) i). lia.
      * rewrite H3 at 1. destruct st; reflexivity.
    + apply IH.
Qed.

(** X7.  [removeServerInfo] never touches a record of another address: the
    records of the other addresses are the same before and after, in the
    same order; the list does not grow, and nothing but the server list and
    the dirty flag changes. *)
Theorem removeServerInfo_keeps_other_servers (addr : NetAddress) (st : State) :
  let st' := removeServerInfo addr st in
  serversExcept addr (gServerList st') = serversExcept addr (gServerList st)
  /\ (length (gServerList st') <= length (gServerList st))%nat
  /\ st' = set_gServerBrowserDirty (gServerBrowserDirty st')
             (set_gServerList (gServerList st') st).
Proof. apply removeServerInfo_loop_others. Qed.

Lemma removeServerInfo_loop_absent fuel i addr st :
  addr ∉ map si_address (drop i (gServerList st)) ->
  removeServerInfo_loop fuel i addr st = st.
Proof.
  revert i. induction fuel as [| fuel IH]; intros i Hn; cbn [removeServerInfo_loop];
    [reflexivity |].
  destruct (gServerList st !! i) as [si |] eqn:Hl; [| reflexivity].
  rewrite (drop_S _ _ _ Hl) in Hn. simpl in Hn.
  unfold compareAddresses. case_bool_decide as Ha.
  - exfalso. apply Hn. rewrite Ha. left.
  - apply IH. intros Hin. apply Hn. right. exact Hin.
Qed.

Lemma serversExcept_absent addr l :
  addr ∉ map si_address l -> serversExcept addr l = l.
Proof.
  induction l as [| q l IH]; intros Hn; [reflexivity |].
  unfold serversExcept. simpl in Hn. rewrite filter_cons_True.
  - f_equal. apply IH. intros Hin. apply Hn. right. exact Hin.
  - intros Heq. apply Hn. rewrite Heq. left.
Qed.

Lemma removeServerInfo_loop_unique fuel i addr st :
  NoDup (map si_address (gServerList st)) ->
  addr ∉ map si_address (take i (gServerList st)) ->
  (length (gServerList st) - i <= fuel)%nat ->
  let st' := removeServerInfo_loop fuel i addr st in
  gServerList st' = serversExcept addr (gServerList st)
  /\ gServerBrowserDirty st' =
       (gServerBrowserDirty st || bool_decide (addr ∈ map si_address (gServerList st))).
Proof.
  revert i st. induction fuel as [| fuel IH]; intros i st Hnd Hpre Hfuel; cbv zeta.
  - assert (Hall : take i (gServerList st) = gServerList st) by (apply take_ge; lia).
    rewrite Hall in Hpre. cbn [removeServerInfo_loop].
    rewrite (serversExcept_absent _ _ Hpre).
    rewrite (bool_decide_eq_false_2 _ Hpre), orb_false_r. split; reflexivity.
  - cbn [removeServerInfo_loop].
    destruct (gServerList st !! i) as [si |] eqn:Hl.
    + unfold compareAddresses.
      destruct (bool_decide (addr = si_address si)) eqn:Ha;
        [apply bool_decide_eq_true in Ha | apply bool_decide_eq_false in Ha].
      * (* the one record of [addr]: nothing of it is left behind it *)
        pose proof (take_drop_middle _ _ _ Hl) as Hsplit.
        assert (Hrest : addr ∉ map si_address (drop (S i) (gServerList st))).
        { rewrite <- Hsplit in Hnd. rewrite map_app in Hnd. simpl in Hnd.
          apply NoDup_app in Hnd as (_ & _ & Hnd). apply NoDup_cons in Hnd as [Hnd _].
          rewrite Ha. exact Hnd. }
        assert (Hdel : delete i (gServerList st)
                       = take i (gServerList st) ++ drop (S i) (gServerList st))
          by apply delete_take_drop.
        rewrite removeServerInfo_loop_absent.
        -- simpl. split.
           ++ rewrite Hdel. rewrite <- Hsplit at 3. unfold serversExcept.
              rewrite !filter_app, filter_cons_False by (intros Hne; apply Hne; congruence).
              fold (serversExcept addr (take i (gServerList st))).
              fold (serversExcept addr (drop (S i) (gServerList st))).
              rewrite !serversExcept_absent by assumption. reflexivity.
           ++ rewrite bool_decide_eq_true_2; [rewrite orb_true_r; reflexivity |].
              apply list_elem_of_fmap. exists si. split; [congruence |].
              apply list_elem_of_lookup_2 with i. exact Hl.
        -- (* the loop goes on one place further, past the record that moved up *)
           simpl. rewrite Hdel, drop_app_ge
             by (rewrite length_take; apply lookup_lt_Some in Hl; lia).
           intros Hin. apply Hrest.
           rewrite <- (take_drop (S i - length (take i (gServerList st)))
                         (drop (S i) (gServerList st))), map_app.
           apply elem_of_app. right. exact Hin.
      * apply IH; [exact Hnd | | lia].
        rewrite (take_S_r _ _ _ Hl), map_app. simpl.
        intros Hin. apply elem_of_app in Hin as [Hin | Hin]; [contradiction |].
        apply list_elem_of_singleton in Hin. congruence.
    + apply lookup_ge_None in Hl.
      assert (Hall : take i (gServerList st) = gServerList st) by (apply take_ge; lia).
      rewrite Hall in Hpre.
      rewrite (serversExcept_absent _ _ Hpre).
      rewrite (bool_decide_eq_false_2 _ Hpre), orb_false_r. split; reflexivity.
Qed.

(** X8.  On a server list without duplicate addresses [removeServerInfo]
    removes the record of the address and only it: the list becomes the list
    of the other records, [findServerInfo] no longer finds the address, and
    the dirty flag is raised exactly when a record was there. *)
Theorem removeServerInfo_removes_unique_record (addr : NetAddress) (st : State) :
  NoDup (serverAddresses st) ->
  let st' := removeServerInfo addr st in
  gServerList st' = serversExcept addr (gServerList st)
  /\ findServerInfo addr st' = None
  /\ gServerBrowserDirty st' =
       (gServerBrowserDirty st || bool_decide (addr ∈ serverAddresses st)).
Proof.
  intros Hnd. cbv zeta. unfold removeServerInfo.
  destruct (removeServerInfo_loop_unique (length (gServerList st)) 0 addr st Hnd)
    as [Hl Hd]; [simpl; apply not_elem_of_nil | lia |].
  cbv zeta in Hl, Hd. split; [exact Hl |]. split; [| exact Hd].
  unfold findServerInfo. rewrite Hl. apply findServerIndex_None.
  unfold serversExcept. intros Hin. apply list_elem_of_fmap in Hin as (si & Ha & Hin).
  apply list_elem_of_filter in Hin as [Hne _]. congruence.
Qed.

Lemma removeServerInfo_removes_unique_record_witness :
  let st := set_gServerList [newServerInfo sampleAddress; newServerInfo otherAddress]
              (initialState ∅) in
  gServerList (removeServerInfo sampleAddress st) = [newServerInfo otherAddress].
Proof.
  refine (proj1 (removeServerInfo_removes_unique_record sampleAddress
                   (set_gServerList [newServerInfo sampleAddress; newServerInfo otherAddress]
                      (initialState ∅)) _)).
  apply (bool_decide_unpack _). vm_compute. exact I.
Defined.

(** ** The ping queue *)

Lemma countPingRequests_fold (l : list Ping) (count : Z) :
  Z.of_nat (length (filter (fun p => broadcast p = true) l)) <= count < 2 ^ 32 ->
  fold_left (fun count p => if broadcast p then U32 (count - 1) else count) l count
  = count - Z.of_nat (length (filter (fun p => broadcast p = true) l)).
Proof.
  revert count. induction l as [| p l IH]; intros count Hc; simpl; [lia |].
  rewrite filter_cons in *. destruct (decide (broadcast p = true)) as [Hb | Hb].
  - rewrite Hb. simpl length in *.
    rewrite U32_id by lia. rewrite IH by lia. lia.
  - apply not_true_is_false in Hb. rewrite Hb. apply IH. exact Hc.
Qed.

(** X9.  [countPingRequests] is the number of entries of the ping list that
    are not broadcasts (the list holding fewer than [2^31] entries). *)
Theorem countPingRequests_counts_unicast (st : State) :
  Z.of_nat (length (gPingList st)) < 2 ^ 31 ->
  countPingRequests st
  = Z.of_nat (length (filter (fun p => broadcast p = false) (gPingList st))).
Proof.
  intros Hlen. unfold countPingRequests.
  assert (Hsplit : forall l : list Ping,
             length l = (length (filter (fun p => broadcast p = true) l)
                         + length (filter (fun p => broadcast p = false) l))%nat).
  { induction l as [| p l IH]; [reflexivity |]. rewrite !filter_cons.
    destruct (decide (broadcast p = true)) as [Hb | Hb],
             (decide (broadcast p = false)) as [Hb' | Hb']; simpl; try lia.
    - congruence.
    - destruct (broadcast p); congruence. }
  pose proof (Hsplit (gPingList st)) as Hs.
  rewrite U32_id by lia.
  rewrite countPingRequests_fold by lia.
  rewrite S32_id by lia. lia.
Qed.

Lemma countPingRequests_counts_unicast_witness :
  let st := pushPingRequest sampleAddress
              (pushPingBroadcast (IPv4 255 255 255 255 28000) (initialState ∅)) in
  countPingRequests st = 1.
Proof.
  apply (countPingRequests_counts_unicast
           (pushPingRequest sampleAddress
              (pushPingBroadcast (IPv4 255 255 255 255 28000) (initialState ∅)))).
  vm_compute. reflexivity.
Defined.

(** ** What one tick of [processPingsAndQueries] sends and keeps *)

Lemma countPackets_app t l1 l2 :
  countPackets t (l1 ++ l2) = (countPackets t l1 + countPackets t l2)%nat.
Proof. unfold countPackets. rewrite filter_app, length_app. reflexivity. Qed.

Lemma countPackets_none t l :
  Forall (fun d => isPacket t d = false) l -> countPackets t l = 0%nat.
Proof.
  unfold countPackets. induction 1 as [| d l Hd _ IH]; [reflexivity |].
  rewrite filter_cons_False by (rewrite Hd; discriminate). exact IH.
Qed.

Lemma countPackets_relay t t' body (l : list MasterInfo) :
  t' ≠ t ->
  countPackets t (map (fun mi => mkDatagram (mi_address mi) (WType t' :: body)) l) = 0%nat.
Proof.
  intros Hne. apply countPackets_none, Forall_fmap, Forall_forall. intros mi _.
  unfold isPacket. simpl. apply bool_decide_eq_false_2. exact Hne.
Qed.

Lemma pingLoop_flight h now flags w fuel i st :
  (i <= 10)%nat ->
  exists new,
    netOut (pingLoop h now flags w fuel i st) = netOut st ++ new
    /\ (countPackets GamePingRequest new + i <= 10)%nat
    /\ countPackets GameInfoRequest new = 0%nat.
Proof.
  revert i st. induction fuel as [| fuel IH]; intros i st Hi.
  - exists []. rewrite app_nil_r. repeat split. simpl. lia.
  - cbn [pingLoop].
    destruct (Z.ltb_spec (Z.of_nat i) gMaxConcurrentPings) as [Hlt | Hge]; cbn [negb];
      [| exists []; rewrite app_nil_r; repeat split; simpl; lia].
    unfold gMaxConcurrentPings in Hlt.
    destruct (gPingList st !! i) as [p |];
      [| exists []; rewrite app_nil_r; repeat split; simpl; lia].
    destruct (U32 (time p + gPingTimeout) <? now); [| destruct (IH (S i) st) as (new & ? & ? & ?);
      [lia | exists new; repeat split; [assumption | lia | assumption]]].
    destruct (tryCount p =? 0).
    + match goal with
      | |- context [pingLoop h now flags w fuel i ?s] =>
          destruct (IH i s Hi) as (new & Hn & Hc & Hq);
          assert (Hs : netOut s = netOut st)
      end.
      { destruct w, (findServerInfo (address p) st); simpl;
          rewrite ?updatePingProgress_netOut; reflexivity. }
      exists new. rewrite Hn, Hs. repeat split; assumption.
    + match goal with
      | |- context [pingLoop h now flags w fuel (S i) ?s] =>
          destruct (IH (S i) s ltac:(lia)) as (new & Hn & Hc & Hq);
          assert (Hs : exists sent, netOut s = netOut st ++ sent
                                    /\ countPackets GamePingRequest sent = 1%nat
                                    /\ countPackets GameInfoRequest sent = 0%nat)
      end.
      { destruct (TORQUE_NET_HOLEPUNCHING h && negb _).
        - rewrite relayToMasters_netOut. unfold sendPacket, sendPacketStream. simpl.
          eexists. rewrite <- app_assoc. split; [reflexivity |].
          rewrite !(countPackets_app _ [_]), !countPackets_relay by discriminate.
          split; reflexivity.
        - unfold sendPacket, sendPacketStream. simpl.
          eexists. split; [reflexivity |]. split; reflexivity. }
      destruct Hs as (sent & Hs & Hc1 & Hq1).
      exists (sent ++ new). rewrite Hn, Hs, <- app_assoc, !countPackets_app.
      repeat split; lia.
Qed.

Lemma queryLoop_flight h now flags fuel i st :
  (i <= 2)%nat ->
  exists new,
    netOut (queryLoop h now flags fuel i st) = netOut st ++ new
    /\ (countPackets GameInfoRequest new + i <= 2)%nat
    /\ countPackets GamePingRequest new = 0%nat.
Proof.
  revert i st. induction fuel as [| fuel IH]; intros i st Hi.
  - exists []. rewrite app_nil_r. repeat split. simpl. lia.
  - cbn [queryLoop].
    destruct (Z.ltb_spec (Z.of_nat i) gMaxConcurrentQueries) as [Hlt | Hge]; cbn [negb];
      [| exists []; rewrite app_nil_r; repeat split; simpl; lia].
    unfold gMaxConcurrentQueries in Hlt.
    destruct (gQueryList st !! i) as [p |];
      [| exists []; rewrite app_nil_r; repeat split; simpl; lia].
    destruct (U32 (time p + gPingTimeout) <? now); [| destruct (IH (S i) st) as (new & ? & ? & ?);
      [lia | exists new; repeat split; [assumption | lia | assumption]]].
    destruct (findServerInfo (address p) st) as [j |];
      [| match goal with
         | |- context [queryLoop h now flags fuel i ?s] =>
             destruct (IH i s Hi) as (new & Hn & Hc & Hq); exists new;
             repeat split; assumption
         end].
    destruct (tryCount p =? 0);
      [match goal with
       | |- context [queryLoop h now flags fuel i ?s] =>
           destruct (IH i s Hi) as (new & Hn & Hc & Hq); exists new;
           repeat split; assumption
       end |].
    match goal with
    | |- context [queryLoop h now flags fuel (S i) ?s] =>
        destruct (IH (S i) s ltac:(lia)) as (new & Hn & Hc & Hq);
        assert (Hs : exists sent, netOut s = netOut st ++ sent
                                  /\ countPackets GameInfoRequest sent = 1%nat
                                  /\ countPackets GamePingRequest sent = 0%nat)
    end.
    { destruct (TORQUE_NET_HOLEPUNCHING h && negb _).
      - repeat case_match; rewrite ?relayToMasters_netOut;
          unfold sendPacket, sendPacketStream, updateServerInfo; simpl;
          rewrite ?relayToMasters_netOut; simpl;
          (eexists; rewrite <- app_assoc; split; [reflexivity |];
           rewrite !(countPackets_app _ [_]), !countPackets_relay by discriminate;
           split; reflexivity).
      - repeat case_match; unfold sendPacket, sendPacketStream, updateServerInfo; simpl;
          (eexists; split; [reflexivity |]; split; reflexivity). }
    destruct Hs as (sent & Hs & Hc1 & Hq1).
    exists (sent ++ new). rewrite Hn, Hs, <- app_assoc, !countPackets_app.
    repeat split; lia.
Qed.

(** X10.  Flight limits: whatever the state, one tick of
    [processPingsAndQueries] only appends to the datagrams sent, and among
    the ones it appends at most [gMaxConcurrentPings = 10] are
    [GamePingRequest]s and at most [gMaxConcurrentQueries = 2] are
    [GameInfoRequest]s. *)
Theorem tick_respects_flight_limits (h : Host) (session : Z) (schedule : bool) (st : State) :
  exists new,
    netOut (processPingsAndQueries h session schedule st) = netOut st ++ new
    /\ (countPackets GamePingRequest new <= 10)%nat
    /\ (countPackets GameInfoRequest new <= 2)%nat.
Proof.
  unfold processPingsAndQueries.
  destruct (bool_decide (session ≠ U32 (gPingSession st))).
  { exists []. rewrite app_nil_r. split; [reflexivity |]. split; cbv; lia. }
  set (w := waitingForMaster_of st).
  destruct (pingLoop_flight h (getVirtualMilliseconds h) OnlineQuery w
              (length (gPingList st)) 0 st ltac:(lia)) as (new1 & Hn1 & Hp1 & Hq1).
  set (st1 := pingLoop h (getVirtualMilliseconds h) OnlineQuery w
                (length (gPingList st)) 0 st) in *.
  destruct (queryLoop_flight h (getVirtualMilliseconds h) OnlineQuery
              (length (gQueryList st1)) 0 st1 ltac:(lia)) as (new2 & Hn2 & Hq2 & Hp2).
  destruct (bool_decide (gPingList st1 = []) && negb w).
  - exists (new1 ++ new2). rewrite !countPackets_app.
    unfold postEvent, executef. repeat case_match; simpl;
      rewrite Hn2, Hn1, <- app_assoc; (split; [reflexivity | split; lia]).
  - exists new1.
    unfold postEvent, executef. repeat case_match; simpl;
      rewrite Hn1; (split; [reflexivity | split; lia]).
Qed.

Lemma queryLoop_gFinishedList h now flags fuel i st :
  gFinishedList (queryLoop h now flags fuel i st) = gFinishedList st.
Proof.
  revert i st. induction fuel as [| fuel IH]; intros i st; [reflexivity |].
  cbn [queryLoop]. loop_preserves IH.
Qed.

Lemma map_address_insert (l : list Ping) (i : nat) (p p' : Ping) :
  l !! i = Some p -> address p' = address p ->
  map address (<[i := p']> l) = map address l.
Proof.
  revert i. induction l as [| q l IH]; intros [| i] Hl Ha; simpl in *; try discriminate.
  - injection Hl as ->. rewrite Ha. reflexivity.
  - f_equal. apply IH; assumption.
Qed.

Lemma pingLoop_conserves h now flags w fuel i st :
  exists gone,
    gFinishedList (pingLoop h now flags w fuel i st) = gFinishedList st ++ gone
    /\ map address (gPingList st)
       ≡ₚ map address (gPingList (pingLoop h now flags w fuel i st)) ++ gone.
Proof.
  revert i st. induction fuel as [| fuel IH]; intros i st.
  - exists []. rewrite !app_nil_r. split; reflexivity.
  - cbn [pingLoop].
    destruct (negb (Z.of_nat i <? gMaxConcurrentPings));
      [exists []; rewrite !app_nil_r; split; reflexivity |].
    destruct (gPingList st !! i) as [p |] eqn:Hp;
      [| exists []; rewrite !app_nil_r; split; reflexivity].
    destruct (U32 (time p + gPingTimeout) <? now); [| apply IH].
    destruct (tryCount p =? 0).
    + match goal with
      | |- context [pingLoop h now flags w fuel i ?s] =>
          destruct (IH i s) as (gone & Hf & Hperm);
          assert (Hs : gFinishedList s = gFinishedList st ++ [address p]
                       /\ gPingList s = delete i (gPingList st));
          [| set (s1 := s) in * ]
      end.
      { destruct w, (findServerInfo (address p) st); simpl;
          rewrite ?updatePingProgress_gFinishedList, ?updatePingProgress_gPingList;
          split; reflexivity. }
      destruct Hs as [Hs1 Hs2]. rewrite Hs1 in Hf. rewrite Hs2 in Hperm.
      exists (address p :: gone). split; [rewrite Hf, <- app_assoc; reflexivity |].
      rewrite <- Permutation_middle, <- Hperm.
      rewrite (delete_Permutation _ _ _ Hp) at 1. reflexivity.
    + match goal with
      | |- context [pingLoop h now flags w fuel (S i) ?s] =>
          destruct (IH (S i) s) as (gone & Hf & Hperm);
          assert (Hs : gFinishedList s = gFinishedList st
                       /\ map address (gPingList s) = map address (gPingList st));
          [| set (s1 := s) in * ]
      end.
      { destruct (TORQUE_NET_HOLEPUNCHING h && negb _);
          rewrite ?relayToMasters_netOut; simpl;
          (split; [reflexivity | apply (map_address_insert _ _ p); [exact Hp | reflexivity]]). }
      destruct Hs as [Hs1 Hs2]. rewrite Hs1 in Hf. rewrite Hs2 in Hperm.
      exists gone. split; assumption.
Qed.

(** X11.  A tick of [processPingsAndQueries] loses no ping: the finished
    list only grows, by the addresses of the pings that timed out in this
    tick, and every address that was on the ping list is afterwards either
    still on it or among those just finished (counting repetitions). *)
Theorem tick_moves_pings_to_finished (h : Host) (session : Z) (schedule : bool) (st : State) :
  let st' := processPingsAndQueries h session schedule st in
  exists timedOut,
    gFinishedList st' = gFinishedList st ++ timedOut
    /\ map address (gPingList st) ≡ₚ map address (gPingList st') ++ timedOut.
Proof.
  cbv zeta. unfold processPingsAndQueries.
  destruct (bool_decide (session ≠ U32 (gPingSession st))).
  { exists []. rewrite !app_nil_r. split; reflexivity. }
  set (w := waitingForMaster_of st).
  destruct (pingLoop_conserves h (getVirtualMilliseconds h) OnlineQuery w
              (length (gPingList st)) 0 st) as (gone & Hf & Hperm).
  set (st1 := pingLoop h (getVirtualMilliseconds h) OnlineQuery w
                (length (gPingList st)) 0 st) in *.
  exists gone.
  unfold postEvent, executef.
  repeat case_match; simpl;
    rewrite ?queryLoop_gFinishedList, ?queryLoop_gPingList; split; assumption.
Qed.

(** ** Stopping and cancelling *)

(** X12.  [stopServerQuery] does nothing when no query is active.  With
    pings pending it empties the ping list and the packet-status list and
    puts every pending address on the finished list, so that
    [pushPingRequest] will not enqueue it again, but, unlike a cancel, it
    leaves the query active and the query list, the server list and the
    session as they were.  With no ping pending it is [cancelServerQuery]. *)
Theorem stopServerQuery_finishes_pending_pings (st : State) :
  let st' := stopServerQuery st in
  (sgServerQueryActive st = false -> st' = st)
  /\ (sgServerQueryActive st = true -> gPingList st ≠ [] ->
      gPingList st' = [] /\ gPacketStatusList st' = []
      /\ gFinishedList st' = gFinishedList st ++ map address (gPingList st)
      /\ gQueryList st' = gQueryList st /\ gServerList st' = gServerList st
      /\ sgServerQueryActive st' = true /\ gPingSession st' = gPingSession st
      /\ (forall p, p ∈ gPingList st -> pushPingRequest (address p) st' = st'))
  /\ (sgServerQueryActive st = true -> gPingList st = [] -> st' = cancelServerQuery st).
Proof.
  cbv zeta. unfold stopServerQuery. repeat apply conj.
  - intros Ha. rewrite Ha. reflexivity.
  - intros Ha Hne. rewrite Ha. cbv zeta. simpl gPingList.
    destruct (gPingList st) as [| p0 l0] eqn:El; [congruence |].
    simpl. repeat apply conj; try reflexivity; [exact Ha |].
    intros p Hp. unfold pushPingRequest, addressFinished.
    cbn [gFinishedList set_gPingList set_gFinishedList set_gPacketStatusList].
    match goal with
    | |- (if existsb ?f ?l then _ else _) = _ => assert (Hex : existsb f l = true)
    end.
    { apply existsb_exists. exists (address p). split.
      - apply in_or_app. right. change (In (address p) (map address (p0 :: l0))).
        apply in_map, list_elem_of_In. exact Hp.
      - unfold compareAddresses. apply bool_decide_eq_true_2. reflexivity. }
    rewrite Hex. reflexivity.
  - intros Ha Hnil. rewrite Ha. cbv zeta. simpl gPingList. rewrite Hnil.
    unfold cancelServerQuery. simpl sgServerQueryActive. rewrite Ha. reflexivity.
Qed.

Lemma stopServerQuery_finishes_pending_pings_witness :
  let st := querySingleServer sampleHost sampleAddress 0 (initialState ∅) in
  gPingList (stopServerQuery st) = []
  /\ sgServerQueryActive (stopServerQuery st) = true.
Proof.
  pose proof (stopServerQuery_finishes_pending_pings
                (querySingleServer sampleHost sampleAddress 0 (initialState ∅)))
    as (_ & H & _).
  cbv zeta in H. destruct H as (H1 & _ & _ & _ & _ & H6 & _).
  - vm_compute. reflexivity.
  - vm_compute. discriminate.
  - split; assumption.
Defined.

Lemma keptOrTimedOut_refl l : Forall2 keptOrTimedOut l l.
Proof. induction l; constructor; [left; reflexivity | assumption]. Qed.

Lemma keptOrTimedOut_trans a b c :
  keptOrTimedOut a b -> keptOrTimedOut b c -> keptOrTimedOut a c.
Proof.
  intros [-> | [Ha ->]] [-> | [Hb ->]].
  - left. reflexivity.
  - right. split; [exact Hb | reflexivity].
  - right. split; [exact Ha | reflexivity].
  - right. split; [exact Ha | reflexivity].
Qed.

Lemma keptOrTimedOut_list_trans l1 l2 l3 :
  Forall2 keptOrTimedOut l1 l2 -> Forall2 keptOrTimedOut l2 l3 ->
  Forall2 keptOrTimedOut l1 l3.
Proof.
  intros H12. revert l3. induction H12 as [| a b l1 l2 Hab _ IH]; intros l3 H23.
  - inversion H23. constructor.
  - inversion H23 as [| ? c ? l3' Hbc H23']. subst. constructor.
    + exact (keptOrTimedOut_trans _ _ _ Hab Hbc).
    + apply IH. exact H23'.
Qed.

Lemma keptOrTimedOut_address a b : keptOrTimedOut a b -> si_address b = si_address a.
Proof. intros [-> | [_ ->]]; reflexivity. Qed.

Lemma keptOrTimedOut_findServerIndex l l' addr :
  Forall2 keptOrTimedOut l l' -> findServerIndex l' addr = findServerIndex l addr.
Proof.
  induction 1 as [| a b l l' Hab _ IH]; [reflexivity |]. simpl.
  rewrite (keptOrTimedOut_address _ _ Hab), IH. reflexivity.
Qed.

Lemma alter_keptOrTimedOut l j info :
  l !! j = Some info -> status_test (si_status info) Status_Responded = false ->
  Forall2 keptOrTimedOut l (alter (si_set_status Status_TimedOut) j l).
Proof.
  revert j. induction l as [| a l IH]; intros [| j] Hl Hr; simpl in *; try discriminate.
  - injection Hl as ->. constructor; [| apply keptOrTimedOut_refl].
    right. split; [exact Hr | reflexivity].
  - constructor; [left; reflexivity | apply (IH j); assumption].
Qed.

Lemma timeOutUnlessResponded_step addr st :
  Forall2 keptOrTimedOut (gServerList st) (gServerList (timeOutUnlessResponded addr st)).
Proof.
  unfold timeOutUnlessResponded.
  destruct (findServerInfo addr st) as [j |]; [| apply keptOrTimedOut_refl].
  destruct (gServerList st !! j) as [info |] eqn:Hl; [| apply keptOrTimedOut_refl].
  destruct (status_test (si_status info) Status_Responded) eqn:Hr;
    [apply keptOrTimedOut_refl |].
  simpl. apply (alter_keptOrTimedOut _ _ info); assumption.
Qed.

Lemma timeOutEntries_step v st :
  Forall2 keptOrTimedOut (gServerList st) (gServerList (timeOutEntries v st)).
Proof.
  revert st. induction v as [| p v IH]; intros st; simpl; [apply keptOrTimedOut_refl |].
  eapply keptOrTimedOut_list_trans; [apply timeOutUnlessResponded_step | apply IH].
Qed.

Lemma timedOut_not_responded info :
  status_test (si_status (si_set_status Status_TimedOut info)) Status_Responded = false.
Proof. reflexivity. Qed.

Lemma timeOutEntries_marks v st p j info :
  p ∈ v ->
  findServerInfo (address p) st = Some j ->
  gServerList st !! j = Some info ->
  status_test (si_status info) Status_Responded = false ->
  gServerList (timeOutEntries v st) !! j = Some (si_set_status Status_TimedOut info).
Proof.
  revert st info. induction v as [| q v IH]; intros st info Hin Hf Hl Hr; [inversion Hin |].
  simpl.
  pose proof (timeOutUnlessResponded_step (address q) st) as Hstep.
  set (st1 := timeOutUnlessResponded (address q) st) in *.
  assert (Hf1 : findServerInfo (address p) st1 = Some j).
  { unfold findServerInfo. rewrite (keptOrTimedOut_findServerIndex _ _ _ Hstep). exact Hf. }
  destruct (Forall2_lookup_l _ _ _ _ _ Hstep Hl) as (info1 & Hl1 & Hk).
  apply elem_of_cons in Hin as [-> | Hin].
  - (* this very entry marks the record; later entries keep the mark *)
    assert (Hl1' : gServerList st1 !! j = Some (si_set_status Status_TimedOut info)).
    { subst st1. unfold timeOutUnlessResponded. rewrite Hf, Hl, Hr. simpl.
      rewrite list_lookup_alter, Hl. destruct (decide (j = j)); [reflexivity | congruence]. }
    pose proof (timeOutEntries_step v st1) as Hrest.
    destruct (Forall2_lookup_l _ _ _ _ _ Hrest Hl1') as (info2 & Hl2 & [-> | [_ ->]]);
      exact Hl2.
  - destruct Hk as [-> | [_ ->]].
    + apply (IH st1 info Hin Hf1 Hl1 Hr).
    + rewrite (IH st1 _ Hin Hf1 Hl1 (timedOut_not_responded info)). reflexivity.
Qed.

(** X13.  [cancelServerQuery] never adds or removes a server record and
    never changes one that has responded: record by record, the list after
    is the list before except that some records that had not responded now
    have status [Status_TimedOut].  When a query was active this happens to
    every server still on the ping or the query list: the record
    [findServerInfo] finds for its address, unless it has responded, ends
    with status [Status_TimedOut]. *)
Theorem cancel_times_out_unanswered_servers (st : State) :
  let st' := cancelServerQuery st in
  Forall2 keptOrTimedOut (gServerList st) (gServerList st')
  /\ (sgServerQueryActive st = true ->
      forall p j info,
        p ∈ gPingList st ++ gQueryList st ->
        findServerInfo (address p) st = Some j ->
        gServerList st !! j = Some info ->
        status_test (si_status info) Status_Responded = false ->
        gServerList st' !! j = Some (si_set_status Status_TimedOut info)).
Proof.
  cbv zeta. unfold cancelServerQuery.
  destruct (sgServerQueryActive st) eqn:Ha;
    [| split; [apply keptOrTimedOut_refl | discriminate]].
  cbv zeta. simpl.
  set (st0 := set_gPacketStatusList [] st).
  set (st1 := timeOutEntries (gPingList st) st0).
  set (st2 := set_gPingList [] st1).
  pose proof (timeOutEntries_step (gPingList st) st0) as H1. fold st1 in H1.
  pose proof (timeOutEntries_step (gQueryList st1) st2) as H2.
  destruct (timeOutEntries_fields (gPingList st) st0) as (_ & _ & Hq & _).
  cbv zeta in Hq. fold st1 in Hq. simpl in Hq. simpl in H1, H2.
  change (gQueryList st2) with (gQueryList st1). rewrite Hq in *.
  split; [exact (keptOrTimedOut_list_trans _ _ _ H1 H2) |].
  intros _ p j info Hin Hf Hl Hr.
  apply elem_of_app in Hin as [Hin | Hin].
  - pose proof (timeOutEntries_marks (gPingList st) st0 p j info Hin Hf Hl Hr) as Hm.
    fold st1 in Hm.
    destruct (Forall2_lookup_l _ _ _ _ _ H2 Hm) as (info2 & Hl2 & [-> | [_ ->]]); exact Hl2.
  - destruct (Forall2_lookup_l _ _ _ _ _ H1 Hl) as (info1 & Hl1 & Hk).
    assert (Hf1 : findServerInfo (address p) st2 = Some j).
    { unfold findServerInfo. simpl.
      rewrite (keptOrTimedOut_findServerIndex _ _ _ H1). exact Hf. }
    destruct Hk as [-> | [_ ->]].
    + apply (timeOutEntries_marks (gQueryList st) st2 p j info Hin Hf1 Hl1 Hr).
    + rewrite (timeOutEntries_marks (gQueryList st) st2 p j _ Hin Hf1 Hl1
                 (timedOut_not_responded info)).
      reflexivity.
Qed.

Lemma cancel_times_out_unanswered_servers_witness :
  gServerList (cancelServerQuery pendingPingState) !! 0%nat
  = Some (si_set_status Status_TimedOut (newServerInfo otherAddress)).
Proof.
  apply (proj2 (cancel_times_out_unanswered_servers pendingPingState) eq_refl
           {| address := otherAddress; session := 0; key := 0; time := 0;
              tryCount := gQueryRetryCount; broadcast := false; isLocal := false |}
           0%nat (newServerInfo otherAddress)).
  - vm_compute. right. left.
  - vm_compute. reflexivity.
  - vm_compute. reflexivity.
  - vm_compute. reflexivity.
Defined.

(** ** The configured masters *)

Lemma parseMaster_region h text mi :
  parseMaster h text = Some mi -> mi_region mi ≠ 0 /\ 0 <= mi_region mi < 2 ^ 32.
Proof.
  unfold parseMaster. intros H.
  destruct (Z.eqb_spec (U32 (default 1 (scan_int text))) 0) as [| Hne]; [discriminate |].
  destruct (after_colon text); [| discriminate].
  destruct (stringToAddress h s); [| discriminate].
  injection H as <-. simpl. split; [exact Hne | apply U32_range].
Qed.

Lemma length_omap_le {A B} (f : A -> option B) (l : list A) :
  (length (omap f l) <= length l)%nat.
Proof.
  induction l as [| x l IH]; simpl; [lia |].
  change (list_omap A B f l) with (omap f l). destruct (f x); simpl; lia.
Qed.

(** X14.  [getMasterServerList] reads the ten variables [Server::Master0]
    to [Server::Master9] and nothing else: it returns at most ten masters,
    each one parsed from a non-empty variable, in the order of the
    variables.  No master it returns has region 0, and when all ten
    variables are unset or empty the list is empty. *)
Theorem getMasterServerList_from_variables (h : Host) (st : State) :
  (length (getMasterServerList h st) <= 10)%nat
  /\ (forall mi,
        mi ∈ getMasterServerList h st <->
        exists i, (i < 10)%nat
                  /\ getVariable (masterVariable i) st ≠ ""
                  /\ parseMaster h (getVariable (masterVariable i) st) = Some mi)
  /\ (forall mi, mi ∈ getMasterServerList h st -> mi_region mi ≠ 0)
  /\ ((forall i, (i < 10)%nat -> getVariable (masterVariable i) st = "") ->
      getMasterServerList h st = []).
Proof.
  assert (Hiff : forall mi,
             mi ∈ getMasterServerList h st <->
             exists i, (i < 10)%nat
                       /\ getVariable (masterVariable i) st ≠ ""
                       /\ parseMaster h (getVariable (masterVariable i) st) = Some mi).
  { intros mi. unfold getMasterServerList. rewrite list_elem_of_omap. split.
    - intros (i & Hi & Hp). apply elem_of_seq in Hi. exists i.
      case_bool_decide as He; [discriminate |]. split; [lia |]. split; assumption.
    - intros (i & Hi & Hne & Hp). exists i. split; [apply elem_of_seq; lia |].
      rewrite bool_decide_eq_false_2 by exact Hne. exact Hp. }
  split; [| split; [exact Hiff | split]].
  - unfold getMasterServerList.
    etransitivity; [apply length_omap_le |]. rewrite length_seq. lia.
  - intros mi Hin. apply Hiff in Hin as (i & _ & _ & Hp).
    apply (parseMaster_region _ _ _ Hp).
  - intros Hall. destruct (getMasterServerList h st) as [| mi l]; [reflexivity |].
    destruct (proj1 (Hiff mi) ltac:(left)) as (i & Hi & Hne & _).
    exfalso. apply Hne, Hall, Hi.
Qed.

(** ** Choosing a master *)

Lemma pickLoop_bound l r fuel index :
  (index < length l)%nat -> (pickLoop l r fuel index < length l)%nat.
Proof.
  revert index. induction fuel as [| fuel IH]; intros index Hi; simpl; [exact Hi |].
  destruct (l !! index) as [mi |]; [| exact Hi].
  destruct (mi_region mi =? r); [exact Hi |].
  apply IH. destruct (Nat.ltb_spec index (length l - 1)); lia.
Qed.

Lemma pickLoop_finds l r fuel index :
  (index < length l)%nat ->
  (exists k mi, (k < fuel)%nat /\ l !! ((index + k) mod length l)%nat = Some mi
                /\ mi_region mi = r) ->
  exists mi, l !! pickLoop l r fuel index = Some mi /\ mi_region mi = r.
Proof.
  revert index. induction fuel as [| fuel IH]; intros index Hi (k & mi & Hk & Hl & Hr);
    [lia |].
  simpl. destruct (l !! index) as [mi0 |] eqn:H0;
    [| apply lookup_ge_None in H0; lia].
  destruct (Z.eqb_spec (mi_region mi0) r) as [Heq | Hne]; [exists mi0; split; assumption |].
  destruct k as [| k].
  - rewrite Nat.add_0_r, Nat.mod_small in Hl by exact Hi. congruence.
  - apply IH.
    + destruct (Nat.ltb_spec index (length l - 1)); lia.
    + exists k, mi. split; [lia |]. split; [| exact Hr].
      rewrite <- Hl. f_equal.
      destruct (Nat.ltb_spec index (length l - 1)) as [Hlt | Hge].
      * f_equal. lia.
      * assert (index = (length l - 1)%nat) by lia. subst index.
        replace (length l - 1 + S k)%nat with (k + 1 * length l)%nat by lia.
        rewrite Nat.Div0.mod_add. reflexivity.
Qed.

Lemma pickMasterServer_facts (h : Host) (st : State) :
  let ok := (pickMasterServer h st).1 in
  let st' := (pickMasterServer h st).2 in
  (ok = false <-> gMasterServerList st = [])
  /\ st' = set_gMasterServerPing (gMasterServerPing st') st
  /\ session (gMasterServerPing st') = gPingSession st
  /\ key (gMasterServerPing st') = 0 /\ time (gMasterServerPing st') = 0
  /\ tryCount (gMasterServerPing st') = gMasterServerRetryCount
  /\ (gMasterServerList st = [] ->
      address (gMasterServerPing st') = address (gMasterServerPing st))
  /\ (gMasterServerList st ≠ [] ->
      exists mi, mi ∈ gMasterServerList st
                 /\ address (gMasterServerPing st') = mi_address mi
                 /\ ((exists mi', mi' ∈ gMasterServerList st
                                  /\ mi_region mi' = preferredRegion st) ->
                     mi_region mi = preferredRegion st)).
Proof.
  cbv zeta. unfold pickMasterServer. cbv zeta.
  cbn [gMasterServerList set_gMasterServerPing].
  destruct (gMasterServerList st) as [| m0 l0] eqn:El.
  - cbn [fst snd]. repeat apply conj; try reflexivity; intros; congruence.
  - set (l := m0 :: l0) in *.
    set (st1 := set_gMasterServerPing (ping_reset (gPingSession st) (gMasterServerPing st)) st).
    set (region := U32 (getIntVariable "$pref::Net::RegionMask" st1)).
    set (start := Z.to_nat (U32 (getCurrentTime h) mod Z.of_nat (length l))).
    assert (Hlen : (0 < length l)%nat) by (subst l; simpl; lia).
    assert (Hstart : (start < length l)%nat).
    { subst start.
      pose proof (Z.mod_pos_bound (U32 (getCurrentTime h)) (Z.of_nat (length l)) ltac:(lia)).
      lia. }
    pose proof (pickLoop_bound l region (length l) start Hstart) as Hb.
    destruct (l !! pickLoop l region (length l) start) as [mi |] eqn:Hpick;
      [| apply lookup_ge_None in Hpick; lia].
    cbn [fst snd]. repeat apply conj; try reflexivity;
      try (intros; subst l; discriminate).
    intros _. exists mi.
    split; [apply list_elem_of_lookup_2 with (pickLoop l region (length l) start);
            exact Hpick |].
    split; [reflexivity |].
    intros (mi' & Hin & Hr).
    apply list_elem_of_lookup_1 in Hin as (j & Hj).
    pose proof (lookup_lt_Some _ _ _ Hj) as Hjlt.
    destruct (pickLoop_finds l region (length l) start Hstart) as (mi2 & Hl2 & Hr2).
    + exists ((j + length l - start) mod length l)%nat, mi'.
      split; [apply Nat.mod_upper_bound; lia |]. split; [| exact Hr].
      rewrite Nat.Div0.add_mod_idemp_r.
      replace (start + (j + length l - start))%nat with (j + 1 * length l)%nat by lia.
      rewrite Nat.Div0.mod_add, Nat.mod_small by lia. exact Hj.
    + rewrite Hpick in Hl2. injection Hl2 as <-. exact Hr2.
Qed.

(** X15.  [pickMasterServer] resets the master ping (time 0, key 0,
    [gMasterServerRetryCount] tries, current session) and touches nothing
    else.  It returns [false], leaving the ping's address alone, exactly when
    the working master list is empty.  Otherwise the address it picks is the
    address of a master of the list, and of a master of the preferred region
    whenever the list has one. *)
Theorem pickMasterServer_prefers_region (h : Host) (st : State) :
  let ok := (pickMasterServer h st).1 in
  let st' := (pickMasterServer h st).2 in
  (ok = false <-> gMasterServerList st = [])
  /\ st' = set_gMasterServerPing (gMasterServerPing st') st
  /\ session (gMasterServerPing st') = gPingSession st
  /\ key (gMasterServerPing st') = 0 /\ time (gMasterServerPing st') = 0
  /\ tryCount (gMasterServerPing st') = gMasterServerRetryCount
  /\ (gMasterServerList st = [] ->
      address (gMasterServerPing st') = address (gMasterServerPing st))
  /\ (gMasterServerList st ≠ [] ->
      exists mi, mi ∈ gMasterServerList st
                 /\ address (gMasterServerPing st') = mi_address mi
                 /\ ((exists mi', mi' ∈ gMasterServerList st
                                  /\ mi_region mi' = preferredRegion st) ->
                     mi_region mi = preferredRegion st)).
Proof. exact (pickMasterServer_facts h st). Qed.

Lemma pickMasterServer_prefers_region_witness :
  let st := set_gMasterServerList
              [mkMasterInfo sampleAddress 2; mkMasterInfo otherAddress 7]
              (initialState (<["$pref::Net::RegionMask" := "7"]> ∅)) in
  address (gMasterServerPing (pickMasterServer sampleHost st).2) = otherAddress.
Proof.
  pose proof (pickMasterServer_prefers_region sampleHost
                (set_gMasterServerList
                   [mkMasterInfo sampleAddress 2; mkMasterInfo otherAddress 7]
                   (initialState (<["$pref::Net::RegionMask" := "7"]> ∅)))) as H.
  cbv zeta in H |- *. destruct H as (_ & _ & _ & _ & _ & _ & _ & H).
  destruct H as (mi & Hin & Ha & Hr); [vm_compute; discriminate |].
  rewrite Ha.
  assert (Hreg : mi_region mi = 7).
  { apply Hr. exists (mkMasterInfo otherAddress 7). split; [| vm_compute; reflexivity].
    simpl. right. left. }
  simpl in Hin. apply elem_of_cons in Hin as [-> | Hin]; [discriminate Hreg |].
  apply list_elem_of_singleton in Hin. subst mi. reflexivity.
Defined.

(** ** The master query *)

Lemma updatePingProgress_gMasterServerList st :
  gMasterServerList (updatePingProgress st) = gMasterServerList st.
Proof. progress_only. Qed.

Lemma pingLoop_gMasterServerList h now flags w fuel i st :
  gMasterServerList (pingLoop h now flags w fuel i st) = gMasterServerList st.
Proof.
  revert i st. induction fuel as [| fuel IH]; intros i st; [reflexivity |].
  cbn [pingLoop]. loop_preserves IH; rewrite ?updatePingProgress_gMasterServerList;
    reflexivity.
Qed.

Lemma queryLoop_gMasterServerList h now flags fuel i st :
  gMasterServerList (queryLoop h now flags fuel i st) = gMasterServerList st.
Proof.
  revert i st. induction fuel as [| fuel IH]; intros i st; [reflexivity |].
  cbn [queryLoop]. loop_preserves IH.
Qed.

Lemma processPingsAndQueries_gMasterServerList h session schedule st :
  gMasterServerList (processPingsAndQueries h session schedule st) = gMasterServerList st.
Proof.
  unfold processPingsAndQueries, postEvent, executef.
  repeat case_match; simpl;
    rewrite ?queryLoop_gMasterServerList, ?pingLoop_gMasterServerList; reflexivity.
Qed.

Lemma relay_isTickPacket t body (l : list MasterInfo) :
  t = MasterServerGamePingRequest \/ t = MasterServerGameInfoRequest ->
  Forall (fun d => isTickPacket d = true)
    (map (fun mi => mkDatagram (mi_address mi) (WType t :: body)) l).
Proof.
  intros Ht. apply Forall_fmap, Forall_forall. intros mi _.
  destruct Ht as [-> | ->]; reflexivity.
Qed.

Lemma pingLoop_tick_packets h now flags w fuel i st :
  exists new,
    netOut (pingLoop h now flags w fuel i st) = netOut st ++ new
    /\ Forall (fun d => isTickPacket d = true) new.
Proof.
  revert i st. induction fuel as [| fuel IH]; intros i st.
  - exists []. rewrite app_nil_r. split; [reflexivity | constructor].
  - cbn [pingLoop].
    destruct (negb (Z.of_nat i <? gMaxConcurrentPings));
      [exists []; rewrite app_nil_r; split; [reflexivity | constructor] |].
    destruct (gPingList st !! i) as [p |];
      [| exists []; rewrite app_nil_r; split; [reflexivity | constructor]].
    destruct (U32 (time p + gPingTimeout) <? now); [| apply IH].
    destruct (tryCount p =? 0).
    + match goal with
      | |- context [pingLoop h now flags w fuel i ?s] =>
          destruct (IH i s) as (new & Hn & Hf);
          assert (Hs : netOut s = netOut st)
      end.
      { destruct w, (findServerInfo (address p) st); simpl;
          rewrite ?updatePingProgress_netOut; reflexivity. }
      exists new. rewrite Hn, Hs. split; [reflexivity | exact Hf].
    + match goal with
      | |- context [pingLoop h now flags w fuel (S i) ?s] =>
          destruct (IH (S i) s) as (new & Hn & Hf);
          assert (Hs : exists sent, netOut s = netOut st ++ sent
                                    /\ Forall (fun d => isTickPacket d = true) sent)
      end.
      { destruct (TORQUE_NET_HOLEPUNCHING h && negb _).
        - rewrite relayToMasters_netOut. unfold sendPacket, sendPacketStream. simpl.
          eexists. rewrite <- app_assoc. split; [reflexivity |].
          apply Forall_cons. split; [reflexivity |].
          apply relay_isTickPacket. left. reflexivity.
        - unfold sendPacket, sendPacketStream. simpl.
          eexists. split; [reflexivity |]. repeat constructor. }
      destruct Hs as (sent & Hs & Hfs).
      exists (sent ++ new). rewrite Hn, Hs, <- app_assoc.
      split; [reflexivity | apply Forall_app; split; assumption].
Qed.

Lemma queryLoop_tick_packets h now flags fuel i st :
  exists new,
    netOut (queryLoop h now flags fuel i st) = netOut st ++ new
    /\ Forall (fun d => isTickPacket d = true) new.
Proof.
  revert i st. induction fuel as [| fuel IH]; intros i st.
  - exists []. rewrite app_nil_r. split; [reflexivity | constructor].
  - cbn [queryLoop].
    destruct (negb (Z.of_nat i <? gMaxConcurrentQueries));
      [exists []; rewrite app_nil_r; split; [reflexivity | constructor] |].
    destruct (gQueryList st !! i) as [p |];
      [| exists []; rewrite app_nil_r; split; [reflexivity | constructor]].
    destruct (U32 (time p + gPingTimeout) <? now); [| apply IH].
    destruct (findServerInfo (address p) st) as [j |];
      [| match goal with
         | |- context [queryLoop h now flags fuel i ?s] =>
             destruct (IH i s) as (new & Hn & Hf); exists new; split; assumption
         end].
    destruct (tryCount p =? 0);
      [match goal with
       | |- context [queryLoop h now flags fuel i ?s] =>
           destruct (IH i s) as (new & Hn & Hf); exists new; split; assumption
       end |].
    match goal with
    | |- context [queryLoop h now flags fuel (S i) ?s] =>
        destruct (IH (S i) s) as (new & Hn & Hf);
        assert (Hs : exists sent, netOut s = netOut st ++ sent
                                  /\ Forall (fun d => isTickPacket d = true) sent)
    end.
    { destruct (TORQUE_NET_HOLEPUNCHING h && negb _).
      - repeat case_match; rewrite ?relayToMasters_netOut;
          unfold sendPacket, sendPacketStream, updateServerInfo; simpl;
          rewrite ?relayToMasters_netOut; simpl;
          (eexists; rewrite <- app_assoc; split; [reflexivity |];
           apply Forall_cons; split; [reflexivity |];
           apply relay_isTickPacket; right; reflexivity).
      - repeat case_match; unfold sendPacket, sendPacketStream, updateServerInfo; simpl;
          (eexists; split; [reflexivity |]; repeat constructor). }
    destruct Hs as (sent & Hs & Hfs).
    exists (sent ++ new). rewrite Hn, Hs, <- app_assoc.
    split; [reflexivity | apply Forall_app; split; assumption].
Qed.

Lemma processPingsAndQueries_tick_packets h session schedule st :
  exists new,
    netOut (processPingsAndQueries h session schedule st) = netOut st ++ new
    /\ Forall (fun d => isTickPacket d = true) new.
Proof.
  unfold processPingsAndQueries.
  destruct (bool_decide (session ≠ U32 (gPingSession st))).
  { exists []. rewrite app_nil_r. split; [reflexivity | constructor]. }
  set (w := waitingForMaster_of st).
  destruct (pingLoop_tick_packets h (getVirtualMilliseconds h) OnlineQuery w
              (length (gPingList st)) 0 st) as (new1 & Hn1 & Hf1).
  set (st1 := pingLoop h (getVirtualMilliseconds h) OnlineQuery w
                (length (gPingList st)) 0 st) in *.
  destruct (queryLoop_tick_packets h (getVirtualMilliseconds h) OnlineQuery
              (length (gQueryList st1)) 0 st1) as (new2 & Hn2 & Hf2).
  destruct (bool_decide (gPingList st1 = []) && negb w).
  - exists (new1 ++ new2).
    unfold postEvent, executef. repeat case_match; simpl;
      rewrite Hn2, Hn1, <- app_assoc;
      (split; [reflexivity | apply Forall_app; split; assumption]).
  - exists new1.
    unfold postEvent, executef. repeat case_match; simpl;
      rewrite Hn1; (split; [reflexivity | assumption]).
Qed.

Lemma countPackets_tick_packets l :
  Forall (fun d => isTickPacket d = true) l ->
  countPackets MasterServerListRequest l = 0%nat.
Proof.
  intros H. apply countPackets_none. eapply Forall_impl; [exact H |].
  intros d Hd. unfold isTickPacket, isPacket in *.
  destruct (dg_body d) as [| [t | | | |] body]; try reflexivity.
  destruct t; try reflexivity; discriminate Hd.
Qed.

(** X16.  A master-query event does nothing at all unless it carries the
    current session, a query is active and the first list packet is still
    awaited; while the last request is younger than [gMasterServerTimeout]
    it only reschedules itself one millisecond on.  In no case does one
    event send more than one [MasterServerListRequest]. *)
Theorem master_query_paces_requests (h : Host) (session : Z) (st : State) :
  let st' := processMasterServerQuery h session st in
  (~ masterQueryLive session st -> st' = st)
  /\ (masterQueryLive session st -> ~ masterRequestDue h st ->
      st' = postEvent (ProcessMasterQueryEvent session) (U32 (getTargetTime h + 1)) st)
  /\ exists new,
       netOut st' = netOut st ++ new
       /\ (countPackets MasterServerListRequest new <= 1)%nat.
Proof.
  cbv zeta. unfold processMasterServerQuery, masterQueryLive, masterRequestDue.
  destruct (bool_decide (session ≠ U32 (gPingSession st))) eqn:Hs; cbn [orb].
  { apply bool_decide_eq_true in Hs.
    split; [reflexivity |]. split; [intros (? & _); contradiction |].
    exists []. rewrite app_nil_r. split; [reflexivity | cbv; lia]. }
  apply bool_decide_eq_false in Hs. apply dec_stable in Hs.
  destruct (sgServerQueryActive st) eqn:Ha; cbn [negb];
    [| split; [reflexivity |]; split; [intros (_ & ? & _); discriminate |];
       exists []; rewrite app_nil_r; split; [reflexivity | cbv; lia]].
  destruct (gGotFirstListPacket st) eqn:Hg;
    [split; [reflexivity |]; split; [intros (_ & _ & ?); discriminate |];
     exists []; rewrite app_nil_r; split; [reflexivity | cbv; lia] |].
  split; [intros Hn; exfalso; apply Hn; repeat split; assumption |].
  destruct (Z.ltb_spec (U32 (time (gMasterServerPing st) + gMasterServerTimeout))
              (getVirtualMilliseconds h)) as [Hdue | Hnot].
  - split; [intros _ Hn; contradiction |].
    unfold masterQueryDue.
    destruct (tryCount (gMasterServerPing st) =? 0).
    + destruct (pickMasterServer_facts h
                  (set_gMasterServerList
                     (eraseMaster (address (gMasterServerPing st)) (gMasterServerList st)) st))
        as (_ & Heta & _).
      cbv zeta in Heta.
      destruct (pickMasterServer h _) as [ok st1] eqn:E. cbn [fst snd] in Heta.
      assert (Hnet : netOut st1 = netOut st) by (rewrite Heta; reflexivity).
      clear Heta E.
      destruct ok; cbv zeta.
      * eexists. unfold postEvent, sendPacketStream, executef.
        repeat case_match; simpl; rewrite Hnet;
          (split; [reflexivity | cbv; lia]).
      * destruct (processPingsAndQueries_tick_packets h (U32 (gPingSession st1)) true st1)
          as (new & Hn & Hf).
        exists new. rewrite Hn, Hnet. split; [reflexivity |].
        rewrite (countPackets_tick_packets _ Hf). lia.
    + cbv zeta. eexists. unfold postEvent, sendPacketStream, executef.
      repeat case_match; simpl; (split; [reflexivity | cbv; lia]).
  - split; [intros _ _; reflexivity |].
    exists []. rewrite app_nil_r. split; [reflexivity | cbv; lia].
Qed.

Lemma master_query_paces_requests_witness :
  processMasterServerQuery sampleHost 0 (initialState ∅) = initialState ∅.
Proof.
  apply (proj1 (master_query_paces_requests sampleHost 0 (initialState ∅))).
  intros (_ & Ha & _). vm_compute in Ha. discriminate.
Defined.

(** X17.  When a live master-query event finds the last request timed out
    and no try left, the master that was being asked is taken off the working
    list.  If that leaves the list empty, no request is sent and no further
    master-query event is scheduled: the event continues as a tick of
    [processPingsAndQueries].  Otherwise one request goes to a master of the
    remaining list, which has two tries left afterwards, and the event is
    rescheduled. *)
Theorem exhausted_master_is_dropped (h : Host) (session : Z) (st : State) :
  masterQueryLive session st -> masterRequestDue h st ->
  tryCount (gMasterServerPing st) = 0 ->
  let remaining := eraseMaster (address (gMasterServerPing st)) (gMasterServerList st) in
  let st' := processMasterServerQuery h session st in
  gMasterServerList st' = remaining
  /\ (remaining = [] ->
      st' = processPingsAndQueries h (U32 (gPingSession st)) true
              (set_gMasterServerPing (ping_reset (gPingSession st) (gMasterServerPing st))
                 (set_gMasterServerList [] st))
      /\ exists new, netOut st' = netOut st ++ new
                     /\ countPackets MasterServerListRequest new = 0%nat)
  /\ (remaining ≠ [] ->
      exists mi body,
        mi ∈ remaining
        /\ netOut st' = netOut st
                        ++ [mkDatagram (mi_address mi) (WType MasterServerListRequest :: body)]
        /\ tryCount (gMasterServerPing st') = 2
        /\ key (gMasterServerPing st') = gKey st
        /\ simQueue st' = simQueue st
                          ++ [(ProcessMasterQueryEvent session, U32 (getTargetTime h + 1))]).
Proof.
  intros (Hs & Ha & Hg) Hdue Htry. cbv zeta.
  unfold processMasterServerQuery, masterRequestDue in *.
  rewrite (bool_decide_eq_false_2 (session ≠ U32 (gPingSession st)))
    by (intros Hc; apply Hc; exact Hs).
  rewrite Ha, Hg. cbn [orb negb].
  rewrite (proj2 (Z.ltb_lt _ _) Hdue).
  unfold masterQueryDue. rewrite Htry. cbn [Z.eqb].
  set (remaining := eraseMaster (address (gMasterServerPing st)) (gMasterServerList st)).
  set (st0 := set_gMasterServerList remaining st).
  destruct (pickMasterServer_facts h st0)
    as (Hok & Heta & Hsess & Hkey & Htime & Htries & Haddr0 & Hpick).
  cbv zeta in Hok, Heta, Hsess, Hkey, Htime, Htries, Haddr0, Hpick.
  destruct (pickMasterServer h st0) as [ok st1] eqn:E. cbn [fst snd] in *.
  assert (Hlist : gMasterServerList st1 = remaining) by (rewrite Heta; reflexivity).
  assert (Hnet : netOut st1 = netOut st) by (rewrite Heta; reflexivity).
  assert (Hsim : simQueue st1 = simQueue st) by (rewrite Heta; reflexivity).
  assert (Hgk : gKey st1 = gKey st) by (rewrite Heta; reflexivity).
  assert (Hps : gPingSession st1 = gPingSession st) by (rewrite Heta; reflexivity).
  destruct ok.
  - (* a master is left *)
    assert (Hne : remaining ≠ []).
    { intros Hnil. assert (Hf : true = false) by (apply Hok; exact Hnil). discriminate. }
    cbv zeta.
    split; [unfold postEvent, sendPacketStream, executef;
            repeat case_match; simpl; exact Hlist |].
    split; [intros Hnil; contradiction |].
    intros _. destruct (Hpick Hne) as (mi & Hin & Hami & _).
    exists mi. eexists. split; [exact Hin |].
    unfold postEvent, sendPacketStream, executef, masterRequestBody.
    cbv zeta. rewrite <- Hami.
    repeat case_match; simpl; rewrite ?Hnet, ?Hsim, ?Hgk, ?Htries;
      (split; [reflexivity |]; split; [reflexivity |]; split; reflexivity).
  - (* none is left *)
    assert (Hnil : remaining = []) by (apply Hok; reflexivity).
    rewrite processPingsAndQueries_gMasterServerList.
    split; [exact Hlist |]. split; [| intros Hne; contradiction].
    intros _.
    assert (Hst1 : st1 = set_gMasterServerPing
                           (ping_reset (gPingSession st) (gMasterServerPing st))
                           (set_gMasterServerList [] st)).
    { unfold pickMasterServer in E. cbv zeta in E. subst st0.
      cbn [gMasterServerList set_gMasterServerPing set_gMasterServerList] in E.
      rewrite Hnil in E. injection E as <-. reflexivity. }
    rewrite Hps. split; [rewrite Hst1; reflexivity |].
    destruct (processPingsAndQueries_tick_packets h (U32 (gPingSession st)) true st1)
      as (new & Hn & Hf).
    exists new. rewrite Hn, Hnet. split; [reflexivity |].
    apply countPackets_tick_packets. exact Hf.
Qed.

Lemma exhausted_master_is_dropped_witness :
  gMasterServerList (processMasterServerQuery sampleHost 0 exhaustedMasterState)
  = [mkMasterInfo otherAddress 7].
Proof.
  refine (proj1 (exhausted_master_is_dropped sampleHost 0 exhaustedMasterState _ _ _)).
  - repeat split; vm_compute; reflexivity.
  - vm_compute. reflexivity.
  - vm_compute. reflexivity.
Defined.
(** ** Info responses *)

Lemma updateQueryProgress_frame st :
  gServerList (updateQueryProgress st) = gServerList st
  /\ gQueryList (updateQueryProgress st) = gQueryList st
  /\ gPingList (updateQueryProgress st) = gPingList st
  /\ gFinishedList (updateQueryProgress st) = gFinishedList st
  /\ netOut (updateQueryProgress st) = netOut st
  /\ simQueue (updateQueryProgress st) = simQueue st
  /\ conVars (updateQueryProgress st) = conVars st
  /\ sActiveFilter (updateQueryProgress st) = sActiveFilter st
  /\ gServerBrowserDirty (updateQueryProgress st) = gServerBrowserDirty st.
Proof.
  unfold updateQueryProgress, executef.
  destruct (gPingList st) eqn:E; repeat apply conj; try reflexivity; simpl; congruence.
Qed.

Lemma dStricmp_eq_refl s : dStricmp_eq s s = true.
Proof. unfold dStricmp_eq. apply bool_decide_eq_true_2. reflexivity. Qed.

(** One decision of [applyInfoResponse], the outermost one. *)
Ltac info_step H :=
  match type of H with
  | mbind _ (if ?a && _ then _ else _) = _ => destruct a eqn:?; cbn [andb] in H
  | mbind _ (if ?c then _ else _) = _ => destruct c eqn:?
  | mbind _ ?o = _ => destruct o as [[|] |] eqn:?
  | (if ?c then _ else _) = _ => destruct c eqn:?
  | context [if ?c then _ else _] => destruct c eqn:?
  end; cbn [mbind option_bind] in H; try discriminate H.

Ltac info_cases H :=
  unfold applyInfoResponse in H; cbv zeta in H; repeat info_step H.

Lemma applyInfoResponse_sameIdentity f isUpdate applyFilter pkt si kept si' :
  applyInfoResponse f isUpdate applyFilter pkt si = Some (kept, si') ->
  sameIdentity si si'.
Proof.
  intros H. info_cases H; injection H as <- <-; repeat split.
Qed.

Lemma differs_false field buf : differs field buf = false -> field = Some buf.
Proof.
  destruct field as [s |]; simpl; [| discriminate].
  intros H. apply negb_false_iff, bool_decide_eq_true in H. congruence.
Qed.

Lemma differsNoCase_false field buf :
  differsNoCase field buf = false ->
  exists g, field = Some g /\ dStricmp_eq g buf = true.
Proof.
  destruct field as [s |]; simpl; [| discriminate].
  intros H. apply negb_false_iff in H. eauto.
Qed.

Lemma applyInfoResponse_recorded f isUpdate applyFilter pkt si si' :
  applyInfoResponse f isUpdate applyFilter pkt si = Some (true, si') ->
  infoRecorded pkt si'.
Proof.
  intros H. unfold infoRecorded. info_cases H; injection H as <-; simpl;
    repeat match goal with
           | E : differs _ _ = false |- _ => apply differs_false in E; simpl in E
           | E : differsNoCase _ _ = false |- _ =>
               apply differsNoCase_false in E as (? & ? & ?)
           end;
    repeat apply conj; try reflexivity; try assumption;
    try (eexists; split; [reflexivity | apply dStricmp_eq_refl]);
    try (eexists; split; [eassumption | assumption]).
Qed.

Ltac si_fields :=
  cbn [andb isDedicated isPassworded
       si_address si_name si_gameType si_missionType si_missionName si_statusString
       si_infoString si_numPlayers si_maxPlayers si_numBots si_version si_ping
       si_cpuSpeed si_isFavorite si_status si_isLocal
       si_set_status si_set_gameType si_set_missionType si_set_missionName
       si_set_statusString si_set_infoString si_set_numPlayers
       si_set_maxPlayers_numBots si_set_cpuSpeed] in *.


(** The tests a kept server went through, read on the packet. *)
Lemma applyInfoResponse_checks f isUpdate applyFilter pkt si si' :
  applyInfoResponse f isUpdate applyFilter pkt si = Some (true, si') ->
  (applyFilter && negb (Z.land (f_filterFlags f) Dedicated =? 0)
   && negb (status_test (ir_status pkt) Status_Dedicated) = false)
  /\ (applyFilter && negb (Z.land (f_filterFlags f) NotPassworded =? 0)
      && status_test (ir_status pkt) Status_Passworded = false)
  /\ (applyFilter && ((ir_numPlayers pkt <? f_minPlayers f)
                      || (f_maxPlayers f <? ir_numPlayers pkt)) = false)
  /\ (applyFilter && (f_maxBots f <? ir_numBots pkt) = false)
  /\ (applyFilter && (ir_cpuSpeed pkt <? f_minCPU f) = false)
  /\ (applyFilter = true -> si_gameType si = None ->
      filteredOut (f_gameType f) (ir_gameType pkt) = Some false)
  /\ (applyFilter = true -> si_missionType si = None ->
      filteredOut (f_missionType f) (ir_missionType pkt) = Some false).
Proof.
  intros H. info_cases H; clear H; si_fields; repeat apply conj; try assumption; try reflexivity;
    intros Haf Hnone; try discriminate Haf; try assumption;
    match goal with
    | E : differs _ _ = false |- _ => rewrite Hnone in E; discriminate E
    | E : differsNoCase _ _ = false |- _ => rewrite Hnone in E; discriminate E
    end.
Qed.

Lemma checks_numbersPass f pkt :
  negb (Z.land (f_filterFlags f) Dedicated =? 0)
  && negb (status_test (ir_status pkt) Status_Dedicated) = false ->
  negb (Z.land (f_filterFlags f) NotPassworded =? 0)
  && status_test (ir_status pkt) Status_Passworded = false ->
  (ir_numPlayers pkt <? f_minPlayers f) || (f_maxPlayers f <? ir_numPlayers pkt) = false ->
  (f_maxBots f <? ir_numBots pkt) = false ->
  (ir_cpuSpeed pkt <? f_minCPU f) = false ->
  numbersPass f pkt.
Proof.
  intros H1 H2 H3 H4 H5. unfold numbersPass.
  apply orb_false_iff in H3 as [H3 H3']. apply Z.ltb_ge in H3, H3', H4, H5.
  apply andb_false_iff in H1, H2.
  repeat apply conj; try lia.
  - intros Hf. destruct H1 as [H1 | H1].
    + apply negb_false_iff, Z.eqb_eq in H1. contradiction.
    + apply negb_false_iff in H1. exact H1.
  - intros Hf. destruct H2 as [H2 | H2]; [| exact H2].
    apply negb_false_iff, Z.eqb_eq in H2. contradiction.
Qed.


(** Without the filter every response is taken over. *)
Lemma applyInfoResponse_unfiltered f isUpdate pkt si :
  exists si', applyInfoResponse f isUpdate false pkt si = Some (true, si').
Proof.
  unfold applyInfoResponse. cbv zeta. rewrite !andb_false_r.
  cbn [mbind option_bind andb]. eexists. reflexivity.
Qed.


Lemma status_of_response b :
  0 <= b < 256 ->
  status_test (Z.lor b Status_Responded) Status_Responded = true
  /\ status_test (Z.lor b Status_Responded) Status_Updating = false
  /\ status_test (Z.lor b Status_Responded) Status_Querying = false
  /\ status_test (Z.lor b Status_Responded) Status_TimedOut = false.
Proof.
  intros Hb. unfold status_test.
  assert (Hlow : b = Z.land b (Z.ones 8)) by (rewrite Z.land_ones by lia; symmetry; apply Z.mod_small; exact Hb).
  assert (Hhigh : forall flag, Z.land (Z.ones 8) flag = 0 -> Z.land b flag = 0).
  { intros flag Hf. rewrite Hlow, <- Z.land_assoc, Hf. apply Z.land_0_r. }
  rewrite !Z.land_lor_distr_l.
  rewrite (Hhigh Status_Responded), (Hhigh Status_Updating), (Hhigh Status_Querying),
    (Hhigh Status_TimedOut) by reflexivity.
  repeat split.
Qed.

Lemma removeServerInfo_loop_shrinks fuel i addr st :
  addr ∈ map si_address (drop i (gServerList st)) ->
  (length (gServerList st) - i <= fuel)%nat ->
  (length (gServerList (removeServerInfo_loop fuel i addr st)) < length (gServerList st))%nat.
Proof.
  revert i. induction fuel as [| fuel IH]; intros i Hin Hfuel.
  - rewrite drop_ge in Hin by lia. simpl in Hin. apply elem_of_nil in Hin. contradiction.
  - cbn [removeServerInfo_loop].
    destruct (gServerList st !! i) as [si |] eqn:Hl.
    + unfold compareAddresses. case_bool_decide as Ha.
      * destruct (removeServerInfo_loop_others fuel (S i) addr
                    (set_gServerBrowserDirty true
                       (set_gServerList (delete i (gServerList st)) st)))
          as (_ & Hlen & _).
        simpl in Hlen. apply lookup_lt_Some in Hl.
        rewrite length_delete in Hlen by (apply lookup_lt_is_Some_2; exact Hl). lia.
      * apply IH; [| lia]. rewrite (drop_S _ _ _ Hl) in Hin. simpl in Hin.
        apply elem_of_cons in Hin as [Heq | Hin]; [contradiction | exact Hin].
    + apply lookup_ge_None in Hl. rewrite drop_ge in Hin by lia.
      simpl in Hin. apply elem_of_nil in Hin. contradiction.
Qed.

Lemma serversExcept_alter addr (g : ServerInfo -> ServerInfo) j l si :
  l !! j = Some si -> si_address si = addr -> si_address (g si) = addr ->
  serversExcept addr (alter g j l) = serversExcept addr l.
Proof.
  unfold serversExcept. revert j.
  induction l as [| q l IH]; intros [| j] Hl Ha Hg; try discriminate.
  - injection Hl as ->. change (alter g 0%nat (si :: l)) with (g si :: l).
    rewrite !filter_cons_False by (intros Hn; apply Hn; assumption).
    reflexivity.
  - change (alter g (S j) (q :: l)) with (q :: alter g j l).
    rewrite !filter_cons. rewrite (IH j Hl Ha Hg). reflexivity.
Qed.

Lemma addresses_alter (g : ServerInfo -> ServerInfo) j l si :
  l !! j = Some si -> si_address (g si) = si_address si ->
  map si_address (alter g j l) = map si_address l.
Proof.
  revert j. induction l as [| q l IH]; intros [| j] Hl Hg; try discriminate.
  - injection Hl as ->. change (alter g 0%nat (si :: l)) with (g si :: l).
    cbn [map]. rewrite Hg. reflexivity.
  - change (alter g (S j) (q :: l)) with (q :: alter g j l).
    cbn [map]. rewrite (IH j Hl Hg). reflexivity.
Qed.

Lemma alter_const {A} (x : A) j (l : list A) :
  alter (fun _ => x) j l = <[j := x]> l.
Proof.
  revert j. induction l as [| y l IH]; intros [| j]; simpl; try reflexivity.
  f_equal. apply IH.
Qed.

(** The handler on a response that has a query entry and a server record. *)
Lemma handleGameInfoResponse_found address pkt st i j si :
  findPingEntry (gQueryList st) address = Some i ->
  findServerInfo address st = Some j ->
  gServerList st !! j = Some si ->
  handleGameInfoResponse address pkt st =
    '(kept, si') ← applyInfoResponse (sActiveFilter st) (isUpdating si)
                     (negb (isUpdating si) && filterApplies (sActiveFilter st)) pkt si;
    Some (if (kept : bool)
          then set_gServerBrowserDirty true
                 (updateServerInfo j (fun _ => si')
                    (updateQueryProgress (set_gQueryList (delete i (gQueryList st)) st)))
          else removeServerInfo address
                 (updateServerInfo j (fun _ => si')
                    (updateQueryProgress (set_gQueryList (delete i (gQueryList st)) st)))).
Proof.
  intros Hi Hj Hsi. unfold handleGameInfoResponse.
  destruct (gQueryList st) as [| q v] eqn:Hq; [discriminate |].
  rewrite Hi. cbv zeta. rewrite <- Hq.
  destruct (updateQueryProgress_frame (set_gQueryList (delete i (gQueryList st)) st))
    as (Hl & _ & _ & _ & _ & _ & _ & Hf & _).
  unfold findServerInfo in *. rewrite Hl, Hf. simpl. rewrite Hj, Hsi. reflexivity.
Qed.
Lemma handleGameInfoResponse_unsolicited address pkt st :
  findPingEntry (gQueryList st) address = None ->
  handleGameInfoResponse address pkt st = Some st.
Proof.
  intros Hi. unfold handleGameInfoResponse. rewrite Hi.
  destruct (gQueryList st); reflexivity.
Qed.

Lemma handleGameInfoResponse_unlisted address pkt st i :
  findPingEntry (gQueryList st) address = Some i ->
  findServerInfo address st = None ->
  handleGameInfoResponse address pkt st =
    Some (updateQueryProgress (set_gQueryList (delete i (gQueryList st)) st)).
Proof.
  intros Hi Hj. unfold handleGameInfoResponse.
  destruct (gQueryList st) as [| q v] eqn:Hq; [discriminate |].
  rewrite Hi. cbv zeta. rewrite <- Hq.
  destruct (updateQueryProgress_frame (set_gQueryList (delete i (gQueryList st)) st))
    as (Hl & _).
  unfold findServerInfo in *. rewrite Hl. simpl. rewrite Hj. reflexivity.
Qed.

(** X18.  An info response changes nothing but the query list, the records
    of its own sender and the callback log: it sends nothing and schedules
    nothing, the ping and finished lists and the console variables stay, the
    first query entry of the sender (if any) is erased, the records of all
    other servers are the same in the same order, and the server list does
    not grow.  A response from an address without a query entry changes
    nothing at all. *)
Theorem info_response_touches_only_its_sender
    (address : NetAddress) (pkt : InfoResponse) (st st' : State) :
  handleGameInfoResponse address pkt st = Some st' ->
  netOut st' = netOut st
  /\ simQueue st' = simQueue st
  /\ conVars st' = conVars st
  /\ gPingList st' = gPingList st
  /\ gFinishedList st' = gFinishedList st
  /\ gQueryList st' =
       match findPingEntry (gQueryList st) address with
       | Some i => delete i (gQueryList st)
       | None => gQueryList st
       end
  /\ serversExcept address (gServerList st') = serversExcept address (gServerList st)
  /\ (length (gServerList st') <= length (gServerList st))%nat
  /\ (findPingEntry (gQueryList st) address = None -> st' = st).
Proof.
  intros H.
  destruct (findPingEntry (gQueryList st) address) as [i |] eqn:Hi.
  2: { rewrite (handleGameInfoResponse_unsolicited _ _ _ Hi) in H. injection H as <-.
       repeat apply conj; reflexivity. }
  destruct (updateQueryProgress_frame (set_gQueryList (delete i (gQueryList st)) st))
    as (Fl & Fq & Fp & Ff & Fn & Fs & Fc & _ & _).
  simpl in Fl, Fq, Fp, Ff, Fn, Fs, Fc.
  destruct (findServerInfo address st) as [j |] eqn:Hj.
  2: { rewrite (handleGameInfoResponse_unlisted _ _ _ _ Hi Hj) in H. injection H as <-.
       rewrite Fl, Fq, Fp, Ff, Fn, Fs, Fc.
       repeat apply conj; try reflexivity; try lia; discriminate. }
  destruct (findServerIndex_Some _ _ _ Hj) as [(si & Hsi & Ha) _].
  rewrite (handleGameInfoResponse_found _ _ _ _ _ _ Hi Hj Hsi) in H.
  destruct (applyInfoResponse _ _ _ pkt si) as [[kept si'] |] eqn:Happ;
    simpl in H; [| discriminate].
  destruct (applyInfoResponse_sameIdentity _ _ _ _ _ _ _ Happ) as (Ha' & _).
  assert (Hexc : serversExcept address
                   (alter (fun _ => si') j (gServerList st))
                 = serversExcept address (gServerList st))
    by (apply (serversExcept_alter _ _ _ _ si); congruence).
  assert (Hlen : length (alter (fun _ : ServerInfo => si') j (gServerList st))
                 = length (gServerList st)) by apply length_alter.
  injection H as <-. destruct kept.
  - simpl. rewrite Fl, Fq, Fp, Ff, Fn, Fs, Fc, Hexc, Hlen.
    repeat apply conj; try reflexivity; try lia; discriminate.
  - unfold removeServerInfo.
    match goal with
    | |- context [removeServerInfo_loop ?n 0 address ?s] =>
        destruct (removeServerInfo_loop_others n 0%nat address s) as (H1 & H2 & H3);
        cbv zeta in H1, H2, H3;
        generalize dependent (removeServerInfo_loop n 0%nat address s); intros r H1 H2 H3;
        rewrite H3; simpl in H1, H2 |- *
    end.
    rewrite Fl in H1, H2. rewrite H1, Hexc, Fq, Fp, Ff, Fn, Fs, Fc.
    repeat apply conj; try reflexivity; try lia; discriminate.
Qed.

Lemma removeServerInfo_shrinks addr st :
  addr ∈ serverAddresses st ->
  (length (gServerList (removeServerInfo addr st)) < length (gServerList st))%nat.
Proof.
  intros Hin. apply removeServerInfo_loop_shrinks; [exact Hin | lia].
Qed.

Lemma serverAddresses_update j si si' st :
  gServerList st !! j = Some si -> si_address si' = si_address si ->
  serverAddresses (updateServerInfo j (fun _ => si') st) = serverAddresses st.
Proof.
  intros Hl Ha. unfold serverAddresses, updateServerInfo. simpl.
  apply (addresses_alter _ _ _ si); assumption.
Qed.

Lemma found_listed addr st j :
  findServerInfo addr st = Some j -> addr ∈ serverAddresses st.
Proof.
  intros Hj. destruct (findServerIndex_Some _ _ _ Hj) as [(si & Hsi & Ha) _].
  unfold serverAddresses. apply list_elem_of_fmap. exists si. split; [congruence |].
  apply list_elem_of_lookup_2 with j. exact Hsi.
Qed.

(** The two outcomes of a response that has a query entry and a record. *)
Lemma handleGameInfoResponse_outcome address pkt st st' i j si :
  findPingEntry (gQueryList st) address = Some i ->
  findServerInfo address st = Some j ->
  gServerList st !! j = Some si ->
  handleGameInfoResponse address pkt st = Some st' ->
  exists kept si',
    applyInfoResponse (sActiveFilter st) (isUpdating si)
      (negb (isUpdating si) && filterApplies (sActiveFilter st)) pkt si = Some (kept, si')
    /\ (kept = true ->
        gServerList st' = <[j := si']> (gServerList st)
        /\ gServerBrowserDirty st' = true)
    /\ (kept = false ->
        (length (gServerList st') < length (gServerList st))%nat
        /\ (NoDup (serverAddresses st) ->
            gServerList st' = serversExcept address (gServerList st))).
Proof.
  intros Hi Hj Hsi H.
  rewrite (handleGameInfoResponse_found _ _ _ _ _ _ Hi Hj Hsi) in H.
  destruct (applyInfoResponse _ _ _ pkt si) as [[kept si'] |] eqn:Happ;
    simpl in H; [| discriminate].
  exists kept, si'. split; [reflexivity |].
  destruct (updateQueryProgress_frame (set_gQueryList (delete i (gQueryList st)) st))
    as (Fl & _). simpl in Fl.
  destruct (applyInfoResponse_sameIdentity _ _ _ _ _ _ _ Happ) as (Ha' & _).
  destruct (findServerIndex_Some _ _ _ Hj) as [(si0 & Hsi0 & Ha) _].
  assert (si0 = si) by congruence. subst si0.
  set (st0 := updateQueryProgress (set_gQueryList (delete i (gQueryList st)) st)) in *.
  assert (Hsi' : gServerList st0 !! j = Some si) by (rewrite Fl; exact Hsi).
  assert (Haddr : serverAddresses (updateServerInfo j (fun _ => si') st0)
                  = serverAddresses st)
    by (rewrite (serverAddresses_update _ si) by assumption;
        unfold serverAddresses; rewrite Fl; reflexivity).
  injection H as <-. split; intros ->.
  - simpl. rewrite Fl, alter_const. split; reflexivity.
  - split.
    + pose proof (removeServerInfo_shrinks address (updateServerInfo j (fun _ => si') st0))
        as Hs.
      rewrite Haddr in Hs. specialize (Hs (found_listed _ _ _ Hj)).
      simpl in Hs. rewrite length_alter, Fl in Hs. exact Hs.
    + intros Hnd. unfold removeServerInfo.
      destruct (removeServerInfo_loop_unique
                  (length (gServerList (updateServerInfo j (fun _ => si') st0))) 0 address
                  (updateServerInfo j (fun _ => si') st0)) as [Hl _].
      * fold (serverAddresses (updateServerInfo j (fun _ => si') st0)).
        rewrite Haddr. exact Hnd.
      * simpl. apply not_elem_of_nil.
      * lia.
      * cbv zeta in Hl. rewrite Hl. simpl. rewrite Fl.
        apply (serversExcept_alter _ _ _ _ si); congruence.
Qed.

Lemma info_response_touches_only_its_sender_witness :
  exists st',
    handleGameInfoResponse sampleAddress sampleInfoResponse (queriedState Status_New)
    = Some st'
    /\ netOut st' = []
    /\ gQueryList st' = [].
Proof.
  set (st' := default (queriedState Status_New)
                (handleGameInfoResponse sampleAddress sampleInfoResponse
                   (queriedState Status_New))).
  assert (H : handleGameInfoResponse sampleAddress sampleInfoResponse
                (queriedState Status_New) = Some st') by (vm_compute; reflexivity).
  destruct (info_response_touches_only_its_sender sampleAddress sampleInfoResponse
              (queriedState Status_New) st' H) as (Hn & _ & _ & _ & _ & Hq & _).
  exists st'. split; [exact H |]. split; [exact Hn | exact Hq].
Defined.

(** X19.  A refresh, and a query of a type other than [Normal] or
    [OfflineFiltered], is never filtered: when the sender's record carries
    the [Updating] flag or the filter type is one that does not filter, a
    response with a query entry is always taken over, whatever the filter
    holds, and the record stays in its place. *)
Theorem info_response_never_filters_refresh
    (address : NetAddress) (pkt : InfoResponse) (st : State)
    (i j : nat) (si : ServerInfo) :
  findPingEntry (gQueryList st) address = Some i ->
  findServerInfo address st = Some j ->
  gServerList st !! j = Some si ->
  isUpdating si = true \/ filterApplies (sActiveFilter st) = false ->
  exists st' si',
    handleGameInfoResponse address pkt st = Some st'
    /\ gServerList st' = <[j := si']> (gServerList st)
    /\ infoRecorded pkt si'
    /\ sameIdentity si si'
    /\ gServerBrowserDirty st' = true.
Proof.
  intros Hi Hj Hsi Hoff.
  assert (Haf : negb (isUpdating si) && filterApplies (sActiveFilter st) = false)
    by (destruct Hoff as [-> | ->]; [reflexivity | apply andb_false_r]).
  destruct (applyInfoResponse_unfiltered (sActiveFilter st) (isUpdating si) pkt si)
    as [si' Happ].
  pose proof (handleGameInfoResponse_found address pkt st i j si Hi Hj Hsi) as Hh.
  rewrite Haf, Happ in Hh. simpl in Hh.
  eexists. exists si'. split; [exact Hh |].
  destruct (updateQueryProgress_frame (set_gQueryList (delete i (gQueryList st)) st))
    as (Fl & _). simpl in Fl.
  simpl. rewrite Fl, alter_const. split; [reflexivity |].
  split; [exact (applyInfoResponse_recorded _ _ _ _ _ _ Happ) |].
  split; [exact (applyInfoResponse_sameIdentity _ _ _ _ _ _ _ Happ) | reflexivity].
Qed.

Lemma info_response_never_filters_refresh_witness :
  exists st' si',
    handleGameInfoResponse sampleAddress sampleInfoResponse (queriedState Status_Updating)
    = Some st'
    /\ gServerList st' = [si']
    /\ si_numPlayers si' = 3.
Proof.
  destruct (info_response_never_filters_refresh sampleAddress sampleInfoResponse
              (queriedState Status_Updating) 0 0
              (si_set_status Status_Updating (newServerInfo sampleAddress)))
    as (st' & si' & H & Hl & Hrec & _).
  - vm_compute; reflexivity.
  - vm_compute; reflexivity.
  - vm_compute; reflexivity.
  - left. vm_compute; reflexivity.
  - exists st', si'. split; [exact H |]. split; [exact Hl |].
    destruct Hrec as (_ & Hn & _). exact Hn.
Defined.



(** X21.  A server that is still listed in full after its info response (no
    record was removed) has the response on record: the flags byte with
    [Responded] added as status, the player, bot and CPU numbers of the
    packet, the mission name without its [.mis] extension, and the dirty
    flag raised; name, ping, version and the local and favourite marks are
    as they were.  If the filter was applied, the numbers are within its
    limits.  With the flags byte in its range the server counts as
    responded and is no longer updating, querying or timed out. *)
Theorem info_response_kept_server_is_recorded
    (address : NetAddress) (pkt : InfoResponse) (st st' : State)
    (i j : nat) (si : ServerInfo) :
  findPingEntry (gQueryList st) address = Some i ->
  findServerInfo address st = Some j ->
  gServerList st !! j = Some si ->
  handleGameInfoResponse address pkt st = Some st' ->
  length (gServerList st') = length (gServerList st) ->
  exists si',
    gServerList st' = <[j := si']> (gServerList st)
    /\ infoRecorded pkt si'
    /\ sameIdentity si si'
    /\ gServerBrowserDirty st' = true
    /\ (isUpdating si = false -> filterApplies (sActiveFilter st) = true ->
        numbersPass (sActiveFilter st) pkt)
    /\ (0 <= ir_status pkt < 256 ->
        status_test (si_status si') Status_Responded = true
        /\ isUpdating si' = false
        /\ isQuerying si' = false
        /\ status_test (si_status si') Status_TimedOut = false).
Proof.
  intros Hi Hj Hsi H Hlen.
  destruct (handleGameInfoResponse_outcome _ _ _ _ _ _ _ Hi Hj Hsi H)
    as (kept & si' & Happ & Hkept & Hgone).
  destruct kept; [| destruct (Hgone eq_refl) as [Hlt _]; lia].
  destruct (Hkept eq_refl) as [Hl Hd].
  pose proof (applyInfoResponse_recorded _ _ _ _ _ _ Happ) as Hrec.
  exists si'. split; [exact Hl |]. split; [exact Hrec |].
  split; [exact (applyInfoResponse_sameIdentity _ _ _ _ _ _ _ Happ) |].
  split; [exact Hd |]. split.
  - intros Hup Hf. rewrite Hup, Hf in Happ. cbn [negb andb] in Happ.
    destruct (applyInfoResponse_checks _ _ _ _ _ _ Happ) as (H1 & H2 & H3 & H4 & H5 & _).
    cbn [andb] in H1, H2, H3, H4, H5. apply checks_numbersPass; assumption.
  - intros Hb. destruct Hrec as (Hs & _). unfold isUpdating, isQuerying. rewrite Hs.
    apply status_of_response. exact Hb.
Qed.

Lemma info_response_kept_server_is_recorded_witness :
  exists st' si',
    handleGameInfoResponse sampleAddress sampleInfoResponse (queriedState Status_Querying)
    = Some st'
    /\ gServerList st' = [si']
    /\ si_status si' = Z.lor 1 Status_Responded
    /\ isQuerying si' = false.
Proof.
  set (st' := default (queriedState Status_Querying)
                (handleGameInfoResponse sampleAddress sampleInfoResponse
                   (queriedState Status_Querying))).
  assert (H : handleGameInfoResponse sampleAddress sampleInfoResponse
                (queriedState Status_Querying) = Some st') by (vm_compute; reflexivity).
  pose proof (info_response_kept_server_is_recorded sampleAddress sampleInfoResponse
                (queriedState Status_Querying) st' 0 0
                (si_set_status Status_Querying (newServerInfo sampleAddress))) as T.
  assert (H1 : findPingEntry (gQueryList (queriedState Status_Querying)) sampleAddress
               = Some 0%nat) by (vm_compute; reflexivity).
  assert (H2 : findServerInfo sampleAddress (queriedState Status_Querying) = Some 0%nat)
    by (vm_compute; reflexivity).
  assert (H3 : gServerList (queriedState Status_Querying) !! 0%nat
               = Some (si_set_status Status_Querying (newServerInfo sampleAddress)))
    by (vm_compute; reflexivity).
  assert (H4 : length (gServerList st')
               = length (gServerList (queriedState Status_Querying)))
    by (vm_compute; reflexivity).
  destruct (T H1 H2 H3 H H4) as (si' & Hl & Hrec & _ & _ & _ & Hflags).
  exists st', si'. split; [exact H |]. split; [exact Hl |].
  split; [exact (proj1 Hrec) |].
  apply Hflags. vm_compute. split; [discriminate | reflexivity].
Defined.

(** ** The mission name *)

Lemma prefix_iff (pat s : string) :
  String.prefix pat s = true <-> exists post, s = pat +:+ post.
Proof.
  revert s. induction pat as [| c pat IH]; intros s.
  - split; [intros _; exists s; reflexivity | intros _; destruct s; reflexivity].
  - destruct s as [| d s].
    + split; [discriminate | intros [post H]; discriminate].
    + cbn [String.prefix]. destruct (Ascii.ascii_dec c d) as [-> | Hne].
      * rewrite IH. split; intros [post H]; exists post.
        -- rewrite H. reflexivity.
        -- injection H as H. exact H.
      * split; [discriminate |]. intros [post H]. injection H as H _. congruence.
Qed.

(** X22.  The mission name kept on record is the received name cut at the
    first [.mis], exactly as [dStrstr] finds it: when the received name is
    [before ++ ".mis" ++ after] and no occurrence of [.mis] starts earlier,
    the name on record is [before], whatever [before] and [after] hold
    (dots included); a received name without any [.mis] is kept whole. *)
Theorem clipAt_drops_extension (name : string) :
  (forall before after,
     name = before +:+ ".mis" +:+ after ->
     (forall before' after',
        name = before' +:+ ".mis" +:+ after' ->
        (String.length before <= String.length before')%nat) ->
     clipAt ".mis" name = before)
  /\ ((forall before after, name <> before +:+ ".mis" +:+ after) ->
      clipAt ".mis" name = name).
Proof.
  generalize ".mis". intros pat. split.
  - induction name as [| c name IH]; intros before after Hocc Hfirst.
    + destruct before; [| discriminate].
      cbn [clipAt]. destruct (String.prefix pat ""); reflexivity.
    + cbn [clipAt]. destruct (String.prefix pat (String c name)) eqn:Hp.
      * apply prefix_iff in Hp as [post Hp].
        specialize (Hfirst "" post Hp). destruct before; [reflexivity |].
        cbn [String.length] in Hfirst. lia.
      * destruct before as [| b before].
        { assert (Ht : String.prefix pat (String c name) = true)
            by (apply prefix_iff; exists after; exact Hocc).
          congruence. }
        injection Hocc as -> Hocc. f_equal.
        apply (IH before after Hocc). intros before' after' H'.
        assert (Hs : String b name = String b before' +:+ pat +:+ after')
          by (rewrite H'; reflexivity).
        specialize (Hfirst _ _ Hs). cbn [String.length] in Hfirst. lia.
  - induction name as [| c name IH]; intros Hnone.
    + cbn [clipAt]. destruct (String.prefix pat ""); reflexivity.
    + cbn [clipAt]. destruct (String.prefix pat (String c name)) eqn:Hp.
      * apply prefix_iff in Hp as [post Hp]. exfalso.
        apply (Hnone "" post). exact Hp.
      * f_equal. apply IH. intros before after H.
        apply (Hnone (String c before) after). rewrite H. reflexivity.
Qed.

Lemma clipAt_drops_extension_witness :
  clipAt ".mis" "v1.2.mis.bak" = "v1.2".
Proof.
  apply (proj1 (clipAt_drops_extension "v1.2.mis.bak") "v1.2" ".bak" eq_refl).
  intros before' after' H.
  destruct before' as [| c0 [| c1 [| c2 [| c3 before']]]];
    simpl in H; try discriminate H; simpl; lia.
Defined.
(** ** Ping responses *)

Lemma updatePingProgress_gServerQueryCount st :
  gServerQueryCount (updatePingProgress st) = gServerQueryCount st.
Proof. progress_only. Qed.
Lemma updatePingProgress_gServerBrowserDirty st :
  gServerBrowserDirty (updatePingProgress st) = gServerBrowserDirty st.
Proof. progress_only. Qed.

Lemma serversExcept_snoc addr l :
  serversExcept addr (l ++ [newServerInfo addr]) = serversExcept addr l.
Proof.
  unfold serversExcept. rewrite filter_app.
  rewrite (filter_cons_False _ (newServerInfo addr)) by (intros Hn; apply Hn; reflexivity).
  rewrite filter_nil. apply app_nil_r.
Qed.

Lemma progress_settled address index (w : bool) st st1 :
  pingSettled address index st st1 ->
  pingSettled address index st (if w then st1 else updatePingProgress st1).
Proof.
  intros (H1 & H2 & H3 & H4 & H5). destruct w; [repeat split; assumption |].
  unfold pingSettled.
  rewrite updatePingProgress_gFinishedList, updatePingProgress_gPingList,
    updatePingProgress_netOut, updatePingProgress_simQueue,
    updatePingProgress_gServerList.
  repeat split; assumption.
Qed.

Lemma rejectPing_settled remove address index w st :
  let st' := rejectPing remove address index (findServerInfo address st) w st in
  pingSettled address index st st' /\ notPromoted st st'.
Proof.
  cbv zeta. unfold rejectPing. cbv zeta.
  set (st2 := set_gPingList _ _).
  assert (H2 : pingSettled address index st st2 /\ notPromoted st st2)
    by (repeat split).
  match goal with
  | |- context [if w then ?s else _] => set (st3 := s)
  end.
  assert (H3 : pingSettled address index st st3 /\ notPromoted st st3).
  { subst st3. destruct (findServerInfo address st) as [j |] eqn:Hj; [| exact H2].
    destruct remove.
    - unfold removeServerInfo.
      destruct (removeServerInfo_loop_others (length (gServerList st2)) 0 address st2)
        as (E1 & _ & E3). cbv zeta in E1, E3.
      generalize dependent (removeServerInfo_loop (length (gServerList st2)) 0 address st2).
      intros r E1 E3. rewrite E3. unfold pingSettled, notPromoted. simpl.
      rewrite E1. repeat split.
    - destruct (findServerIndex_Some _ _ _ Hj) as [(si & Hsi & Ha) _].
      unfold pingSettled, notPromoted. simpl.
      rewrite (serversExcept_alter _ _ _ _ si) by (try assumption; simpl; assumption).
      repeat split. }
  destruct H3 as [H3 (Hq & Hc)]. split; [apply progress_settled; exact H3 |].
  unfold notPromoted. destruct w; [split; assumption |].
  rewrite updatePingProgress_gQueryList, updatePingProgress_gServerQueryCount.
  split; assumption.
Qed.

Ltac verdict_step :=
  match goal with
  | |- context [if ?c then rejectPing ?r ?a ?i ?si ?w ?s else _] => destruct c eqn:?
  end.

Ltac through_progress :=
  rewrite ?updatePingProgress_gFinishedList, ?updatePingProgress_gPingList,
    ?updatePingProgress_netOut, ?updatePingProgress_simQueue,
    ?updatePingProgress_gServerList, ?updatePingProgress_gQueryList,
    ?updatePingProgress_gServerQueryCount.

(** The state after an accepted ping response. *)
Lemma accepted_ping_state h address pkt k flags st index p :
  findPingEntry (gPingList st) address = Some index ->
  gPingList st !! index = Some p ->
  infoKey p = k ->
  versionTag pkt = versionString ->
  MinRequiredProtocolVersion h <= protocolCurrent pkt ->
  protocolMin pkt <= CurrentProtocolVersion h ->
  buildVersion pkt = getVersionNumber h ->
  f_maxPing (sActiveFilter st) = 0 \/ measuredPing h p <= f_maxPing (sActiveFilter st) ->
  exists w,
    handleGamePingResponse h address pkt k flags st =
      let js := match findServerInfo address st with
                | Some j => (j, st)
                | None => findOrCreateServerInfo address st
                end in
      let st := updateServerInfo js.1
                  (si_set_pinged (measuredPing h p) (buildVersion pkt) (isLocal p)
                     (serverName pkt)) js.2 in
      let st := set_gFinishedList (gFinishedList st ++ [address]) st in
      let st := set_gQueryList (gQueryList st ++ [ping_to_query p]) st in
      let st := set_gServerQueryCount (U32 (gServerQueryCount st + 1)) st in
      let st := set_gPingList (delete index (gPingList st)) st in
      let st := if (w : bool) then st else updatePingProgress st in
      set_gServerBrowserDirty true st.
Proof.
  intros Hfind Hp Hk Hver Hp1 Hp2 Hb Hping. unfold handleGamePingResponse.
  destruct (gPingList st) as [| p0 l0] eqn:El; [discriminate |].
  rewrite Hfind, Hp.
  rewrite (bool_decide_eq_false_2 (infoKey p ≠ k)) by (intros Hc; apply Hc; exact Hk).
  rewrite (bool_decide_eq_true_2 (versionTag pkt = versionString)) by exact Hver.
  cbv zeta. cbn [negb].
  rewrite (proj2 (Z.ltb_ge _ _) Hp1), (proj2 (Z.ltb_ge _ _) Hp2).
  rewrite (proj2 (Z.eqb_eq _ _) Hb). cbn [negb].
  fold (measuredPing h p).
  match goal with
  | |- context [if ?a && (0 <? ?m) && (?m <? ?q) then _ else _] =>
      replace (a && (0 <? m) && (m <? q)) with false
  end.
  2: { symmetry. destruct Hping as [H0 | Hle].
       - rewrite H0. cbn [Z.ltb Z.compare]. rewrite andb_false_r. reflexivity.
       - rewrite (proj2 (Z.ltb_ge _ _) Hle). apply andb_false_r. }
  eexists.
  destruct (findServerInfo address st) as [j |];
    [| destruct (findOrCreateServerInfo address st) as [j st1]]; reflexivity.
Qed.

Lemma findServerIndex_alter (g : ServerInfo -> ServerInfo) l addr j :
  (forall si, si_address (g si) = si_address si) ->
  findServerIndex (alter g j l) addr = findServerIndex l addr.
Proof.
  intros Hg. revert j. induction l as [| q l IH]; intros [| j]; try reflexivity.
  - change (alter g 0%nat (q :: l)) with (g q :: l). cbn [findServerIndex].
    rewrite Hg. reflexivity.
  - change (alter g (S j) (q :: l)) with (q :: alter g j l). cbn [findServerIndex].
    rewrite IH. reflexivity.
Qed.

(** The record of the sender once the server list holds one: the place
    [findOrCreateServerInfo] would return. *)
Lemma promote_facts address p ping ver name index (w : bool) j st1 st :
  (findServerInfo address st = Some j /\ st1 = st)
  \/ (findServerInfo address st = None
      /\ (j, st1) = findOrCreateServerInfo address st) ->
  let st2 := updateServerInfo j (si_set_pinged ping ver (isLocal p) name) st1 in
  let st3 := set_gPingList (delete index (gPingList st2))
               (set_gServerQueryCount (U32 (gServerQueryCount st2 + 1))
                  (set_gQueryList (gQueryList st2 ++ [ping_to_query p])
                     (set_gFinishedList (gFinishedList st2 ++ [address]) st2))) in
  let st' := set_gServerBrowserDirty true (if w then st3 else updatePingProgress st3) in
  pingSettled address index st st'
  /\ promoted p st st'
  /\ gServerBrowserDirty st' = true
  /\ exists info,
       findServerInfo address st' = Some j
       /\ gServerList st' !! j = Some info
       /\ si_address info = address
       /\ si_ping info = ping
       /\ si_version info = ver
       /\ si_isLocal info = isLocal p
       /\ (findServerInfo address st = None ->
           info = si_set_pinged ping ver (isLocal p) name (newServerInfo address)).
Proof.
  intros Hjs. cbv zeta.
  assert (Hst1 : findServerInfo address st1 = Some j
                 /\ gFinishedList st1 = gFinishedList st
                 /\ gPingList st1 = gPingList st
                 /\ gQueryList st1 = gQueryList st
                 /\ gServerQueryCount st1 = gServerQueryCount st
                 /\ netOut st1 = netOut st
                 /\ simQueue st1 = simQueue st
                 /\ serversExcept address (gServerList st1)
                    = serversExcept address (gServerList st)
                 /\ (findServerInfo address st = None ->
                     gServerList st1 !! j = Some (newServerInfo address))).
  { destruct Hjs as [[Hj ->] | [Hj Hc]].
    - repeat split; try assumption. rewrite Hj. discriminate.
    - unfold findOrCreateServerInfo in Hc. rewrite Hj in Hc. injection Hc as -> ->.
      unfold findServerInfo in *. simpl.
      rewrite (findServerIndex_snoc _ _ Hj), serversExcept_snoc.
      repeat split. intros _. rewrite lookup_app_r by lia.
      rewrite Nat.sub_diag. reflexivity. }
  destruct Hst1 as (Hj1 & Hf & Hpl & Hq & Hc & Hn & Hs & Hex & Hnew).
  destruct (findServerIndex_Some _ _ _ Hj1) as [(si & Hsi & Ha) _].
  set (g := si_set_pinged ping ver (isLocal p) name).
  assert (Hlist : forall s, gServerList s = alter g j (gServerList st1) ->
            serversExcept address (gServerList s) = serversExcept address (gServerList st)
            /\ exists info,
                 findServerInfo address s = Some j
                 /\ gServerList s !! j = Some info
                 /\ si_address info = address
                 /\ si_ping info = ping
                 /\ si_version info = ver
                 /\ si_isLocal info = isLocal p
                 /\ (findServerInfo address st = None ->
                     info = g (newServerInfo address))).
  { intros s Hs'. unfold findServerInfo at 1. rewrite Hs'. split.
    - rewrite (serversExcept_alter _ _ _ _ si) by assumption. exact Hex.
    - exists (g si). rewrite findServerIndex_alter by reflexivity.
      rewrite list_lookup_alter, Hsi.
      rewrite decide_True by reflexivity.
      repeat split; try assumption.
      intros Hnone. rewrite (Hnew Hnone) in Hsi. injection Hsi as <-. reflexivity. }
  set (s' := set_gServerBrowserDirty true _).
  assert (Hl : gServerList s' = alter g j (gServerList st1))
    by (subst s'; destruct w; simpl; through_progress; reflexivity).
  destruct (Hlist s' Hl) as [Hx (info & Hinfo)].
  assert (Hs' : gFinishedList s' = gFinishedList st1 ++ [address]
                /\ gPingList s' = delete index (gPingList st1)
                /\ netOut s' = netOut st1
                /\ simQueue s' = simQueue st1
                /\ gQueryList s' = gQueryList st1 ++ [ping_to_query p]
                /\ gServerQueryCount s' = U32 (gServerQueryCount st1 + 1)
                /\ gServerBrowserDirty s' = true)
    by (subst s'; destruct w; simpl; through_progress; repeat split).
  destruct Hs' as (E1 & E2 & E3 & E4 & E5 & E6 & E7).
  unfold pingSettled, promoted.
  rewrite E1, E2, E3, E4, E5, E6, E7, Hf, Hpl, Hq, Hc, Hn, Hs.
  repeat split; try assumption. exists info. exact Hinfo.
Qed.

(** X23.  A ping response that passes every test promotes its server: with
    the key of the live ping, the version tag [VER1], protocol versions
    that admit each other, the client's build version and a round-trip time
    within the filter's limit (or no limit), the address is finished, the
    ping entry is erased, a query entry with the ping's address and local
    mark is appended and counted, and the server list holds a record of the
    sender with the measured ping, the build version and the local mark; a
    sender not listed before gets a new record named as in the packet.
    Nothing is sent or scheduled and no other server's record changes. *)
Theorem accepted_ping_promotes_server
    (h : Host) (address : NetAddress) (pkt : PingResponse) (k flags : Z) (st : State)
    (index : nat) (p : Ping) :
  findPingEntry (gPingList st) address = Some index ->
  gPingList st !! index = Some p ->
  infoKey p = k ->
  versionTag pkt = versionString ->
  MinRequiredProtocolVersion h <= protocolCurrent pkt ->
  protocolMin pkt <= CurrentProtocolVersion h ->
  buildVersion pkt = getVersionNumber h ->
  f_maxPing (sActiveFilter st) = 0 \/ measuredPing h p <= f_maxPing (sActiveFilter st) ->
  let st' := handleGamePingResponse h address pkt k flags st in
  pingSettled address index st st'
  /\ promoted p st st'
  /\ gServerBrowserDirty st' = true
  /\ exists j info,
       findServerInfo address st' = Some j
       /\ gServerList st' !! j = Some info
       /\ si_ping info = measuredPing h p
       /\ si_version info = buildVersion pkt
       /\ si_isLocal info = isLocal p
       /\ (findServerInfo address st = None ->
           info = si_set_pinged (measuredPing h p) (buildVersion pkt) (isLocal p)
                    (serverName pkt) (newServerInfo address)).
Proof.
  intros Hfind Hp Hk Hver Hp1 Hp2 Hb Hping. cbv zeta.
  destruct (accepted_ping_state h address pkt k flags st index p
              Hfind Hp Hk Hver Hp1 Hp2 Hb Hping) as [w ->].
  cbv zeta.
  assert (Hjs : exists j st1,
             match findServerInfo address st with
             | Some j => (j, st)
             | None => findOrCreateServerInfo address st
             end = (j, st1)
             /\ ((findServerInfo address st = Some j /\ st1 = st)
                 \/ (findServerInfo address st = None
                     /\ (j, st1) = findOrCreateServerInfo address st))).
  { destruct (findServerInfo address st) as [j |] eqn:Hj.
    - exists j, st. split; [reflexivity | left; split; reflexivity].
    - destruct (findOrCreateServerInfo address st) as [j st1].
      exists j, st1. split; [reflexivity | right; split; reflexivity]. }
  destruct Hjs as (j & st1 & -> & Hjs). cbn [fst snd].
  destruct (promote_facts address p (measuredPing h p) (buildVersion pkt)
              (serverName pkt) index w j st1 st Hjs)
    as (H1 & H2 & H3 & info & H4 & H5 & _ & H6).
  split; [exact H1 |]. split; [exact H2 |]. split; [exact H3 |].
  exists j, info. split; [exact H4 |]. split; [exact H5 |]. exact H6.
Qed.

Lemma accepted_ping_promotes_server_witness :
  let st := querySingleServer sampleHost sampleAddress 0 (initialState ∅) in
  let st' := handleGamePingResponse sampleHost sampleAddress (samplePingResponse "VER1")
               0 0 st in
  gFinishedList st' = [sampleAddress] /\ length (gQueryList st') = 1%nat.
Proof.
  destruct (accepted_ping_promotes_server sampleHost sampleAddress
              (samplePingResponse "VER1") 0 0
              (querySingleServer sampleHost sampleAddress 0 (initialState ∅)) 0%nat
              {| address := sampleAddress; session := 0; key := 0; time := 5000;
                 tryCount := 3; broadcast := false; isLocal := false |})
    as ((Hf & _) & (Hq & _) & _).
  - vm_compute; reflexivity.
  - vm_compute; reflexivity.
  - vm_compute; reflexivity.
  - vm_compute; reflexivity.
  - vm_compute; discriminate.
  - vm_compute; discriminate.
  - vm_compute; reflexivity.
  - left. vm_compute; reflexivity.
  - cbv zeta. split.
    + rewrite Hf. vm_compute; reflexivity.
    + rewrite Hq. vm_compute; reflexivity.
Defined.

(** X24.  Every verdict on an answered ping settles the address.  A
    response whose key is not the key of the first ping entry of its sender
    changes nothing.  With the right key, whether the server is promoted or
    turned down, the address is put on the finished list and that ping
    entry is erased, nothing is sent or scheduled, the records of all other
    servers stay as they are, and the address cannot be enqueued for a ping
    again.  The query list either stays as it is or gains the one entry of
    this server. *)
Theorem answered_ping_is_settled
    (h : Host) (address : NetAddress) (pkt : PingResponse) (k flags : Z) (st : State)
    (index : nat) (p : Ping) :
  findPingEntry (gPingList st) address = Some index ->
  gPingList st !! index = Some p ->
  let st' := handleGamePingResponse h address pkt k flags st in
  (infoKey p <> k -> st' = st)
  /\ (infoKey p = k ->
      pingSettled address index st st'
      /\ (notPromoted st st' \/ promoted p st st')
      /\ pushPingRequest address st' = st').
Proof.
  intros Hfind Hp. cbv zeta. split.
  - intros Hk. unfold handleGamePingResponse.
    destruct (gPingList st) as [| p0 l0] eqn:El; [discriminate |].
    rewrite Hfind, Hp. rewrite (bool_decide_eq_true_2 _ Hk). reflexivity.
  - intros Hk.
    assert (Hmain : pingSettled address index st
                      (handleGamePingResponse h address pkt k flags st)
                    /\ (notPromoted st (handleGamePingResponse h address pkt k flags st)
                        \/ promoted p st (handleGamePingResponse h address pkt k flags st))).
    { unfold handleGamePingResponse.
      destruct (gPingList st) as [| p0 l0] eqn:El; [discriminate |].
      rewrite Hfind, Hp.
      rewrite (bool_decide_eq_false_2 (infoKey p ≠ k)) by (intros Hc; apply Hc; exact Hk).
      cbv zeta. repeat verdict_step;
        try (match goal with
             | |- context [rejectPing ?r address index _ ?w st] =>
                 destruct (rejectPing_settled r address index w st) as [H1 H2];
                 cbv zeta in H1, H2; split; [exact H1 | left; exact H2]
             end).
      assert (Hjs : exists j st1,
                 match findServerInfo address st with
                 | Some j => (j, st)
                 | None => findOrCreateServerInfo address st
                 end = (j, st1)
                 /\ ((findServerInfo address st = Some j /\ st1 = st)
                     \/ (findServerInfo address st = None
                         /\ (j, st1) = findOrCreateServerInfo address st))).
      { destruct (findServerInfo address st) as [j |] eqn:Hj.
        - exists j, st. split; [reflexivity | left; split; reflexivity].
        - destruct (findOrCreateServerInfo address st) as [j st1].
          exists j, st1. split; [reflexivity | right; split; reflexivity]. }
      destruct Hjs as (j & st1 & -> & Hjs).
      match goal with
      | |- context [si_set_pinged ?ping ?ver _ ?name] =>
          match goal with
          | |- context [if ?w then _ else updatePingProgress _] =>
              destruct (promote_facts address p ping ver name index w j st1 st Hjs)
                as (H1 & H2 & _)
          end
      end.
      split; [exact H1 | right; exact H2]. }
    destruct Hmain as [Hs Hq]. split; [exact Hs |]. split; [exact Hq |].
    unfold pushPingRequest.
    rewrite (addressFinished_snoc address _ _ (proj1 Hs)). reflexivity.
Qed.

Lemma answered_ping_is_settled_witness :
  let st := querySingleServer sampleHost sampleAddress 0 (initialState ∅) in
  handleGamePingResponse sampleHost sampleAddress (samplePingResponse "VER1") 7 0 st = st.
Proof.
  apply (proj1 (answered_ping_is_settled sampleHost sampleAddress
                  (samplePingResponse "VER1") 7 0
                  (querySingleServer sampleHost sampleAddress 0 (initialState ∅)) 0%nat
                  {| address := sampleAddress; session := 0; key := 0; time := 5000;
                     tryCount := 3; broadcast := false; isLocal := false |}
                  ltac:(vm_compute; reflexivity) ltac:(vm_compute; reflexivity))).
  vm_compute. discriminate.
Defined.
(** ** Local addresses *)

Lemma pushPingRequest_localNetAddresses addr st :
  localNetAddresses (pushPingRequest addr st) = localNetAddresses st.
Proof. unfold pushPingRequest. destruct (addressFinished addr st); reflexivity. Qed.

Lemma existsb_compareAddresses addr l :
  existsb (compareAddresses addr) l = true <-> addr ∈ l.
Proof.
  induction l as [| a l IH]; simpl.
  - split; [discriminate | intros H; apply elem_of_nil in H; contradiction].
  - unfold compareAddresses at 1. rewrite orb_true_iff, IH, elem_of_cons.
    split; intros [H | H]; auto.
    + left. apply bool_decide_eq_true in H. exact H.
    + left. apply bool_decide_eq_true_2. exact H.
Qed.

Lemma addLocalAddress_set addr st :
  let st' := addLocalAddress addr st in
  addr ∈ localNetAddresses st'
  /\ (forall a, a ∈ localNetAddresses st -> a ∈ localNetAddresses st')
  /\ (NoDup (localNetAddresses st) -> NoDup (localNetAddresses st'))
  /\ (addr ∈ localNetAddresses st -> st' = st).
Proof.
  cbv zeta. unfold addLocalAddress.
  destruct (existsb (compareAddresses addr) (localNetAddresses st)) eqn:E.
  - apply existsb_compareAddresses in E. repeat split; auto.
  - assert (Hn : addr ∉ localNetAddresses st).
    { intros Hin. apply existsb_compareAddresses in Hin. congruence. }
    simpl. repeat split.
    + apply elem_of_app. right. apply list_elem_of_singleton. reflexivity.
    + intros a Ha. apply elem_of_app. left. exact Ha.
    + intros Hnd. apply NoDup_app. split; [exact Hnd |].
      split; [| apply NoDup_singleton].
      intros x Hx Hx'. apply list_elem_of_singleton in Hx'. subst x. contradiction.
    + intros Hin. contradiction.
Qed.

(** X25.  The list of local addresses is kept as a set.  [addLocalAddress]
    leaves a list that holds the address, keeps every address it held, and
    stays free of duplicates; it changes nothing when the address is already
    there.  Through a list packet of the master: with the flags byte set,
    every address of the packet is a local address afterwards; with flags
    0 the local addresses are untouched. *)
Theorem local_addresses_form_a_set
    (addr : NetAddress) (flags : Z) (l : list (Z * Z * Z * Z * Z)) (st : State) :
  (addr ∈ localNetAddresses (addLocalAddress addr st)
   /\ (addr ∈ localNetAddresses st -> addLocalAddress addr st = st))
  /\ (NoDup (localNetAddresses st) ->
      NoDup (localNetAddresses (addLocalAddress addr st))
      /\ NoDup (localNetAddresses (enterServers flags l st)))
  /\ (forall a, a ∈ localNetAddresses st -> a ∈ localNetAddresses (enterServers flags l st))
  /\ (flags <> 0 ->
      forall e, e ∈ l -> entryAddress e ∈ localNetAddresses (enterServers flags l st))
  /\ (flags = 0 -> localNetAddresses (enterServers flags l st) = localNetAddresses st).
Proof.
  destruct (addLocalAddress_set addr st) as (A1 & A2 & A3 & A4). cbv zeta in *.
  split; [split; assumption |].
  assert (Hstep : forall e s,
            localNetAddresses
              (pushPingRequest (entryAddress e)
                 (if flags =? 0 then s else addLocalAddress (entryAddress e) s))
            = localNetAddresses
                (if flags =? 0 then s else addLocalAddress (entryAddress e) s))
    by (intros; apply pushPingRequest_localNetAddresses).
  unfold enterServers. clear A1 A2 A3 A4.
  split; [| split; [| split]].
  - intros Hnd. split; [apply addLocalAddress_set; exact Hnd |].
    revert st Hnd. induction l as [| e l IH]; intros st Hnd; [exact Hnd |].
    cbn [fold_left]. apply IH. rewrite Hstep.
    destruct (flags =? 0); [exact Hnd | apply addLocalAddress_set; exact Hnd].
  - revert st. induction l as [| e l IH]; intros st a Ha; [exact Ha |].
    cbn [fold_left]. apply IH. rewrite Hstep.
    destruct (flags =? 0); [exact Ha | apply addLocalAddress_set; exact Ha].
  - intros Hf. apply Z.eqb_neq in Hf.
    assert (Hmono : forall l' s a, a ∈ localNetAddresses s ->
              a ∈ localNetAddresses
                    (fold_left (fun st' e =>
                       pushPingRequest (entryAddress e)
                         (if flags =? 0 then st'
                          else addLocalAddress (entryAddress e) st')) l' s)).
    { induction l' as [| e' l' IH']; intros s a Ha; [exact Ha |].
      cbn [fold_left]. apply IH'. rewrite Hstep, Hf. apply addLocalAddress_set. exact Ha. }
    revert st. induction l as [| e0 l IH]; intros st e He.
    + apply elem_of_nil in He. contradiction.
    + cbn [fold_left]. apply elem_of_cons in He as [-> | He].
      * apply Hmono. rewrite Hstep, Hf. exact (proj1 (addLocalAddress_set _ _)).
      * apply IH. exact He.
  - intros ->. revert st. induction l as [| e l IH]; intros st; [reflexivity |].
    cbn [fold_left]. rewrite IH, Hstep. reflexivity.
Qed.

Lemma local_addresses_form_a_set_witness :
  NoDup (localNetAddresses
           (enterServers 1 [(192, 0, 2, 10, 28000); (192, 0, 2, 10, 28000)]
              (initialState ∅))).
Proof.
  apply (proj2 (proj1 (proj2 (local_addresses_form_a_set sampleAddress 1
                                [(192, 0, 2, 10, 28000); (192, 0, 2, 10, 28000)]
                                (initialState ∅)))
                  ltac:(vm_compute; constructor))).
Defined.

(** ** Re-requesting list packets *)

Lemma packetLoop_idle now session fuel i st :
  Forall (fun p => overdue now p = false) (drop i (gPacketStatusList st)) ->
  packetLoop now session fuel i st = st.
Proof.
  revert i. induction fuel as [| fuel IH]; intros i Hall; [reflexivity |].
  cbn [packetLoop]. destruct (gPacketStatusList st !! i) as [p |] eqn:Hl; [| reflexivity].
  rewrite (drop_S _ _ _ Hl) in Hall. apply Forall_cons in Hall as [Hp Hall].
  unfold overdue in Hp. rewrite Hp. apply IH. exact Hall.
Qed.

Lemma packetLoop_frame now session fuel i st :
  let st' := packetLoop now session fuel i st in
  (length (gPacketStatusList st') <= length (gPacketStatusList st))%nat
  /\ simQueue st' = simQueue st
  /\ gPingList st' = gPingList st
  /\ gQueryList st' = gQueryList st
  /\ gServerList st' = gServerList st
  /\ gPingSession st' = gPingSession st
  /\ gMasterServerQueryAddress st' = gMasterServerQueryAddress st
  /\ exists sent,
       netOut st' = netOut st ++ sent
       /\ (length sent <= fuel)%nat
       /\ Forall (isRerequestTo (gMasterServerQueryAddress st)) sent.
Proof.
  revert i st. induction fuel as [| fuel IH]; intros i st; cbn [packetLoop].
  - repeat split; try reflexivity. exists []. rewrite app_nil_r.
    split; [reflexivity |]. split; [reflexivity | constructor].
  - destruct (gPacketStatusList st !! i) as [p |] eqn:Hl.
    2: { repeat split; try reflexivity. exists []. rewrite app_nil_r.
         split; [reflexivity |]. split; [simpl; lia | constructor]. }
    destruct (U32 (ps_time p + gPacketTimeout) <? now).
    + destruct (ps_tryCount p =? 0).
      * destruct (IH (S i) (set_gPacketStatusList (delete i (gPacketStatusList st)) st))
          as (H1 & H2 & H3 & H4 & H5 & H6 & H7 & sent & H8 & H9 & H10).
        cbv zeta in *. simpl in H1, H2, H3, H4, H5, H6, H7, H8, H10.
        pose proof (length_delete_le (gPacketStatusList st) i).
        repeat split; try assumption; try lia.
        exists sent. split; [exact H8 |]. split; [lia | exact H10].
      * cbv zeta.
        match goal with
        | |- context [packetLoop now session fuel (S i) ?s] =>
            pose proof (IH (S i) s) as HI; cbv zeta in HI;
            generalize dependent (packetLoop now session fuel (S i) s)
        end.
        intros r HI.
        destruct HI as (H1 & H2 & H3 & H4 & H5 & H6 & H7 & sent & H8 & H9 & H10).
        simpl in H1, H2, H3, H4, H5, H6, H7, H8, H10.
        rewrite length_insert in H1.
        repeat split; try assumption.
        eexists (_ :: sent). rewrite H8, <- app_assoc. split; [reflexivity |].
        split; [simpl; lia |]. constructor; [split; reflexivity | exact H10].
    + destruct (IH (S i) st)
        as (H1 & H2 & H3 & H4 & H5 & H6 & H7 & sent & H8 & H9 & H10).
      repeat split; try assumption.
      exists sent. split; [exact H8 |]. split; [lia | exact H10].
Qed.

(** X26.  The list-packet tick of the current session, while the query is
    active.  When pages are outstanding and none of them is overdue, the
    tick only posts itself again 30 ms later.  Whenever pages are still
    outstanding after the tick, it has posted itself again, has sent
    nothing but re-requests to the master that answered, at most one for
    each page it started with, has not let the list of pages grow, and has
    left the ping and query lists and the servers alone: the ping phase is
    not started from here before the last page is in or given up. *)
Theorem packet_tick_rerequests_pages (h : Host) (session : Z) (st : State) :
  session = U32 (gPingSession st) ->
  sgServerQueryActive st = true ->
  let st' := processServerListPackets h session st in
  (gPacketStatusList st <> [] ->
   Forall (fun p => overdue (getVirtualMilliseconds h) p = false) (gPacketStatusList st) ->
   st' = postEvent (ProcessPacketEvent session) (U32 (getCurrentTime h + 30)) st)
  /\ (gPacketStatusList st' <> [] ->
      simQueue st' = simQueue st ++ [(ProcessPacketEvent session, U32 (getCurrentTime h + 30))]
      /\ (length (gPacketStatusList st') <= length (gPacketStatusList st))%nat
      /\ gPingList st' = gPingList st
      /\ gQueryList st' = gQueryList st
      /\ gServerList st' = gServerList st
      /\ exists sent,
           netOut st' = netOut st ++ sent
           /\ (length sent <= length (gPacketStatusList st))%nat
           /\ Forall (isRerequestTo (gMasterServerQueryAddress st)) sent).
Proof.
  intros Hs Ha. cbv zeta. unfold processServerListPackets.
  rewrite Ha, (bool_decide_eq_false_2 (session ≠ U32 (gPingSession st)))
    by (intros Hn; apply Hn; exact Hs).
  cbn [negb orb]. cbv zeta. split.
  - intros Hne Hall. rewrite packetLoop_idle by (rewrite drop_0; exact Hall).
    destruct (gPacketStatusList st); [contradiction | reflexivity].
  - pose proof (packetLoop_frame (getVirtualMilliseconds h) session
                  (length (gPacketStatusList st)) 0 st) as HI.
    cbv zeta in HI.
    generalize dependent (packetLoop (getVirtualMilliseconds h) session
                            (length (gPacketStatusList st)) 0 st).
    intros r HI.
    destruct HI as (H1 & H2 & H3 & H4 & H5 & H6 & H7 & sent & H8 & H9 & H10).
    destruct (gPacketStatusList r) as [| q l] eqn:Hr.
    + rewrite processPingsAndQueries_gPacketStatusList, Hr. intros Hc. contradiction.
    + intros _. simpl. rewrite Hr, H2, H3, H4, H5.
      repeat split; try assumption. exists sent. repeat split; assumption.
Qed.

Lemma packet_tick_rerequests_pages_witness :
  let st := set_gPacketStatusList [newPacketStatus 1 0 4500]
              (set_sgServerQueryActive true (initialState ∅)) in
  processServerListPackets sampleHost 0 st
  = postEvent (ProcessPacketEvent 0) (U32 (getCurrentTime sampleHost + 30)) st.
Proof.
  apply (proj1 (packet_tick_rerequests_pages sampleHost 0
                  (set_gPacketStatusList [newPacketStatus 1 0 4500]
                     (set_sgServerQueryActive true (initialState ∅)))
                  ltac:(vm_compute; reflexivity) ltac:(vm_compute; reflexivity))).
  - discriminate.
  - constructor; [vm_compute; reflexivity | constructor].
Defined.
(** ** C4 *)

Lemma findServerIndex_first l addr j info :
  firstRecordOf addr l j info -> findServerIndex l addr = Some j.
Proof.
  revert j. induction l as [| q l IH]; intros j (Hl & Ha & Hfirst); [destruct j; discriminate |].
  cbn [findServerIndex]. unfold compareAddresses. destruct j as [| j].
  - injection Hl as ->. rewrite bool_decide_eq_true_2 by congruence. reflexivity.
  - rewrite bool_decide_eq_false_2.
    + rewrite (IH j); [reflexivity |]. split; [exact Hl |]. split; [exact Ha |].
      intros i r Hi Hr. apply (Hfirst (S i) r); [lia | exact Hr].
    + intros Heq. apply (Hfirst 0%nat q); [lia | reflexivity | congruence].
Qed.

Lemma findServerIndex_firstRecord l addr j :
  findServerIndex l addr = Some j -> exists info, firstRecordOf addr l j info.
Proof.
  intros Hj. destruct (findServerIndex_Some _ _ _ Hj) as [(info & Hl & Ha) Hno].
  exists info. split; [exact Hl |]. split; [exact Ha |].
  intros i q Hi Hq Hc. apply Hno. apply list_elem_of_fmap. exists q.
  split; [congruence |]. apply list_elem_of_lookup_2 with i.
  rewrite lookup_take_lt by exact Hi. exact Hq.
Qed.

(** C4, as stated, fails for a live ping that is not the first entry of its
    address.  After the two list fragments that both name 192.0.2.10 and one
    ping tick, two pings to that address are in flight, with keys 0 and 2.
    A response from the address that carries the key of the second one and
    the version tag ["VER2"] is compared with the key of the first entry
    only, and dropped: the address is not finished and no ping entry is
    removed. *)
Lemma version_mismatch_on_second_ping_is_dropped :
  let st := run twoPingsTrace (initialState ∅) in
  let st' := handleGamePingResponse sampleHost sampleAddress (samplePingResponse "VER2")
               2 0 st in
  ((fun p : Ping => (address p, infoKey p)) <$> (gPingList st !! 2%nat)) = Some (sampleAddress, 2)
  /\ versionTag (samplePingResponse "VER2") <> versionString
  /\ st' = st
  /\ (sampleAddress ∉ gFinishedList st')
  /\ length (gPingList st') = 3%nat.
Proof.
  cbv zeta. split; [vm_compute; reflexivity |]. split; [vm_compute; discriminate |].
  split; [vm_compute; reflexivity |].
  split; [| vm_compute; reflexivity].
  apply (bool_decide_unpack _). vm_compute. exact I.
Qed.

(** C4, amended.  A [GamePingResponse] whose key is the key of the first
    ping entry of its address, with a version tag other than ["VER1"], puts
    the address on the finished list and erases that ping entry.  The record
    [findServerInfo] finds for the address (the first one of the address, if
    any) has its status word replaced by exactly [Status_TimedOut = 2^31],
    all its other fields staying as they are, and the dirty flag is raised;
    every other record stays as it is and none is added or removed.  The
    server is not promoted: the query list and its counter are unchanged and
    nothing is sent or scheduled.  The address being finished,
    [pushPingRequest] will not enqueue it again. *)
Theorem version_mismatch_times_out
    (h : Host) (from : NetAddress) (pkt : PingResponse) (k flags : Z) (st : State)
    (index : nat) (p : Ping) :
  findPingEntry (gPingList st) from = Some index ->
  gPingList st !! index = Some p ->
  infoKey p = k ->
  versionTag pkt ≠ versionString ->
  let st' := handleGamePingResponse h from pkt k flags st in
  gFinishedList st' = gFinishedList st ++ [from]
  /\ gPingList st' = delete index (gPingList st)
  /\ length (gServerList st') = length (gServerList st)
  /\ (forall j info,
        firstRecordOf from (gServerList st) j info ->
        exists info',
          gServerList st' !! j = Some info'
          /\ timedOutCopy info info'
          /\ si_status info' = 2 ^ 31
          /\ gServerBrowserDirty st' = true)
  /\ (forall j info,
        gServerList st !! j = Some info ->
        ~ firstRecordOf from (gServerList st) j info ->
        gServerList st' !! j = Some info)
  /\ (from ∉ serverAddresses st -> gServerList st' = gServerList st)
  /\ gQueryList st' = gQueryList st
  /\ gServerQueryCount st' = gServerQueryCount st
  /\ netOut st' = netOut st
  /\ simQueue st' = simQueue st
  /\ pushPingRequest from st' = st'.
Proof.
  intros Hfind Hp Hk Hver. unfold handleGamePingResponse.
  destruct (gPingList st) as [| p0 l0] eqn:El; [discriminate |].
  rewrite Hfind, Hp.
  rewrite (bool_decide_eq_false_2 (infoKey p ≠ k)) by (intros Hc; apply Hc; exact Hk).
  rewrite (bool_decide_eq_false_2 (versionTag pkt = versionString)) by exact Hver.
  simpl negb. cbv iota.
  match goal with
  | |- context [rejectPing false from index ?si ?w st] =>
      pose proof (rejectPing_timed_out from index si w st) as H;
      assert (Hd : si <> None ->
                   gServerBrowserDirty (rejectPing false from index si w st) = true);
      [| set (st1 := rejectPing false from index si w st) in * ]
  end.
  { unfold rejectPing. destruct (findServerInfo from st); [| intros Hc; contradiction].
    intros _. match goal with |- context [if ?w then _ else _] => destruct w end;
      [reflexivity |]. rewrite updatePingProgress_gServerBrowserDirty. reflexivity. }
  simpl in H. destruct H as (Hf & Hl & Hq & Hc & Hn & Hs & Hsl).
  rewrite El in Hl.
  split; [exact Hf |]. split; [exact Hl |].
  assert (Hlen : length (gServerList st1) = length (gServerList st)).
  { rewrite Hsl. destruct (findServerInfo from st); [apply length_alter | reflexivity]. }
  split; [exact Hlen |].
  split; [| split; [| split]].
  - intros j info Hfirst.
    pose proof (findServerIndex_first _ _ _ _ Hfirst) as Hj.
    fold (findServerInfo from st) in Hj. rewrite Hj in Hsl, Hd.
    destruct Hfirst as (Hinfo & _).
    exists (si_set_status Status_TimedOut info).
    split; [rewrite Hsl, list_lookup_alter, Hinfo, decide_True by reflexivity; reflexivity |].
    split; [repeat split |]. split; [reflexivity | apply Hd; discriminate].
  - intros j info Hinfo Hnot. rewrite Hsl.
    destruct (findServerInfo from st) as [j0 |] eqn:Hj0; [| exact Hinfo].
    destruct (findServerIndex_firstRecord _ _ _ Hj0) as [info0 Hfirst0].
    rewrite list_lookup_alter. destruct (decide (j0 = j)) as [-> | Hne]; [| exact Hinfo].
    exfalso. apply Hnot. destruct Hfirst0 as (H0 & Hrest).
    assert (info0 = info) by congruence. subst info0. split; [exact H0 | exact Hrest].
  - intros Hno. rewrite Hsl.
    destruct (findServerInfo from st) as [j0 |] eqn:Hj0; [| reflexivity].
    exfalso. apply Hno. apply (found_listed _ _ _ Hj0).
  - repeat split; try assumption.
    unfold pushPingRequest. rewrite (addressFinished_snoc from _ st1 Hf). reflexivity.
Qed.

Lemma version_mismatch_times_out_witness :
  let st := querySingleServer sampleHost sampleAddress 0
              (set_gServerList knownServers (initialState ∅)) in
  let st' := handleGamePingResponse sampleHost sampleAddress (samplePingResponse "VER2")
               0 0 st in
  gFinishedList st' = [sampleAddress]
  /\ gPingList st' = []
  /\ (exists info',
        gServerList st' !! 1%nat = Some info'
        /\ si_status info' = 2 ^ 31
        /\ si_address info' = sampleAddress)
  /\ gServerList st' !! 0%nat = Some (newServerInfo otherAddress).
Proof.
  pose proof (version_mismatch_times_out sampleHost sampleAddress
                (samplePingResponse "VER2") 0 0
                (querySingleServer sampleHost sampleAddress 0
                   (set_gServerList knownServers (initialState ∅))) 0%nat
                {| address := sampleAddress; session := 0; key := 0; time := 5000;
                   tryCount := 3; broadcast := false; isLocal := false |}) as T.
  assert (H1 : findPingEntry
                 (gPingList (querySingleServer sampleHost sampleAddress 0
                               (set_gServerList knownServers (initialState ∅))))
                 sampleAddress = Some 0%nat) by (vm_compute; reflexivity).
  assert (H2 : gPingList (querySingleServer sampleHost sampleAddress 0
                            (set_gServerList knownServers (initialState ∅))) !! 0%nat
               = Some {| address := sampleAddress; session := 0; key := 0; time := 5000;
                         tryCount := 3; broadcast := false; isLocal := false |})
    by (vm_compute; reflexivity).
  assert (H3 : infoKey {| address := sampleAddress; session := 0; key := 0; time := 5000;
                          tryCount := 3; broadcast := false; isLocal := false |} = 0)
    by (vm_compute; reflexivity).
  assert (H4 : versionTag (samplePingResponse "VER2") ≠ versionString)
    by (vm_compute; discriminate).
  destruct (T H1 H2 H3 H4) as (Hf & Hl & _ & Hrec & Hother & _).
  cbv zeta. split; [rewrite Hf; vm_compute; reflexivity |].
  split; [rewrite Hl; vm_compute; reflexivity |]. split.
  - destruct (Hrec 1%nat (si_set_status (Z.lor Status_New Status_Updating)
                            (newServerInfo sampleAddress)))
      as (info' & Hi & Hcopy & Hst & _).
    + split; [vm_compute; reflexivity |]. split; [reflexivity |].
      intros i q Hi Hq. destruct i as [| i]; [| lia].
      vm_compute in Hq. injection Hq as <-. vm_compute. discriminate.
    + exists info'. split; [exact Hi |]. split; [exact Hst |].
      destruct Hcopy as (_ & Ha & _). rewrite Ha. reflexivity.
  - apply (Hother 0%nat (newServerInfo otherAddress)); [vm_compute; reflexivity |].
    intros (_ & Ha & _). vm_compute in Ha. discriminate.
Defined.
(** ** C1 *)

(** *** Who changes the session counter *)

Lemma updatePingProgress_gPingSession st :
  gPingSession (updatePingProgress st) = gPingSession st.
Proof. progress_only. Qed.

Lemma updateQueryProgress_gPingSession st :
  gPingSession (updateQueryProgress st) = gPingSession st.
Proof. progress_only. Qed.

Lemma relayToMasters_gPingSession t flags p st :
  gPingSession (relayToMasters t flags p st) = gPingSession st.
Proof. rewrite relayToMasters_netOut. reflexivity. Qed.

Lemma removeServerInfo_gPingSession addr st :
  gPingSession (removeServerInfo addr st) = gPingSession st.
Proof.
  unfold removeServerInfo.
  destruct (removeServerInfo_loop_others (length (gServerList st)) 0 addr st)
    as (_ & _ & H).
  cbv zeta in H. rewrite H. reflexivity.
Qed.

Lemma pingLoop_gPingSession h now flags w fuel i st :
  gPingSession (pingLoop h now flags w fuel i st) = gPingSession st.
Proof.
  revert i st. induction fuel as [| fuel IH]; intros i st; [reflexivity |].
  cbn [pingLoop].
  repeat case_match; rewrite ?IH; unfold sendPacket, sendPacketStream, updateServerInfo;
    rewrite ?relayToMasters_gPingSession; simpl;
    rewrite ?updatePingProgress_gPingSession, ?relayToMasters_gPingSession; try reflexivity.
Qed.

Lemma queryLoop_gPingSession h now flags fuel i st :
  gPingSession (queryLoop h now flags fuel i st) = gPingSession st.
Proof.
  revert i st. induction fuel as [| fuel IH]; intros i st; [reflexivity |].
  cbn [queryLoop].
  repeat case_match; rewrite ?IH; unfold sendPacket, sendPacketStream, updateServerInfo;
    rewrite ?relayToMasters_gPingSession; simpl;
    rewrite ?updateQueryProgress_gPingSession, ?relayToMasters_gPingSession; try reflexivity.
Qed.

Lemma processPingsAndQueries_gPingSession h session schedule st :
  gPingSession (processPingsAndQueries h session schedule st) = gPingSession st.
Proof.
  unfold processPingsAndQueries, postEvent, executef.
  repeat case_match; simpl;
    rewrite ?queryLoop_gPingSession, ?pingLoop_gPingSession; reflexivity.
Qed.

Lemma processServerListPackets_gPingSession h session st :
  gPingSession (processServerListPackets h session st) = gPingSession st.
Proof.
  unfold processServerListPackets.
  destruct (bool_decide (session ≠ U32 (gPingSession st)) || negb (sgServerQueryActive st));
    [reflexivity |].
  cbv zeta.
  destruct (packetLoop_frame (getVirtualMilliseconds h) session
              (length (gPacketStatusList st)) 0 st) as (_ & _ & _ & _ & _ & H & _).
  cbv zeta in H.
  destruct (gPacketStatusList (packetLoop _ _ _ _ st)).
  - rewrite processPingsAndQueries_gPingSession. exact H.
  - simpl. exact H.
Qed.

Lemma handleMasterServerListResponse_gPingSession h pkt k flags st :
  gPingSession (handleMasterServerListResponse h pkt k flags st) = gPingSession st.
Proof.
  unfold handleMasterServerListResponse.
  destruct (bool_decide (testKey (packetIndex pkt) st ≠ k)); [reflexivity |].
  cbv zeta. destruct (enterServers_fields flags (servers pkt) st) as (_ & _ & _ & H & _).
  cbv zeta in H.
  destruct (negb (gGotFirstListPacket (enterServers flags (servers pkt) st))).
  - rewrite processServerListPackets_gPingSession. exact H.
  - exact H.
Qed.

Lemma rejectPing_gPingSession remove addr index si w st :
  gPingSession (rejectPing remove addr index si w st) = gPingSession st.
Proof.
  unfold rejectPing, updateServerInfo.
  destruct si, remove, w; simpl;
    rewrite ?updatePingProgress_gPingSession, ?removeServerInfo_gPingSession; reflexivity.
Qed.

Lemma findOrCreateServerInfo_gPingSession addr st :
  gPingSession (findOrCreateServerInfo addr st).2 = gPingSession st.
Proof. unfold findOrCreateServerInfo. destruct (findServerInfo addr st); reflexivity. Qed.

Lemma pushPingRequest_gPingSession addr st :
  gPingSession (pushPingRequest addr st) = gPingSession st.
Proof. unfold pushPingRequest. destruct (addressFinished addr st); reflexivity. Qed.

Lemma handleGamePingResponse_gPingSession h from pkt k flags st :
  gPingSession (handleGamePingResponse h from pkt k flags st) = gPingSession st.
Proof.
  unfold handleGamePingResponse.
  destruct (gPingList st) as [| p0 l0] eqn:El; [reflexivity |]. rewrite <- El. clear El.
  destruct (findPingEntry (gPingList st) from) as [index |].
  2: { destruct (negb (addressFinished from st)); [| reflexivity].
       cbv zeta. destruct (findPingEntry _ from); simpl;
         apply pushPingRequest_gPingSession. }
  destruct (gPingList st !! index) as [p |]; [| reflexivity].
  destruct (bool_decide (infoKey p ≠ k)); [reflexivity |].
  cbv zeta. repeat verdict_step; rewrite ?rejectPing_gPingSession; try reflexivity.
  pose proof (findOrCreateServerInfo_gPingSession from st) as Hc.
  destruct (findServerInfo from st) as [j |];
    [| destruct (findOrCreateServerInfo from st) as [j st1]; cbn [snd] in Hc];
    match goal with
    | |- context [if ?w then _ else updatePingProgress _] => destruct w
    end; simpl; rewrite ?updatePingProgress_gPingSession; simpl; try exact Hc; reflexivity.
Qed.

Lemma querySingleServer_gPingSession h addr flags st :
  gPingSession (querySingleServer h addr flags st) = gPingSession st.
Proof.
  unfold querySingleServer. cbv zeta.
  rewrite processPingsAndQueries_gPingSession, pushPingRequest_gPingSession.
  unfold executef, updateServerInfo. simpl.
  destruct (findServerInfo addr (set_sgServerQueryActive true st)); reflexivity.
Qed.

Lemma stopServerQuery_gPingSession st :
  gPingSession (stopServerQuery st) = gPingSession st.
Proof.
  unfold stopServerQuery. destruct (sgServerQueryActive st); [| reflexivity].
  cbv zeta. simpl. destruct (gPingList st); [| reflexivity].
  apply (proj1 (cancelServerQuery_fields (set_gPacketStatusList [] st))).
Qed.

Lemma step_gPingSession h i st :
  (forall b, i <> CallClearServerList b) ->
  gPingSession (step h i st) = gPingSession st.
Proof.
  intros Hi. destruct i; cbn [step].
  - apply querySingleServer_gPingSession.
  - apply (proj1 (cancelServerQuery_fields st)).
  - apply stopServerQuery_gPingSession.
  - exfalso. apply (Hi clearServerInfo). reflexivity.
  - apply processPingsAndQueries_gPingSession.
  - apply processServerListPackets_gPingSession.
  - apply handleMasterServerListResponse_gPingSession.
  - apply handleGamePingResponse_gPingSession.
Qed.

Lemma processMasterServerQuery_gPingSession h session st :
  gPingSession (processMasterServerQuery h session st) = gPingSession st.
Proof.
  unfold processMasterServerQuery.
  destruct (bool_decide (session ≠ U32 (gPingSession st)) || negb (sgServerQueryActive st));
    [reflexivity |].
  destruct (gGotFirstListPacket st); [reflexivity |]. cbv zeta.
  assert (Hdue : gPingSession (masterQueryDue h (getVirtualMilliseconds h) st).2
                 = gPingSession st).
  { unfold masterQueryDue.
    destruct (tryCount (gMasterServerPing st) =? 0).
    - match goal with
      | |- context [pickMasterServer h ?s] =>
          destruct (pickMasterServer_facts h s) as (_ & Hp & _); cbv zeta in Hp;
          destruct (pickMasterServer h s) as [ok s1]; cbn [fst snd] in Hp
      end.
      rewrite Hp. destruct ok; unfold executef, sendPacketStream; simpl;
        repeat case_match; reflexivity.
    - unfold executef, sendPacketStream; simpl; repeat case_match; reflexivity. }
  destruct (U32 (time (gMasterServerPing st) + gMasterServerTimeout)
            <? getVirtualMilliseconds h).
  - destruct (masterQueryDue h (getVirtualMilliseconds h) st) as [keep s1].
    cbn [snd] in Hdue. destruct keep; [exact Hdue |].
    rewrite processPingsAndQueries_gPingSession. exact Hdue.
  - reflexivity.
Qed.

Lemma processHeartbeat_gPingSession h seq st :
  gPingSession (processHeartbeat h seq st) = gPingSession st.
Proof.
  unfold processHeartbeat. destruct (bool_decide (seq ≠ gHeartbeatSeq st)); [reflexivity |].
  rewrite sendHeartbeat_netOut. reflexivity.
Qed.

Lemma handleGameInfoResponse_gPingSession from pkt st st' :
  handleGameInfoResponse from pkt st = Some st' -> gPingSession st' = gPingSession st.
Proof.
  unfold handleGameInfoResponse. intros H.
  destruct (gQueryList st) as [| q0 l0] eqn:El; [injection H as <-; reflexivity |].
  rewrite <- El in H. clear El.
  destruct (findPingEntry (gQueryList st) from) as [index |];
    [| injection H as <-; reflexivity].
  cbv zeta in H.
  set (st0 := updateQueryProgress _) in H.
  assert (H0 : gPingSession st0 = gPingSession st)
    by (subst st0; rewrite updateQueryProgress_gPingSession; reflexivity).
  destruct (findServerInfo from st0) as [j |]; [| injection H as <-; exact H0].
  destruct (gServerList st0 !! j) as [si |]; [| injection H as <-; exact H0].
  destruct (applyInfoResponse _ _ _ pkt si) as [[kept si'] |]; [| discriminate].
  cbn [mbind option_bind] in H. injection H as <-.
  destruct kept; [exact H0 |]. rewrite removeServerInfo_gPingSession. exact H0.
Qed.

Lemma enter_gPingSession h e st st' :
  callsClearServerList e = false ->
  enter h e st = Some st' -> gPingSession st' = gPingSession st.
Proof.
  intros Hc He. destruct e; cbn [enter] in He.
  - injection He as <-. apply step_gPingSession. intros b ->. discriminate.
  - injection He as <-. apply processMasterServerQuery_gPingSession.
  - injection He as <-. apply processHeartbeat_gPingSession.
  - injection He as <-. unfold startHeartbeat.
    destruct (validateAuthenticatedServer h); [| reflexivity].
    cbv zeta. rewrite processHeartbeat_gPingSession. reflexivity.
  - injection He as <-. reflexivity.
  - injection He as <-. unfold setServerInfo.
    destruct (_ && _); [| reflexivity].
    destruct (gServerList st !! _); [| reflexivity].
    cbn [snd]. rewrite publishServerInfo_only_vars. reflexivity.
  - injection He as <-. unfold handleGamePingRequest, sendPacketStream.
    repeat case_match; reflexivity.
  - apply (handleGameInfoResponse_gPingSession _ _ _ _ He).
Qed.

Lemma enterAll_gPingSession trace st later :
  withoutClearServerList trace ->
  enterAll trace st = Some later -> gPingSession later = gPingSession st.
Proof.
  intros Hw. revert st. induction Hw as [| [h e] trace Hc _ IH]; intros st H.
  - injection H as <-. reflexivity.
  - cbn [enterAll] in H. destruct (enter h e st) as [st1 |] eqn:He; [| discriminate].
    rewrite (IH st1 H). exact (enter_gPingSession h e st st1 Hc He).
Qed.

(** *** Cancelling and clearing *)

(** C1, as stated, fails: [cancelServerQuery] does not touch
    [gPingSession].  Here a single-server refresh is under way; cancelling it
    leaves the session at its old value, and the ping event that the refresh
    had scheduled, stamped with that session, is not ignored when it fires
    afterwards: it reports the query as done. *)
Lemma cancel_does_not_advance_session :
  let st := querySingleServer sampleHost sampleAddress 0 (initialState ∅) in
  let st' := cancelServerQuery st in
  sgServerQueryActive st = true
  /\ ~ (gPingSession st < gPingSession st')
  /\ (ProcessPingEvent (U32 (gPingSession st)), 5001) ∈ simQueue st
  /\ conCalls (processPingsAndQueries sampleHost (U32 (gPingSession st)) true st')
     = conCalls st' ++ [onServerQueryStatus "done" "No servers found." (ProgressLit "1")].
Proof.
  split; [vm_compute; reflexivity |]. split; [vm_compute; discriminate |].
  split; [vm_compute; left; reflexivity | vm_compute; reflexivity].
Qed.

Lemma cancelServerQuery_inactive st : sgServerQueryActive (cancelServerQuery st) = false.
Proof.
  destruct (sgServerQueryActive st) eqn:Ha.
  - apply (proj2 (cancelServerQuery_fields st) Ha).
  - unfold cancelServerQuery. rewrite Ha. exact Ha.
Qed.

Lemma processServerListPackets_inactive h session st :
  sgServerQueryActive st = false -> processServerListPackets h session st = st.
Proof.
  intros Ha. unfold processServerListPackets. rewrite Ha, orb_true_r. reflexivity.
Qed.

(** A list response that passes the key check is entered whether or not a
    query is active. *)
Lemma list_response_entered_when_inactive h pkt flags st :
  sgServerQueryActive st = false ->
  gPingList (handleMasterServerListResponse h pkt (testKey (packetIndex pkt) st) flags st)
  = gPingList (enterServers flags (servers pkt) st).
Proof.
  intros Ha. unfold handleMasterServerListResponse.
  rewrite bool_decide_eq_false_2 by (intros Hc; apply Hc; reflexivity).
  cbv zeta.
  destruct (enterServers_fields flags (servers pkt) st) as (_ & _ & _ & _ & Hact).
  cbv zeta in Hact.
  destruct (negb (gGotFirstListPacket (enterServers flags (servers pkt) st)));
    [| reflexivity].
  rewrite processServerListPackets_inactive; [reflexivity |].
  unfold fillPacketStatusList. simpl. rewrite Hact. exact Ha.
Qed.

(** What carries the stamp of an earlier session is ignored. *)
Lemma stale_session_ignored h old st :
  gPingSession st = S32 (old + 1) ->
  (forall schedule, processPingsAndQueries h (U32 old) schedule st = st)
  /\ processServerListPackets h (U32 old) st = st
  /\ processMasterServerQuery h (U32 old) st = st
  /\ (forall pkt stored flags,
        handleMasterServerListResponse h pkt (keyField old stored) flags st = st).
Proof.
  intros Hs.
  assert (Hstale : bool_decide (U32 old ≠ U32 (gPingSession st)) = true).
  { apply bool_decide_eq_true_2. rewrite Hs. intros Hc. symmetry in Hc.
    exact (U32_S32_succ_neq _ Hc). }
  repeat apply conj.
  - intros schedule. unfold processPingsAndQueries. rewrite Hstale. reflexivity.
  - unfold processServerListPackets. rewrite Hstale. reflexivity.
  - unfold processMasterServerQuery. rewrite Hstale. reflexivity.
  - intros pkt stored flags. unfold handleMasterServerListResponse, testKey.
    rewrite bool_decide_eq_true_2; [reflexivity |].
    rewrite Hs. intros Hc. symmetry in Hc. exact (keyField_stale_session _ _ _ Hc).
Qed.

(** C1, amended.  [cancelServerQuery] never changes [gPingSession]: it
    cancels by leaving the query inactive and, when one was active, the
    packet-status, ping and query lists empty.  In the state it returns
    every [GamePingResponse] is dropped (the ping list is empty) and every
    list-packet event is ignored (no query is active).  That does not last:
    a master list response that passes the key check, the session being
    unchanged, is still accepted after a cancel and enters its servers in
    the ping list.

    Of all entry points modelled here, only [clearServerList] changes the
    session counter.  It adds one (as a signed 32-bit number), which is an
    increase unless the counter wraps.  After [clearServerList], for as
    long as it is not called again and whatever else happens, a ping event,
    a list-packet event, a master-query event or a master list response
    stamped with the previous session is ignored; in the state
    [clearServerList] returns every [GamePingResponse] is dropped too. *)
Theorem cancel_keeps_session_clear_advances_it (h : Host) (b : bool) (st : State) :
  let cancelled := cancelServerQuery st in
  let cleared := clearServerList b st in
  gPingSession cancelled = gPingSession st
  /\ sgServerQueryActive cancelled = false
  /\ (sgServerQueryActive st = true ->
      gPingList cancelled = [] /\ gQueryList cancelled = []
      /\ gPacketStatusList cancelled = []
      /\ (forall from pkt k flags,
            handleGamePingResponse h from pkt k flags cancelled = cancelled))
  /\ (forall session, processServerListPackets h session cancelled = cancelled)
  /\ (forall pkt flags,
        gPingList (handleMasterServerListResponse h pkt
                     (testKey (packetIndex pkt) cancelled) flags cancelled)
        = gPingList (enterServers flags (servers pkt) cancelled))
  /\ (forall h' e st',
        callsClearServerList e = false ->
        enter h' e st = Some st' -> gPingSession st' = gPingSession st)
  /\ gPingSession cleared = S32 (gPingSession st + 1)
  /\ (- 2 ^ 31 <= gPingSession st < 2 ^ 31 - 1 -> gPingSession st < gPingSession cleared)
  /\ (forall trace later,
        withoutClearServerList trace ->
        enterAll trace cleared = Some later ->
        gPingSession later = gPingSession cleared
        /\ (forall schedule,
              processPingsAndQueries h (U32 (gPingSession st)) schedule later = later)
        /\ processServerListPackets h (U32 (gPingSession st)) later = later
        /\ processMasterServerQuery h (U32 (gPingSession st)) later = later
        /\ (forall pkt stored flags,
              handleMasterServerListResponse h pkt (keyField (gPingSession st) stored)
                flags later = later))
  /\ (forall from pkt k flags, handleGamePingResponse h from pkt k flags cleared = cleared).
Proof.
  cbv zeta.
  destruct (cancelServerQuery_fields st) as (C1 & C2).
  destruct (clearServerList_fields b st) as (D1 & D2 & _).
  cbv zeta in C1, C2, D1, D2.
  pose proof (cancelServerQuery_inactive st) as Hin.
  split; [exact C1 |]. split; [exact Hin |].
  split; [| split; [| split; [| split; [| split; [| split; [| split]]]]]].
  - intros Ha. destruct (C2 Ha) as (E1 & E2 & E3 & _).
    repeat apply conj; try assumption.
    intros from pkt k flags. apply handleGamePingResponse_no_pings. exact E1.
  - intros session. apply processServerListPackets_inactive. exact Hin.
  - intros pkt flags. apply list_response_entered_when_inactive. exact Hin.
  - intros h' e st'. apply enter_gPingSession.
  - exact D1.
  - intros Hr. rewrite D1, S32_id; lia.
  - intros trace later Hw Hrun.
    pose proof (enterAll_gPingSession _ _ _ Hw Hrun) as Hs.
    split; [exact Hs |]. apply stale_session_ignored. rewrite Hs. exact D1.
  - intros from pkt k flags. apply handleGamePingResponse_no_pings. exact D2.
Qed.

Lemma cancel_keeps_session_clear_advances_it_witness :
  let st := querySingleServer sampleHost sampleAddress 0 (initialState ∅) in
  gPingList (cancelServerQuery st) = []
  /\ length (gPingList (handleMasterServerListResponse sampleHost fragment1 0 0
                          (cancelServerQuery st))) = 2%nat
  /\ gPingSession st < gPingSession (clearServerList true st)
  /\ processPingsAndQueries sampleHost 0 true
       (querySingleServer sampleHost otherAddress 0 (clearServerList true st))
     = querySingleServer sampleHost otherAddress 0 (clearServerList true st).
Proof.
  pose proof (cancel_keeps_session_clear_advances_it sampleHost true
                (querySingleServer sampleHost sampleAddress 0 (initialState ∅)))
    as (_ & _ & Hc & _ & Hlist & _ & _ & Hlt & Hlater & _).
  cbv zeta in Hc, Hlist, Hlt, Hlater. cbv zeta. split; [| split; [| split]].
  - apply Hc. vm_compute. reflexivity.
  - specialize (Hlist fragment1 0).
    assert (Hk : testKey (packetIndex fragment1)
                   (cancelServerQuery
                      (querySingleServer sampleHost sampleAddress 0 (initialState ∅))) = 0)
      by (vm_compute; reflexivity).
    rewrite Hk in Hlist. rewrite Hlist. vm_compute. reflexivity.
  - apply Hlt. vm_compute. split; [discriminate | reflexivity].
  - destruct (Hlater [(sampleHost, Orchestrated (CallQuerySingleServer otherAddress 0))]
                (querySingleServer sampleHost otherAddress 0
                   (clearServerList true
                      (querySingleServer sampleHost sampleAddress 0 (initialState ∅)))))
      as (_ & Hev & _).
    + repeat constructor.
    + reflexivity.
    + exact (Hev true).
Defined.
